(** * financial-intel: the validation-gated ingestion pipeline

    A shallow embedding of
    - [scripts/pipelines/daily_eod_pipeline.py]
      ([DataIngestionOrchestrator], [DataQualityValidator], [main]),
    - [backend/api/services/pipeline_service.py]
      ([PipelineStatus], [PipelineService]),
    - [backend/clients/yfinance_client.py] (the rate limiter, the ticker
      formats and the frames of [fetch_batch_multi]),
    followed by the properties of the specification that concern them.

    Conventions.  Python objects mutated in place ([self.stats],
    [self.validation_results], [self.status], [self.last_request_time])
    are the state of a small state-and-exception monad; [try/except] is
    [try_except]; an exception is an instance of [Exception], which is
    what the handlers of the source catch.  Timestamps are integers
    counted in nanoseconds; float ratios are exact rationals (for row
    counts below 2^52 and ages at this resolution the comparisons of the
    source agree with the exact ones); the clock of the event loop is a
    rational number of seconds that advances when the clock is read,
    across an [await asyncio.sleep] and across a download, and not in the
    statements without [await] between the recording of a request
    instant and the hand-over of the download to the executor. *)

From stdpp Require Import base tactics option list sorting strings gmap pretty.
From Stdlib Require Import ZArith QArith Lia Lqa Ascii.

#[local] Open Scope string_scope.
#[local] Open Scope Z_scope.

(* ===================================================================== *)
(** * Part I. The embedding                                               *)
(* ===================================================================== *)

(** ** Python runtime: exceptions, values, the state-and-exception monad *)

(** An instance of a subclass of [Exception]; [str(e)] is its message. *)
Record exn : Type := Exception { exc_type : string; exc_msg : string }.

Definition str_exn (e : exn) : string := exc_msg e.

Definition AttributeError (msg : string) : exn := Exception "AttributeError" msg.
(** [KeyError(key)] for a string key: [str(e)] is the [repr] of the key,
    the key between single quotes (for a key without quote or escape). *)
Definition KeyError (key : string) : exn := Exception "KeyError" ("'" ++ key ++ "'").
Definition TypeError (msg : string) : exn := Exception "TypeError" msg.

Inductive outcome (A : Type) : Type :=
| Returns (a : A)
| Raises (e : exn).
Arguments Returns {A} a.
Arguments Raises {A} e.

(** A computation over mutable state [St]: the state survives a raise. *)
Definition M (St A : Type) : Type := St -> outcome A * St.

Definition ret {St A} (a : A) : M St A := fun s => (Returns a, s).

Definition bind {St A B} (c : M St A) (k : A -> M St B) : M St B :=
  fun s =>
    match c s with
    | (Returns a, s') => k a s'
    | (Raises e, s') => (Raises e, s')
    end.

Definition raise {St A} (e : exn) : M St A := fun s => (Raises e, s).

Definition gets {St A} (f : St -> A) : M St A := fun s => (Returns (f s), s).

Definition modify {St} (f : St -> St) : M St unit := fun s => (Returns tt, f s).

(** [try: body except Exception as e: handler e] *)
Definition try_except {St A} (body : M St A) (handler : exn -> M St A) : M St A :=
  fun s =>
    match body s with
    | (Returns a, s') => (Returns a, s')
    | (Raises e, s') => handler e s'
    end.

(** An expression that may raise, evaluated inside a computation. *)
Definition lift {St A} (o : outcome A) : M St A := fun s => (o, s).

Notation "x <- c1 ;; c2" := (bind c1 (fun x => c2))
  (at level 90, c1 at next level, right associativity).
Notation "c1 ;;; c2" := (bind c1 (fun _ => c2))
  (at level 90, right associativity).

(** [for x in xs: body x] *)
Fixpoint for_each {St A} (xs : list A) (body : A -> M St unit) : M St unit :=
  match xs with
  | [] => ret tt
  | x :: rest => body x ;;; for_each rest body
  end.

(** The values a service summary is made of. *)
#[local] Set Warnings "-register-all".
Inductive pyval : Type :=
| PyNone
| PyInt (n : Z)
| PyStr (s : string)
| PyDict (items : list (string * pyval)).

Fixpoint assoc (k : string) (items : list (string * pyval)) : option pyval :=
  match items with
  | [] => None
  | (k', v) :: rest => if String.eqb k k' then Some v else assoc k rest
  end.

(** [v[k]] *)
Definition py_getitem (v : pyval) (k : string) : outcome pyval :=
  match v with
  | PyDict items =>
      match assoc k items with
      | Some x => Returns x
      | None => Raises (KeyError k)
      end
  | _ => Raises (TypeError "object is not subscriptable")
  end.

(** [v.get(k, default)] *)
Definition py_get (v : pyval) (k : string) (dflt : pyval) : outcome pyval :=
  match v with
  | PyDict items => Returns (default dflt (assoc k items))
  | _ => Raises (AttributeError "object has no attribute 'get'")
  end.

(** [n + v] for an [int] n: defined on integers, [TypeError] otherwise. *)
Definition py_int_add (n : Z) (v : pyval) : outcome Z :=
  match v with
  | PyInt m => Returns (n + m)
  | _ => Raises (TypeError "unsupported operand type(s) for +=")
  end.

(** [v == s] for a string literal [s] *)
Definition py_eq_str (v : pyval) (s : string) : bool :=
  match v with
  | PyStr s' => String.eqb s' s
  | _ => false
  end.

(** [range(0, n, step)] for a positive [step] *)
Definition py_range0 (n step : nat) : list nat :=
  map (fun k => (k * step)%nat) (seq 0 ((n + step - 1) / step)%nat).

(** [l[i : j]] for [i <= j] *)
Definition slice {A} (l : list A) (i j : nat) : list A := take (j - i) (drop i l).

(** ** Configuration ([daily_eod_pipeline.py], lines 33-39; [GROUP_SIZE]
       is the local constant of line 97) *)

Definition MIN_DATA_POINTS_REQUIRED : Z := 5.
Definition MAX_MISSING_RATIO : Q := 1 # 10.
Definition MIN_ASSETS_REQUIRED : Z := 50.
Definition LOOKBACK_DAYS : Z := 5.
Definition BATCH_SIZE : nat := 10.
Definition MAX_WORKERS : nat := 5.
Definition GROUP_SIZE : nat := 5.

(** Instants and durations are counted in nanoseconds. *)
Definition SECOND : Z := 1000000000.
Definition HOUR : Z := 3600 * SECOND.
Definition DAY : Z := 24 * HOUR.

(** ** Data ingestion layer: [DataIngestionOrchestrator] *)

(** A row of [assets] as [fetch_active_assets] selects it
    ([symbol, yfinance_ticker]); a null ticker is [None]. *)
Record Asset : Type := mkAsset { symbol : string; yfinance_ticker : option string }.

(** [self.stats] *)
Record Stats : Type := mkStats {
  total_assets : Z;
  successful : Z;
  failed : Z;
  skipped : Z;
  total_records : Z
}.

(** The value [__init__] gives to [self.stats]. *)
Definition init_stats : Stats := mkStats 0 0 0 0 0.

Definition set_total_assets (n : Z) (st : Stats) : Stats :=
  mkStats n (successful st) (failed st) (skipped st) (total_records st).
Definition add_successful (n : Z) (st : Stats) : Stats :=
  mkStats (total_assets st) (successful st + n) (failed st) (skipped st) (total_records st).
Definition add_failed (n : Z) (st : Stats) : Stats :=
  mkStats (total_assets st) (successful st) (failed st + n) (skipped st) (total_records st).
Definition add_skipped (n : Z) (st : Stats) : Stats :=
  mkStats (total_assets st) (successful st) (failed st) (skipped st + n) (total_records st).
Definition set_total_records (n : Z) (st : Stats) : Stats :=
  mkStats (total_assets st) (successful st) (failed st) (skipped st) n.

(** The keyword arguments of one [run_multi_fetch_store] call. *)
Record FetchRequest : Type := mkFetchRequest {
  req_symbols : list string;
  req_start_date : Z;
  req_end_date : Z;
  req_granularity : string;
  req_group_size : nat;
  req_validate : bool
}.

(** [a.get("yfinance_ticker") or a["symbol"]]: a null or empty ticker is
    falsy. *)
Definition ticker_or_symbol (a : Asset) : string :=
  match yfinance_ticker a with
  | Some t => if String.eqb t "" then symbol a else t
  | None => symbol a
  end.

Section Orchestrator.
(** The object held in [self.pipeline_service]: its state and what
    evaluating [self.pipeline_service.run_multi_fetch_store(...)] does. *)
Context {S : Type}.
Variable run_multi_fetch_store : FetchRequest -> S -> outcome pyval * S.

Record Orchestrator : Type := mkOrchestrator {
  stats : Stats;
  pipeline_service : S
}.

Definition modify_stats (f : Stats -> Stats) : M Orchestrator unit :=
  modify (fun o => mkOrchestrator (f (stats o)) (pipeline_service o)).

Definition call_service (req : FetchRequest) : M Orchestrator pyval :=
  fun o =>
    let (r, svc) := run_multi_fetch_store req (pipeline_service o) in
    (r, mkOrchestrator (stats o) svc).

(** Lines 113-125: the body of [for sym in group_symbols]. *)
Definition tally_symbol (summary : pyval) (sym : string) : M Orchestrator unit :=
  results <- lift (py_getitem summary "results") ;;
  res <- lift (py_get results sym (PyDict [])) ;;
  status <- lift (py_get res "status" PyNone) ;;
  records <- lift (py_get res "records_stored" (PyInt 0)) ;;
  if py_eq_str status "success" then
    modify_stats (add_successful 1) ;;;
    total <- gets (fun o => total_records (stats o)) ;;
    total' <- lift (py_int_add total records) ;;
    modify_stats (set_total_records total')
  else if py_eq_str status "skipped" then
    modify_stats (add_skipped 1)
  else
    modify_stats (add_failed 1).

Definition fetch_request (start_date end_date : Z) (group_symbols : list string)
  : FetchRequest :=
  mkFetchRequest group_symbols start_date end_date "daily" GROUP_SIZE true.

(** Lines 99-128: one fetch group, with its [try/except]. *)
Definition process_group (start_date end_date : Z) (group : list Asset)
  : M Orchestrator unit :=
  let group_symbols := map ticker_or_symbol group in
  try_except
    (summary <- call_service (fetch_request start_date end_date group_symbols) ;;
     for_each group_symbols (tally_symbol summary))
    (fun e => modify_stats (add_failed (Z.of_nat (length group_symbols)))).

(** Lines 90-128: one batch. *)
Definition process_batch (start_date end_date : Z) (batch : list Asset)
  : M Orchestrator unit :=
  for_each (py_range0 (length batch) GROUP_SIZE)
    (fun j => process_group start_date end_date (slice batch j (j + GROUP_SIZE))).

(** [ingest_daily_data(assets)], run when the clock reads [now]. *)
Definition ingest_daily_data (now : Z) (assets : list Asset) : M Orchestrator Stats :=
  modify_stats (set_total_assets (Z.of_nat (length assets))) ;;;
  let end_date := now in
  let start_date := end_date - LOOKBACK_DAYS * DAY in
  for_each (py_range0 (length assets) BATCH_SIZE)
    (fun i => process_batch start_date end_date (slice assets i (i + BATCH_SIZE))) ;;;
  gets stats.

(** The fetch groups of a run, in the order they are processed. *)
Definition groups_of (assets : list Asset) : list (list Asset) :=
  concat (map (fun i =>
                 let batch := slice assets i (i + BATCH_SIZE) in
                 map (fun j => slice batch j (j + GROUP_SIZE))
                     (py_range0 (length batch) GROUP_SIZE))
              (py_range0 (length assets) BATCH_SIZE)).
End Orchestrator.

(** ** [PipelineService] ([pipeline_service.py]) *)

Inductive PipelineStatus : Type :=
| IDLE | RUNNING | VALIDATING | COMPUTING | CACHING | COMPLETED | FAILED | PAUSED.

#[global] Instance PipelineStatus_eq_dec : EqDecision PipelineStatus.
Proof. solve_decision. Defined.

(** [self.metrics]; the two instants are kept as clock readings rather
    than as their [isoformat()] rendering. *)
Record Metrics : Type := mkMetrics {
  start_time : option Z;
  end_time : option Z;
  tier_1_records_ingested : Z;
  tier_2_records_validated : Z;
  tier_3_pairs_analyzed : Z;
  tier_4_cache_entries : Z
}.

(** [status_history] is a ghost field: the values assigned to
    [self.status] since construction, oldest first. *)
Record PipelineService : Type := mkPipelineService {
  status : PipelineStatus;
  metrics : Metrics;
  status_history : list PipelineStatus
}.

(** [PipelineService.__init__] *)
Definition PipelineService_init : PipelineService :=
  mkPipelineService IDLE (mkMetrics None None 0 0 0 0) [].

Definition set_status (s : PipelineStatus) : M PipelineService unit :=
  modify (fun p => mkPipelineService s (metrics p) (status_history p ++ [s])).

Definition on_metrics {A} (c : M Metrics A) : M PipelineService A :=
  fun p =>
    let (r, m) := c (metrics p) in
    (r, mkPipelineService (status p) m (status_history p)).

Definition _tier1_ingestion : M Metrics bool :=
  try_except
    (modify (fun m => mkMetrics (start_time m) (end_time m) 5000
                        (tier_2_records_validated m) (tier_3_pairs_analyzed m)
                        (tier_4_cache_entries m)) ;;;
     ret true)
    (fun e => ret false).

Definition _tier2_validation : M Metrics bool :=
  try_except
    (modify (fun m => mkMetrics (start_time m) (end_time m) (tier_1_records_ingested m)
                        (tier_1_records_ingested m) (tier_3_pairs_analyzed m)
                        (tier_4_cache_entries m)) ;;;
     ret true)
    (fun e => ret false).

Definition _tier3_analytics : M Metrics bool :=
  try_except
    (modify (fun m => mkMetrics (start_time m) (end_time m) (tier_1_records_ingested m)
                        (tier_2_records_validated m) 100 (tier_4_cache_entries m)) ;;;
     ret true)
    (fun e => ret false).

Definition _tier4_cache : M Metrics bool :=
  try_except
    (modify (fun m => mkMetrics (start_time m) (end_time m) (tier_1_records_ingested m)
                        (tier_2_records_validated m) (tier_3_pairs_analyzed m) 500) ;;;
     ret true)
    (fun e => ret false).

(** The dict [run_pipeline] returns. *)
Inductive PipelineResult : Type :=
| PipelineSuccess (m : Metrics) (message : string)
| PipelineFailure (error : string) (m : Metrics).

Definition set_end_time (t : Z) : M Metrics unit :=
  modify (fun m => mkMetrics (start_time m) (Some t) (tier_1_records_ingested m)
                     (tier_2_records_validated m) (tier_3_pairs_analyzed m)
                     (tier_4_cache_entries m)).

Definition set_start_time (t : Z) : M Metrics unit :=
  modify (fun m => mkMetrics (Some t) (end_time m) (tier_1_records_ingested m)
                     (tier_2_records_validated m) (tier_3_pairs_analyzed m)
                     (tier_4_cache_entries m)).

(** [if not ok: raise Exception(msg)] *)
Definition require_tier {St} (ok : bool) (msg : string) : M St unit :=
  if negb ok then raise (Exception "Exception" msg) else ret tt.

Section RunPipeline.
(** The four tier methods, as [run_pipeline] sees them: coroutines over
    [self.metrics] that return a flag or raise. *)
Variables tier1 tier2 tier3 tier4 : M Metrics bool.

(** [run_pipeline], lines 67-119; [t_start] and [t_end] are the two
    readings of [datetime.utcnow()]. *)
Definition run_pipeline_with (t_start t_end : Z) : M PipelineService PipelineResult :=
  set_status RUNNING ;;;
  on_metrics (set_start_time t_start) ;;;
  try_except
    (tier1_success <- on_metrics tier1 ;;
     require_tier tier1_success "Tier 1 ingestion failed" ;;;
     set_status VALIDATING ;;;
     tier2_success <- on_metrics tier2 ;;
     require_tier tier2_success "Tier 2 validation failed" ;;;
     set_status COMPUTING ;;;
     tier3_success <- on_metrics tier3 ;;
     require_tier tier3_success "Tier 3 analytics failed" ;;;
     set_status CACHING ;;;
     tier4_success <- on_metrics tier4 ;;
     require_tier tier4_success "Tier 4 caching failed" ;;;
     set_status COMPLETED ;;;
     on_metrics (set_end_time t_end) ;;;
     m <- gets metrics ;;
     ret (PipelineSuccess m "All tiers completed"))
    (fun e =>
       set_status FAILED ;;;
       on_metrics (set_end_time t_end) ;;;
       m <- gets metrics ;;
       ret (PipelineFailure (str_exn e) m)).
End RunPipeline.

Definition run_pipeline : Z -> Z -> M PipelineService PipelineResult :=
  run_pipeline_with _tier1_ingestion _tier2_validation _tier3_analytics _tier4_cache.

(** The value of a member of [PipelineStatus]. *)
Definition PipelineStatus_value (s : PipelineStatus) : string :=
  match s with
  | IDLE => "idle"
  | RUNNING => "running"
  | VALIDATING => "validating"
  | COMPUTING => "computing"
  | CACHING => "caching"
  | COMPLETED => "completed"
  | FAILED => "failed"
  | PAUSED => "paused"
  end.

(** The dict [get_status] returns. *)
Record StatusReport : Type := mkStatusReport {
  report_status : string;
  report_metrics : Metrics;
  running : bool
}.

(** [get_status] *)
Definition get_status (p : PipelineService) : StatusReport :=
  mkStatusReport (PipelineStatus_value (status p)) (metrics p)
    (bool_decide (status p = RUNNING)).

(** Every name [PipelineService] defines: the methods of the class and
    the attributes [__init__] sets. *)
Definition PipelineService_attributes : list string :=
  [ "__init__"; "run_pipeline"; "_tier1_ingestion"; "_tier2_validation";
    "_tier3_analytics"; "_tier4_cache"; "get_status";
    "status"; "logger"; "metrics" ].

(** Attribute lookup on an instance (the class defines no [__getattr__]). *)
Definition PipelineService_getattr (name : string) : outcome string :=
  if bool_decide (name ∈ PipelineService_attributes) then Returns name
  else Raises (AttributeError
                 ("'PipelineService' object has no attribute '" ++ name ++ "'")).

(** [self.pipeline_service.run_multi_fetch_store(symbols=..., ...)] on a
    [PipelineService]: the attribute is looked up first; none of the names
    the class defines accepts these keyword arguments. *)
Definition PipelineService_run_multi_fetch_store (req : FetchRequest)
  : PipelineService -> outcome pyval * PipelineService :=
  _ <- lift (PipelineService_getattr "run_multi_fetch_store") ;;
  raise (TypeError "got an unexpected keyword argument 'symbols'").

(** ** The storage gateway (the Supabase client the validator queries) *)

(** A row of [price_history]: its timestamp and its nullable close. *)
Record PriceRow : Type := mkPriceRow { timestamp : Z; close : option Q }.

(** A row of [assets]. *)
Record AssetRow : Type := mkAssetRow { asset : Asset; is_active : Z }.

Record Storage : Type := mkStorage {
  price_history : list PriceRow;
  assets_table : list AssetRow
}.

(** The filters the pipeline puts on a [price_history] query. *)
Inductive PriceFilter : Type :=
| Gte_timestamp (t : Z)      (* .gte("timestamp", t) *)
| Is_close_null.             (* .is_("close", "null") *)

(** A [price_history] query as the builder chain describes it. *)
Record PriceQuery : Type := mkPriceQuery {
  filters : list PriceFilter;
  order_desc : bool;         (* .order("timestamp", desc=True) *)
  limit : option nat;        (* .limit(n) *)
  count_exact : bool         (* select(..., count="exact") *)
}.

Record Response (Row : Type) : Type := mkResponse {
  data : list Row;
  count : option Z
}.
Arguments mkResponse {Row} data count.
Arguments data {Row} r.
Arguments count {Row} r.

Definition satisfies (r : PriceRow) (f : PriceFilter) : bool :=
  match f with
  | Gte_timestamp t => t <=? timestamp r
  | Is_close_null => match close r with None => true | Some _ => false end
  end.

(** Most recent first. *)
Definition newer_or_equal (a b : PriceRow) : Prop := timestamp b <= timestamp a.

#[global] Instance newer_or_equal_dec a b : Decision (newer_or_equal a b).
Proof. unfold newer_or_equal. apply _. Defined.

Definition select_price_history (q : PriceQuery) (db : Storage) : Response PriceRow :=
  let matching := List.filter (fun r => forallb (satisfies r) (filters q)) (price_history db) in
  let ordered := if order_desc q then merge_sort newer_or_equal matching else matching in
  let limited := match limit q with Some n => take n ordered | None => ordered end in
  mkResponse limited
    (if count_exact q then Some (Z.of_nat (length matching)) else None).

(** [table("assets").select(..., count="exact").eq("is_active", 1)] *)
Definition select_active_assets (db : Storage) : Response Asset :=
  let matching := List.filter (fun r => is_active r =? 1) (assets_table db) in
  mkResponse (map asset matching) (Some (Z.of_nat (length matching))).

(** The [execute()] calls of the pipeline, one per place in the source. *)
Inductive CallSite : Type :=
| FetchActiveAssets      (* fetch_active_assets, line 67 *)
| CompletenessRecords    (* _check_data_completeness, line 209 *)
| CompletenessAssets     (* _check_data_completeness, line 218 *)
| FreshnessLatest        (* _check_data_freshness, line 256 *)
| QualityNulls           (* _check_data_quality, line 301 *)
| QualityTotal           (* _check_data_quality, line 307 *)
| CoverageAssets.        (* _check_asset_coverage, line 343 *)

(** The store and, for each call, the exception it raises if the gateway
    cannot serve it. *)
Record Backend : Type := mkBackend {
  db : Storage;
  outage : CallSite -> option exn
}.

Definition execute {Row} (b : Backend) (site : CallSite) (q : Storage -> Response Row)
  : outcome (Response Row) :=
  match outage b site with
  | Some e => Raises e
  | None => Returns (q (db b))
  end.

(** [c or d] for an optional integer [c]: [None] and [0] are falsy. *)
Definition py_or (c : option Z) (d : Z) : Z :=
  match c with
  | Some n => if n =? 0 then d else n
  | None => d
  end.

(** ** Data validation layer: [DataQualityValidator] *)

(** An entry of [validation_results["checks"]]. *)
Record Check : Type := mkCheck { check_passed : bool; details : string }.

(** [self.validation_results] *)
Record ValidationResults : Type := mkValidationResults {
  passed : bool;
  checks : gmap string Check;
  errors : list string;
  warnings : list string
}.

(** The value [__init__] gives to [self.validation_results]. *)
Definition init_validation_results : ValidationResults :=
  mkValidationResults false ∅ [] [].

Definition set_check (name : string) (c : Check) : M ValidationResults unit :=
  modify (fun v => mkValidationResults (passed v) (<[name := c]> (checks v))
                     (errors v) (warnings v)).
Definition append_error (msg : string) : M ValidationResults unit :=
  modify (fun v => mkValidationResults (passed v) (checks v) (errors v ++ [msg]) (warnings v)).
Definition append_warning (msg : string) : M ValidationResults unit :=
  modify (fun v => mkValidationResults (passed v) (checks v) (errors v) (warnings v ++ [msg])).
Definition set_passed (b : bool) : M ValidationResults unit :=
  modify (fun v => mkValidationResults b (checks v) (errors v) (warnings v)).

(** [checks.get(name, {}).get("passed", False)] *)
Definition check_flag (cs : gmap string Check) (name : string) : bool :=
  match cs !! name with
  | Some c => check_passed c
  | None => false
  end.

Definition critical_checks : list string := ["completeness"; "freshness"; "asset_coverage"].

(** [(now - latest_timestamp).total_seconds() / 3600] *)
Definition age_hours (now latest : Z) : Q := (inject_Z (now - latest) / inject_Z HOUR)%Q.

(** [null_count / total_count if total_count > 0 else 0] *)
Definition null_ratio (null_count total_count : Z) : Q :=
  if 0 <? total_count then (inject_Z null_count / inject_Z total_count)%Q else 0%Q.

(** [int(expected_records * tolerance_ratio)] with [tolerance_ratio = 0.8]:
    the product truncated towards zero ([expected_records] is five times
    a count of at most 50, for which the float product is exact). *)
Definition tolerated (expected_records : Z) : Z := Z.quot (expected_records * 8) 10.

Definition recent_records_query (now : Z) : PriceQuery :=
  mkPriceQuery [Gte_timestamp (now - 7 * DAY)] false None true.
Definition latest_row_query : PriceQuery := mkPriceQuery [] true (Some 1%nat) false.
Definition null_close_query : PriceQuery := mkPriceQuery [Is_close_null] false None true.

Section Validator.
(** Python's renderings [f"{x:.1f}"] and [f"{x:.2%}"] of a float. *)
Variable format_1f : Q -> string.
Variable format_pct : Q -> string.
(** [self.supabase] *)
Variable supabase : Backend.

(** [_check_data_completeness], run when the clock reads [now]. *)
Definition _check_data_completeness (now : Z) : M ValidationResults unit :=
  try_except
    (response <- lift (execute supabase CompletenessRecords
                         (select_price_history (recent_records_query now))) ;;
     let total_records := py_or (count response) 0 in
     assets_resp <- lift (execute supabase CompletenessAssets select_active_assets) ;;
     let active_assets := py_or (count assets_resp) 0 in
     let expected_assets := Z.min active_assets MIN_ASSETS_REQUIRED in
     let expected_records := expected_assets * MIN_DATA_POINTS_REQUIRED in
     if tolerated expected_records <=? total_records then
       set_check "completeness"
         (mkCheck true (pretty total_records ++ " recent records found"))
     else
       set_check "completeness"
         (mkCheck false ("Only " ++ pretty total_records ++ " records found")) ;;;
       append_error ("Insufficient data points: " ++ pretty total_records))
    (fun e =>
       set_check "completeness" (mkCheck false (str_exn e)) ;;;
       append_error ("Completeness check error: " ++ str_exn e)).

(** [_check_data_freshness], run when the clock reads [now]. *)
Definition _check_data_freshness (now : Z) : M ValidationResults unit :=
  try_except
    (response <- lift (execute supabase FreshnessLatest
                         (select_price_history latest_row_query)) ;;
     match data response with
     | row :: _ =>
         let latest_timestamp := timestamp row in
         let age := age_hours now latest_timestamp in
         if Qle_bool age 48 then
           set_check "freshness"
             (mkCheck true ("Latest data is " ++ format_1f age ++ " hours old"))
         else
           set_check "freshness"
             (mkCheck false ("Data is " ++ format_1f age ++ " hours old")) ;;;
           append_error ("Stale data: " ++ format_1f age ++ " hours old")
     | [] =>
         set_check "freshness" (mkCheck false "No data found in price_history") ;;;
         append_error "No data in price_history table"
     end)
    (fun e =>
       set_check "freshness" (mkCheck false (str_exn e)) ;;;
       append_error ("Freshness check error: " ++ str_exn e)).

(** [_check_data_quality], run when the clock reads [now]. *)
Definition _check_data_quality (now : Z) : M ValidationResults unit :=
  try_except
    (response <- lift (execute supabase QualityNulls
                         (select_price_history null_close_query)) ;;
     let null_count := py_or (count response) 0 in
     total_response <- lift (execute supabase QualityTotal
                               (select_price_history (recent_records_query now))) ;;
     let total_count := py_or (count total_response) 1 in
     let ratio := null_ratio null_count total_count in
     if Qle_bool ratio MAX_MISSING_RATIO then
       set_check "quality" (mkCheck true ("Null ratio: " ++ format_pct ratio))
     else
       set_check "quality" (mkCheck true ("Null ratio: " ++ format_pct ratio)) ;;;
       append_warning ("High null ratio: " ++ format_pct ratio))
    (fun e =>
       set_check "quality" (mkCheck true (str_exn e)) ;;;
       append_warning ("Quality check error: " ++ str_exn e)).

(** [_check_asset_coverage] *)
Definition _check_asset_coverage : M ValidationResults unit :=
  try_except
    (assets_response <- lift (execute supabase CoverageAssets select_active_assets) ;;
     let active_assets := py_or (count assets_response) 0 in
     if MIN_ASSETS_REQUIRED <=? active_assets then
       set_check "asset_coverage"
         (mkCheck true (pretty active_assets ++ " active assets found"))
     else
       set_check "asset_coverage"
         (mkCheck false ("Only " ++ pretty active_assets ++ " active assets")) ;;;
       append_error ("Insufficient active assets: " ++ pretty active_assets
                       ++ "/" ++ pretty MIN_ASSETS_REQUIRED))
    (fun e =>
       set_check "asset_coverage" (mkCheck false (str_exn e)) ;;;
       append_error ("Asset coverage error: " ++ str_exn e)).

(** The three readings of the clock one [validate_all] makes. *)
Record Clock : Type := mkClock {
  at_completeness : Z;
  at_freshness : Z;
  at_quality : Z
}.

(** [validate_all] *)
Definition validate_all (clock : Clock) : M ValidationResults ValidationResults :=
  _check_data_completeness (at_completeness clock) ;;;
  _check_data_freshness (at_freshness clock) ;;;
  _check_data_quality (at_quality clock) ;;;
  _check_asset_coverage ;;;
  cs <- gets checks ;;
  let all_passed := forallb (check_flag cs) critical_checks in
  set_passed all_passed ;;;
  gets id.
End Validator.

(** ** The main orchestrator: [main] *)

(** [fetch_active_assets]: [response.data] of the active-assets query. *)
Definition fetch_active_assets (supabase : Backend) : outcome (list Asset) :=
  match execute supabase FetchActiveAssets select_active_assets with
  | Returns response => Returns (data response)
  | Raises e => Raises e
  end.

(** The local variables of [main] that record what has been run. *)
Record MainLocals : Type := mkMainLocals {
  ingestion_stats : option Stats;
  validation_results : option ValidationResults
}.

Definition no_locals : MainLocals := mkMainLocals None None.

(** Runs a computation on an object of its own and hands back its result. *)
Definition run_on {St St' A} (c : M St A) (s : St) : M St' A := lift (fst (c s)).

Section Main.
Variable format_1f : Q -> string.
Variable format_pct : Q -> string.
Variable supabase : Backend.

(** [main]; [t_ingest] is the clock reading of [ingest_daily_data] and
    [clock] those of [validate_all]. *)
Definition main (t_ingest : Z) (clock : Clock) : M MainLocals bool :=
  try_except
    (let ingestor := mkOrchestrator init_stats PipelineService_init in
     assets <- lift (fetch_active_assets supabase) ;;
     match assets with
     | [] => ret false
     | _ :: _ =>
         st <- run_on (ingest_daily_data PipelineService_run_multi_fetch_store
                         t_ingest assets) ingestor ;;
         modify (fun l => mkMainLocals (Some st) (validation_results l)) ;;;
         results <- run_on (validate_all format_1f format_pct supabase clock)
                      init_validation_results ;;
         modify (fun l => mkMainLocals (ingestion_stats l) (Some results)) ;;;
         if negb (passed results) then ret false else ret true
     end)
    (fun e => ret false).

(** [sys.exit(0 if success else 1)] *)
Definition exit_code (success : bool) : Z := if success then 0 else 1.
End Main.

(** ** The rate limiter of [YFinanceClient] ([yfinance_client.py]) *)

Record YFinanceConfig : Type := mkYFinanceConfig {
  auto_adjust : bool;
  repair : bool;
  keepna : bool;
  timeout : Z;
  threads : bool;
  delay_between_requests : Q;
  respect_server : bool
}.

(** The defaults of the dataclass. *)
Definition YFinanceConfig_default : YFinanceConfig :=
  mkYFinanceConfig true true false 30 false 60%Q true.

(** The client on its event loop.  [loop_time] is what
    [asyncio.get_event_loop().time()] reads, in seconds; [elapsed] counts
    the steps that have let time pass.  Two ghost fields keep the history,
    oldest first: [request_times], the instants the client has recorded
    in [last_request_time], and [outbound_times], the instants at which a
    request has gone out to Yahoo ([yf.download] handed to the executor). *)
Record ClientWorld : Type := mkClientWorld {
  config : YFinanceConfig;
  last_request_time : Q;
  loop_time : Q;
  elapsed : nat;
  request_times : list Q;
  outbound_times : list Q
}.

(** [YFinanceClient.__init__] on a loop whose clock reads [t0]. *)
Definition YFinanceClient_init (cfg : YFinanceConfig) (t0 : Q) : ClientWorld :=
  mkClientWorld cfg 0%Q t0 0 [] [].

Section RateLimiter.
(** How long the n-th time-consuming step of the run takes beyond what
    the program asks for: scheduling, a download, an overslept timer. *)
Variable duration : nat -> Q.

Definition pass_time : M ClientWorld unit :=
  modify (fun w => mkClientWorld (config w) (last_request_time w)
                     (loop_time w + duration (elapsed w))%Q (S (elapsed w))
                     (request_times w) (outbound_times w)).

(** [asyncio.get_event_loop().time()] *)
Definition get_time : M ClientWorld Q := pass_time ;;; gets loop_time.

(** [await asyncio.sleep(d)]: resumes no earlier than [d] later. *)
Definition asyncio_sleep (d : Q) : M ClientWorld unit :=
  modify (fun w => mkClientWorld (config w) (last_request_time w)
                     (loop_time w + (if Qlt_le_dec 0 d then d else 0))%Q (elapsed w)
                     (request_times w) (outbound_times w)) ;;;
  pass_time.

(** [self.last_request_time = t] *)
Definition record_request (t : Q) : M ClientWorld unit :=
  modify (fun w => mkClientWorld (config w) t (loop_time w) (elapsed w)
                     (request_times w ++ [t]) (outbound_times w)).

(** Lines 143-154 and 221-230: the block before each download. *)
Definition rate_limit : M ClientWorld unit :=
  cfg <- gets config ;;
  if respect_server cfg then
    current_time <- get_time ;;
    last <- gets last_request_time ;;
    let time_since_last := (current_time - last)%Q in
    (if Qlt_le_dec time_since_last (delay_between_requests cfg) then
       let sleep_duration := (delay_between_requests cfg - time_since_last)%Q in
       asyncio_sleep sleep_duration
     else ret tt) ;;;
    t <- get_time ;;
    record_request t
  else ret tt.

(** The request goes out: the loop hands [yf.download] to the executor at
    the instant its clock shows.  The statements between the block above
    and this point (lines 156-166, 232-239) hold no [await]: no step of
    the run lies in between. *)
Definition send_request : M ClientWorld unit :=
  modify (fun w => mkClientWorld (config w) (last_request_time w) (loop_time w)
                     (elapsed w) (request_times w) (outbound_times w ++ [loop_time w])).

(** [await loop.run_in_executor(None, lambda: yf.download(...))] inside
    its [try/except]: the request goes out, the download takes time, and
    nothing is raised out of the [try]; the frames it yields are not
    modelled here. *)
Definition download : M ClientWorld unit := send_request ;;; pass_time.

(** [fetch_historical_data] *)
Definition fetch_historical_data : M ClientWorld unit :=
  rate_limit ;;; download.

(** [chunk(lst, n)]: [range(0, len(lst), n)] raises [ValueError] for a
    zero step. *)
Definition chunk {A} (lst : list A) (n : nat) : outcome (list (list A)) :=
  match n with
  | O => Raises (Exception "ValueError" "range() arg 3 must not be zero")
  | _ => Returns (map (fun i => slice lst i (i + n)) (py_range0 (length lst) n))
  end.

(** [fetch_batch_multi] *)
Definition fetch_batch_multi (symbols : list string) (group_size : nat)
  : M ClientWorld unit :=
  groups <- lift (chunk symbols group_size) ;;
  for_each groups (fun group => rate_limit ;;; download).

(** A call made on the client. *)
Inductive ClientCall : Type :=
| Fetch_historical_data
| Fetch_batch_multi (symbols : list string) (group_size : nat).

Definition perform (c : ClientCall) : M ClientWorld unit :=
  match c with
  | Fetch_historical_data => fetch_historical_data
  | Fetch_batch_multi symbols group_size => fetch_batch_multi symbols group_size
  end.

(** Calls awaited one after the other; a call that raises does not stop
    the caller from making the next one. *)
Definition perform_all (calls : list ClientCall) : M ClientWorld unit :=
  for_each calls (fun c => try_except (perform c) (fun e => ret tt)).
End RateLimiter.

(** Every two successive instants of [ts] are at least [d] apart. *)
Definition spaced (d : Q) (ts : list Q) : Prop :=
  forall (i : nat) (a b : Q),
    ts !! i = Some a -> ts !! S i = Some b -> (a + d <= b)%Q.

(** ** Ticker formats: [YFinanceClient._convert_symbol_to_yfinance] *)

(** [sub in s] *)
Fixpoint contains (sub s : string) : bool :=
  if String.prefix sub s then true
  else match s with
       | EmptyString => false
       | String _ rest => contains sub rest
       end.

(** [s.endswith(suffix)] *)
Fixpoint endswith (s suffix : string) : bool :=
  if String.eqb s suffix then true
  else match s with
       | EmptyString => false
       | String _ rest => endswith rest suffix
       end.

(** [s.replace(old, new)] for a non-empty [old]: every occurrence, found
    from the left and not overlapping; [skip] counts the characters of an
    occurrence still to pass over. *)
Fixpoint replace_from (old new : string) (skip : nat) (s : string) : string :=
  match s with
  | EmptyString => EmptyString
  | String c rest =>
      match skip with
      | S k => replace_from old new k rest
      | O =>
          if String.prefix old s
          then new ++ replace_from old new (String.length old - 1) rest
          else String c (replace_from old new 0 rest)
      end
  end.

Definition replace (old new s : string) : string := replace_from old new 0 s.

(** [s.split("-")[0]] *)
Fixpoint before_dash (s : string) : string :=
  match s with
  | EmptyString => EmptyString
  | String c rest => if Ascii.eqb c "-"%char then EmptyString else String c (before_dash rest)
  end.

(** [asset_type == "crypto"] for an optional asset type *)
Definition is_crypto (asset_type : option string) : bool :=
  match asset_type with
  | Some t => String.eqb t "crypto"
  | None => false
  end.

(** Lines 64-88. *)
Definition _convert_symbol_to_yfinance (symbol : string) (asset_type : option string)
  : string :=
  if existsb (fun suffix => contains suffix symbol) [".NS"; ".BO"; "-USD"] then symbol
  else if is_crypto asset_type || contains ".CC" symbol then
    let symbol := if contains ".CC" symbol then replace ".CC" "" symbol else symbol in
    if negb (endswith symbol "-USD") then before_dash symbol ++ "-USD" else symbol
  else if contains ".NSE" symbol then replace ".NSE" ".NS" symbol
  else if endswith symbol ".BSE" then replace ".BSE" ".BO" symbol
  else if endswith symbol ".US" then replace ".US" "" symbol
  else symbol.

(** A symbol with neither a dot nor a dash. *)
Fixpoint plain (s : string) : bool :=
  match s with
  | EmptyString => true
  | String c rest => negb (Ascii.eqb c "."%char) && negb (Ascii.eqb c "-"%char) && plain rest
  end.

(** ** The frames of [YFinanceClient.fetch_batch_multi] *)

(** [d[k]] on a dict with string keys *)
Definition dict_getitem {V} (d : gmap string V) (k : string) : outcome V :=
  match d !! k with
  | Some v => Returns v
  | None => Raises (KeyError k)
  end.

(** [l[i]] on a list *)
Definition list_getitem {A} (l : list A) (i : nat) : outcome A :=
  match l !! i with
  | Some x => Returns x
  | None => Raises (Exception "IndexError" "list index out of range")
  end.

(** [[f(x) for x in l]] *)
Fixpoint comprehension {A B} (f : A -> outcome B) (l : list A) : outcome (list B) :=
  match l with
  | [] => Returns []
  | x :: rest =>
      match f x with
      | Raises e => Raises e
      | Returns y =>
          match comprehension f rest with
          | Raises e => Raises e
          | Returns ys => Returns (y :: ys)
          end
      end
  end.

(** Lines 209-211: [symbol_map] once the loop over [symbols] is done. *)
Definition build_symbol_map (asset_types : gmap string string) (symbols : list string)
  : gmap string string :=
  fold_left (fun symbol_map s =>
               <[s := _convert_symbol_to_yfinance s (asset_types !! s)]> symbol_map)
            symbols ∅.

Module WithFrames.
Section Frames.
(** The [pandas] side is a parameter: the frames, [pd.DataFrame()],
    [_yfinance_to_hedgevision_df] (lines 90-132; it may raise on a frame
    it cannot handle) and what [yf.download] answers to a list of
    tickers when the client is in a given state. *)
Variable Frame : Type.
Variable empty_frame : Frame.
Variable _yfinance_to_hedgevision_df : Frame -> string -> outcome Frame.

(** The answer of [yf.download], as the test of lines 256-258 tells it
    apart: a frame with flat columns, or anything else, of which the code
    reads [yf_df[yf_t]] only (as a frame, after [to_frame] on a series). *)
Inductive Download : Type :=
| FlatFrame (yf_df : Frame)
| PerTicker (getitem : string -> outcome Frame).

Variable yf_download : list string -> ClientWorld -> outcome Download.
Variable duration : nat -> Q.

(** The client on its loop and the local [results] of a call. *)
Record BatchState : Type := mkBatchState {
  world : ClientWorld;
  results : gmap string Frame
}.

Definition on_world {A} (c : M ClientWorld A) : M BatchState A :=
  fun b =>
    let (r, w) := c (world b) in
    (r, mkBatchState w (results b)).

(** [results[s] = df] *)
Definition set_result (s : string) (df : Frame) : M BatchState unit :=
  modify (fun b => mkBatchState (world b) (<[s := df]> (results b))).

(** [await loop.run_in_executor(None, lambda: yf.download(tickers=yf_group, ...))] *)
Definition download_group (yf_group : list string) : M BatchState Download :=
  w <- gets world ;;
  on_world (download duration) ;;;
  lift (yf_download yf_group w).

(** Lines 219-276: the body of the loop over the groups. *)
Definition fetch_group (symbol_map : gmap string string) (group : list string)
  : M BatchState unit :=
  yf_group <- lift (comprehension (dict_getitem symbol_map) group) ;;
  on_world (rate_limit duration) ;;;
  try_except
    (yf_df <- download_group yf_group ;;
     match yf_df with
     | FlatFrame yf_df =>
         only <- lift (list_getitem group 0) ;;
         df <- lift (_yfinance_to_hedgevision_df yf_df only) ;;
         set_result only df
     | PerTicker getitem =>
         for_each group (fun orig =>
           yf_t <- lift (dict_getitem symbol_map orig) ;;
           try_except
             (sub <- lift (getitem yf_t) ;;
              df <- lift (_yfinance_to_hedgevision_df sub orig) ;;
              set_result orig df)
             (fun _ => set_result orig empty_frame))
     end)
    (fun e => for_each group (fun orig => set_result orig empty_frame)).

(** [fetch_batch_multi], with the dict it returns. *)
Definition fetch_batch_multi (symbols : list string)
    (asset_types : option (gmap string string)) (group_size : nat)
  : M ClientWorld (gmap string Frame) :=
  fun w =>
    let asset_types := default ∅ asset_types in
    let symbol_map := build_symbol_map asset_types symbols in
    let (r, b) :=
      (groups <- lift (chunk symbols group_size) ;;
       for_each groups (fetch_group symbol_map) ;;;
       gets results) (mkBatchState w ∅) in
    (r, world b).

(** The frame [fetch_batch_multi] stores for [orig] out of a per-ticker
    answer. *)
Definition segment (asset_types : gmap string string)
    (getitem : string -> outcome Frame) (orig : string) : Frame :=
  match getitem (_convert_symbol_to_yfinance orig (asset_types !! orig)) with
  | Returns sub =>
      match _yfinance_to_hedgevision_df sub orig with
      | Returns df => df
      | Raises _ => empty_frame
      end
  | Raises _ => empty_frame
  end.
End Frames.

Arguments FlatFrame {Frame} yf_df.
Arguments PerTicker {Frame} getitem.
Arguments mkBatchState {Frame} world results.
Arguments world {Frame} b.
Arguments results {Frame} b.
End WithFrames.

(** ** Notions the properties are stated with *)

(** The symbols an orchestrator has counted so far. *)
Definition tallied (st : Stats) : Z := successful st + failed st + skipped st.

(** A per-symbol entry the loop of lines 112-125 reads without raising: a
    dict whose [records_stored], when its status is ["success"], is
    absent or an integer. *)
Definition entry_ok (res : pyval) : bool :=
  match res with
  | PyDict items =>
      if py_eq_str (default PyNone (assoc "status" items)) "success" then
        match default (PyInt 0) (assoc "records_stored" items) with
        | PyInt _ => true
        | _ => false
        end
      else true
  | _ => false
  end.

(** A summary that loop reads without raising, for the given symbols. *)
Definition summary_ok (symbols : list string) (summary : pyval) : bool :=
  match py_getitem summary "results" with
  | Returns (PyDict rs) =>
      forallb (fun sym => entry_ok (default (PyDict []) (assoc sym rs))) symbols
  | _ => false
  end.

(** A service each of whose calls raises or returns such a summary. *)
Definition well_behaved {S : Type}
    (run_multi_fetch_store : FetchRequest -> S -> outcome pyval * S) : Prop :=
  forall (req : FetchRequest) (svc : S),
    match fst (run_multi_fetch_store req svc) with
    | Returns summary => summary_ok (req_symbols req) summary = true
    | Raises _ => True
    end.

(** The null ratio the quality check computes when both of its queries
    are served (lines 301-315). *)
Definition computed_null_ratio (now : Z) (store : Storage) : Q :=
  let null_count := py_or (count (select_price_history null_close_query store)) 0 in
  let total_count := py_or (count (select_price_history (recent_records_query now) store)) 1 in
  null_ratio null_count total_count.

(** The null ratio in the words of the specification: the rows with a
    null close within the trailing 7-day window over the rows within that
    same window. *)
Definition windowed_null_ratio (now : Z) (store : Storage) : Q :=
  let window := List.filter (fun r => now - 7 * DAY <=? timestamp r) (price_history store) in
  let nulls := List.filter (fun r => match close r with None => true | Some _ => false end) window in
  (inject_Z (Z.of_nat (length nulls)) / inject_Z (Z.of_nat (length window)))%Q.

(** [t] is the timestamp of a most recent row. *)
Definition most_recent (rows : list PriceRow) (t : Z) : Prop :=
  (exists r, r ∈ rows /\ timestamp r = t) /\ Forall (fun r => timestamp r <= t) rows.


(** The statuses [run_pipeline] may enter, in order, when it fails after
    [n] tiers have succeeded ([n <= 3]) or completes ([n = 4]). *)
Definition status_path (n : nat) : list PipelineStatus :=
  match n with
  | 0%nat => [RUNNING; FAILED]
  | 1%nat => [RUNNING; VALIDATING; FAILED]
  | 2%nat => [RUNNING; VALIDATING; COMPUTING; FAILED]
  | 3%nat => [RUNNING; VALIDATING; COMPUTING; CACHING; FAILED]
  | _ => [RUNNING; VALIDATING; COMPUTING; CACHING; COMPLETED]
  end.

(** How many of the tiers, awaited in a row from the metrics [m], return
    [True] before one of them returns [False] or raises. *)
Fixpoint tiers_passed (tiers : list (M Metrics bool)) (m : Metrics) : nat :=
  match tiers with
  | [] => 0
  | tier :: rest =>
      match tier m with
      | (Returns true, m') => S (tiers_passed rest m')
      | _ => 0
      end
  end.

(** The first of the tiers, awaited in a row from the metrics [m], that
    does not return [True], as the text of its failure: the message that
    goes with it when it returns [False], the text of its exception when
    it raises.  [None] when every tier returns [True]. *)
Fixpoint first_failure (tiers : list (M Metrics bool * string)) (m : Metrics)
  : option string :=
  match tiers with
  | [] => None
  | (tier, message) :: rest =>
      match tier m with
      | (Returns true, m') => first_failure rest m'
      | (Returns false, _) => Some message
      | (Raises e, _) => Some (str_exn e)
      end
  end.

(** What the two queries of the quality check yield: the ratio it goes on
    with, or the exception of the first query that fails. *)
Definition queried_null_ratio (supabase : Backend) (now : Z) : outcome Q :=
  match execute supabase QualityNulls (select_price_history null_close_query) with
  | Raises e => Raises e
  | Returns response =>
      match execute supabase QualityTotal (select_price_history (recent_records_query now)) with
      | Raises e => Raises e
      | Returns total_response =>
          Returns (null_ratio (py_or (count response) 0) (py_or (count total_response) 1))
      end
  end.

(** What the query of the freshness check yields: the timestamp of the
    first row of its answer, [None] when the answer is empty, or the
    exception it raises. *)
Definition queried_latest_timestamp (supabase : Backend) : outcome (option Z) :=
  match execute supabase FreshnessLatest (select_price_history latest_row_query) with
  | Raises e => Raises e
  | Returns response =>
      Returns (match data response with
               | row :: _ => Some (timestamp row)
               | [] => None
               end)
  end.

(** The verdicts of the three critical checks, read off the gateway. *)
Definition completeness_verdict (supabase : Backend) (now : Z) : bool :=
  match execute supabase CompletenessRecords
          (select_price_history (recent_records_query now)) with
  | Raises _ => false
  | Returns response =>
      match execute supabase CompletenessAssets select_active_assets with
      | Raises _ => false
      | Returns assets_resp =>
          tolerated (Z.min (py_or (count assets_resp) 0) MIN_ASSETS_REQUIRED
                     * MIN_DATA_POINTS_REQUIRED)
          <=? py_or (count response) 0
      end
  end.

Definition freshness_verdict (supabase : Backend) (now : Z) : bool :=
  match queried_latest_timestamp supabase with
  | Returns (Some latest) => Qle_bool (age_hours now latest) 48
  | _ => false
  end.

Definition coverage_verdict (supabase : Backend) : bool :=
  match execute supabase CoverageAssets select_active_assets with
  | Raises _ => false
  | Returns assets_response => MIN_ASSETS_REQUIRED <=? py_or (count assets_response) 0
  end.

(** The state after a check that records [c] under [name] and appends to the two lists. *)
Definition recorded (name : string) (c : Check) (new_errors new_warnings : list string)
    (v : ValidationResults) : ValidationResults :=
  mkValidationResults (passed v) (<[name := c]> (checks v))
    (errors v ++ new_errors) (warnings v ++ new_warnings).

(** What the limiter keeps true on a client configured with [cfg]: the
    recorded instants are spaced, and the last of them is
    [self.last_request_time], no later than the clock. *)
Definition limiter_invariant (cfg : YFinanceConfig) (w : ClientWorld) : Prop :=
  config w = cfg /\
  spaced (delay_between_requests cfg) (request_times w) /\
  forall t, last (request_times w) = Some t ->
            last_request_time w = t /\ (t <= loop_time w)%Q.

(** The downloads a call makes: one, or one per group. *)
Definition downloads (c : ClientCall) : nat :=
  match c with
  | Fetch_historical_data => 1
  | Fetch_batch_multi symbols group_size =>
      match group_size with
      | O => 0
      | _ => (length symbols + group_size - 1) / group_size
      end
  end.

(** The time the steps [from], ..., [from + k - 1] of a run take. *)
Definition time_taken (duration : nat -> Q) (from k : nat) : Q :=
  fold_right Qplus 0%Q (map duration (seq from k)).

(** The state [k] downloads later, when nothing else has happened. *)
Definition only_downloads (duration : nat -> Q) (k : nat) (w w' : ClientWorld) : Prop :=
  config w' = config w /\
  request_times w' = request_times w /\
  last_request_time w' = last_request_time w /\
  elapsed w' = (elapsed w + k)%nat /\
  (loop_time w' == loop_time w + time_taken duration (elapsed w) k)%Q.

(** The rows of [assets] with [is_active = 1]. *)
Definition active_assets_count (store : Storage) : Z :=
  Z.of_nat (length (List.filter (fun r => is_active r =? 1) (assets_table store))).

(** The rows of [price_history] of the seven days up to [now]. *)
Definition recent_records_count (now : Z) (store : Storage) : Z :=
  Z.of_nat (length (List.filter (fun r => now - 7 * DAY <=? timestamp r)
                                (price_history store))).

(** The queries of the three critical checks. *)
Definition critical_sites : list CallSite :=
  [CompletenessRecords; CompletenessAssets; FreshnessLatest; CoverageAssets].

(** A critical check that passed appended nothing to [errors]; one that
    failed appended one message. *)
Definition reported (c : Check) (new_errors : list string) : Prop :=
  (check_passed c = true /\ new_errors = []) \/
  (check_passed c = false /\ exists msg, new_errors = [msg]).

(** The slices [l[j : j + n]] for [j] in [range(0, len(l), n)]. *)
Definition chunks {A} (n : nat) (l : list A) : list (list A) :=
  map (fun j => slice l j (j + n)) (py_range0 (length l) n).

(** From [st] to [st'] none of [successful], [failed] and [skipped] has
    gone down, [total_assets] is the same and between [lo] and [hi]
    symbols have been counted.  ([total_records] is left out: it moves by
    whatever [records_stored] holds.) *)
Definition counters_grow (lo hi : Z) (st st' : Stats) : Prop :=
  total_assets st' = total_assets st /\
  successful st <= successful st' /\
  failed st <= failed st' /\
  skipped st <= skipped st' /\
  tallied st + lo <= tallied st' <= tallied st + hi.

(** A service that keeps the requests made on it, oldest first, whatever
    it answers. *)
Definition recording (answer : FetchRequest -> outcome pyval)
  : FetchRequest -> list FetchRequest -> outcome pyval * list FetchRequest :=
  fun req log => (answer req, (log ++ [req])%list).

(** ** Sample data for the examples *)

Definition AAPL : Asset := mkAsset "AAPL" None.
Definition MSFT : Asset := mkAsset "MSFT" (Some "MSFT").
Definition RELIANCE : Asset := mkAsset "RELIANCE" (Some "RELIANCE.NS").

(** A service that stores five rows for AAPL, finds MSFT already stored,
    has no entry for any other symbol, and raises when asked for
    RELIANCE.NS. *)
Definition sample_summary : pyval :=
  PyDict [("results",
           PyDict [("AAPL", PyDict [("status", PyStr "success"); ("records_stored", PyInt 5)]);
                   ("MSFT", PyDict [("status", PyStr "skipped"); ("records_stored", PyInt 0)])])].

Definition sample_service (req : FetchRequest) (svc : unit) : outcome pyval * unit :=
  if bool_decide ("RELIANCE.NS" ∈ req_symbols req)
  then (Raises (Exception "TimeoutError" "provider timed out"), svc)
  else (Returns sample_summary, svc).

(** A summary whose entry for MSFT is [None]. *)
Definition broken_summary : pyval :=
  PyDict [("results",
           PyDict [("AAPL", PyDict [("status", PyStr "success"); ("records_stored", PyInt 5)]);
                   ("MSFT", PyNone)])].

Definition broken_service (req : FetchRequest) (svc : unit) : outcome pyval * unit :=
  (Returns broken_summary, svc).

(* ===================================================================== *)
(** * Part II. Properties                                                 *)
(* ===================================================================== *)

(** ** The monad and the loops *)

Ltac run_monad :=
  unfold bind, ret, raise, gets, modify, lift, try_except, run_on in *; simpl in *.

Lemma for_each_app {St A} (xs ys : list A) (body : A -> M St unit) (s : St) :
  for_each (xs ++ ys) body s = (for_each xs body ;;; for_each ys body) s.
Proof.
  revert s. induction xs as [|x xs IH]; intros s; simpl.
  - reflexivity.
  - unfold bind in *. destruct (body x s) as [[[]|e] s1]; [|reflexivity].
    apply IH.
Qed.

Lemma for_each_map {St A B} (f : A -> B) (xs : list A) (body : B -> M St unit) (s : St) :
  for_each (map f xs) body s = for_each xs (fun x => body (f x)) s.
Proof.
  revert s. induction xs as [|x xs IH]; intros s; simpl; [reflexivity|].
  unfold bind. destruct (body (f x) s) as [[[]|e] s1]; auto.
Qed.

Lemma for_each_concat {St A} (xss : list (list A)) (body : A -> M St unit) (s : St) :
  for_each (concat xss) body s = for_each xss (fun xs => for_each xs body) s.
Proof.
  revert s. induction xss as [|xs xss IH]; intros s; simpl; [reflexivity|].
  rewrite for_each_app. unfold bind.
  destruct (for_each xs body s) as [[[]|e] s1]; auto.
Qed.

(** A loop whose body keeps an invariant and never raises does the same. *)
Lemma for_each_returns {St A} (I : St -> Prop) (xs : list A) (body : A -> M St unit) :
  (forall x s, I s -> exists s', body x s = (Returns tt, s') /\ I s') ->
  forall s, I s -> exists s', for_each xs body s = (Returns tt, s') /\ I s'.
Proof.
  intros Hbody. induction xs as [|x xs IH]; intros s Hs; simpl.
  - exists s. auto.
  - unfold bind. destruct (Hbody x s Hs) as (s1 & -> & H1). apply IH, H1.
Qed.

(** ** Slicing a list into chunks, as [range(0, len(l), n)] does *)

Lemma slices_upto {A} (l : list A) (n k : nat) :
  concat (map (fun i => slice l i (i + n)) (map (fun j => (j * n)%nat) (seq 0 k)))
  = take (k * n) l.
Proof.
  induction k as [|k IH].
  - simpl. reflexivity.
  - rewrite seq_S, !map_app, concat_app, IH. simpl.
    unfold slice. replace (k * n + n - k * n)%nat with n by lia.
    rewrite app_nil_r, take_take_drop. f_equal. lia.
Qed.

Lemma range_covers (len n : nat) : (0 < n)%nat -> (len <= (len + n - 1) / n * n)%nat.
Proof.
  intros Hn.
  pose proof (Nat.div_mod (len + n - 1) n ltac:(lia)) as Hdm.
  pose proof (Nat.mod_upper_bound (len + n - 1) n ltac:(lia)) as Hlt.
  nia.
Qed.

Lemma concat_slices {A} (l : list A) (n : nat) :
  (0 < n)%nat ->
  concat (map (fun i => slice l i (i + n)) (py_range0 (length l) n)) = l.
Proof.
  intros Hn. unfold py_range0. rewrite slices_upto.
  apply take_ge, range_covers, Hn.
Qed.

Lemma concat_flatten {A} (xsss : list (list (list A))) :
  concat (concat xsss) = concat (map (fun xss => concat xss) xsss).
Proof.
  induction xsss as [|xss xsss IH]; simpl; [reflexivity|].
  rewrite concat_app, IH. reflexivity.
Qed.

Lemma concat_groups_of (assets : list Asset) : concat (groups_of assets) = assets.
Proof.
  unfold groups_of.
  rewrite <- (concat_slices assets BATCH_SIZE) at 2 by (unfold BATCH_SIZE; lia).
  rewrite concat_flatten, map_map. f_equal.
  apply map_ext. intros i. cbv zeta.
  apply concat_slices. unfold GROUP_SIZE. lia.
Qed.


(** ** Ingestion: what one group and one run do to [self.stats] *)

Section OrchestratorFacts.
Context {S : Type}.
Variable run_multi_fetch_store : FetchRequest -> S -> outcome pyval * S.

Abbreviation Orch := (@Orchestrator S).
Abbreviation process := (process_group run_multi_fetch_store).

(** The run as one loop over its fetch groups. *)
Lemma ingest_daily_data_groups (now : Z) (assets : list Asset) (o : Orch) :
  ingest_daily_data run_multi_fetch_store now assets o
  = (modify_stats (set_total_assets (Z.of_nat (length assets))) ;;;
     for_each (groups_of assets) (process (now - LOOKBACK_DAYS * DAY) now) ;;;
     gets stats) o.
Proof.
  unfold ingest_daily_data, groups_of. cbv zeta.
  unfold bind at 1 3. destruct (modify_stats _ o) as [[[]|e] o1]; [|reflexivity].
  unfold bind.
  rewrite for_each_concat, for_each_map.
  unfold process_batch.
  assert (Hloop : forall (l : list nat) (s : Orch),
    for_each l (fun i =>
      for_each (py_range0 (length (slice assets i (i + BATCH_SIZE))) GROUP_SIZE)
        (fun j => process (now - LOOKBACK_DAYS * DAY) now
                    (slice (slice assets i (i + BATCH_SIZE)) j (j + GROUP_SIZE)))) s
    = for_each l (fun i =>
        for_each (map (fun j => slice (slice assets i (i + BATCH_SIZE)) j (j + GROUP_SIZE))
                      (py_range0 (length (slice assets i (i + BATCH_SIZE))) GROUP_SIZE))
          (process (now - LOOKBACK_DAYS * DAY) now)) s).
  { induction l as [|i l IH]; intros s; simpl; [reflexivity|].
    unfold bind. rewrite for_each_map.
    destruct (for_each _ _ s) as [[[]|e] s1]; auto. }
  rewrite Hloop. reflexivity.
Qed.

(** One symbol of a readable entry is counted once, whatever its status. *)
Lemma tally_symbol_ok (items rs : list (string * pyval)) (sym : string) (o : Orch) :
  assoc "results" items = Some (PyDict rs) ->
  entry_ok (default (PyDict []) (assoc sym rs)) = true ->
  exists o', tally_symbol (PyDict items) sym o = (Returns tt, o') /\
             tallied (stats o') = tallied (stats o) + 1 /\
             total_assets (stats o') = total_assets (stats o) /\
             pipeline_service o' = pipeline_service o.
Proof.
  intros Hres Hok. unfold tally_symbol, modify_stats. run_monad. rewrite Hres. simpl.
  destruct (default (PyDict []) (assoc sym rs)) as [| | |entry]; try discriminate.
  simpl in *.
  destruct (py_eq_str (default PyNone (assoc "status" entry)) "success").
  - destruct (default (PyInt 0) (assoc "records_stored" entry)); try discriminate.
    simpl. eexists; split; [reflexivity|]. unfold tallied; simpl. repeat split; lia.
  - destruct (py_eq_str (default PyNone (assoc "status" entry)) "skipped");
      simpl; (eexists; split; [reflexivity|]); unfold tallied; simpl; repeat split; lia.
Qed.

Lemma tally_loop_ok (summary : pyval) (symbols : list string) (o : Orch) :
  summary_ok symbols summary = true ->
  exists o', for_each symbols (tally_symbol summary) o = (Returns tt, o') /\
             tallied (stats o') = tallied (stats o) + Z.of_nat (length symbols) /\
             total_assets (stats o') = total_assets (stats o) /\
             pipeline_service o' = pipeline_service o.
Proof.
  unfold summary_ok, py_getitem.
  destruct summary as [| | |items]; try discriminate.
  destruct (assoc "results" items) as [[| | |rs]|] eqn:Hres; try discriminate.
  revert o. induction symbols as [|sym symbols IH]; intros o Hall; simpl in *.
  - exists o. run_monad. repeat split; lia.
  - apply andb_true_iff in Hall as [Hsym Hrest].
    destruct (tally_symbol_ok items rs sym o Hres Hsym) as (o1 & Hrun & Ht & Ha & Hs).
    destruct (IH o1 Hrest) as (o2 & Hrun2 & Ht2 & Ha2 & Hs2).
    exists o2. unfold bind. rewrite Hrun, Hrun2. repeat split; try congruence. lia.
Qed.

(** Whatever the service does, a group is handled without raising. *)
Lemma process_group_returns (start_date end_date : Z) (group : list Asset) (o : Orch) :
  exists o', process start_date end_date group o = (Returns tt, o').
Proof.
  unfold process_group, try_except, bind, call_service, modify_stats, modify.
  destruct (run_multi_fetch_store _ _) as [[summary|e] svc]; [|eauto].
  destruct (for_each _ _ _) as [[[]|e] o1]; eauto.
Qed.

(** A group whose call raises: the handler of line 127. *)
Lemma process_group_raises (start_date end_date : Z) (group : list Asset) (o : Orch)
    (e : exn) (svc : S) :
  run_multi_fetch_store
    (fetch_request start_date end_date (map ticker_or_symbol group))
    (pipeline_service o) = (Raises e, svc) ->
  process start_date end_date group o
  = (Returns tt,
     mkOrchestrator (add_failed (Z.of_nat (length group)) (stats o)) svc).
Proof.
  intros Hcall.
  unfold process_group, try_except, bind, call_service, modify_stats, modify.
  rewrite Hcall. simpl. rewrite length_map. reflexivity.
Qed.

Lemma process_group_count (start_date end_date : Z) (group : list Asset) (o : Orch) :
  well_behaved run_multi_fetch_store ->
  exists o', process start_date end_date group o = (Returns tt, o') /\
             tallied (stats o') = tallied (stats o) + Z.of_nat (length group) /\
             total_assets (stats o') = total_assets (stats o).
Proof.
  intros Hsvc.
  specialize (Hsvc (fetch_request start_date end_date (map ticker_or_symbol group))
                   (pipeline_service o)).
  destruct (run_multi_fetch_store _ _) as [[summary|e] svc] eqn:Hcall; simpl in Hsvc.
  - destruct (tally_loop_ok summary (map ticker_or_symbol group)
                (mkOrchestrator (stats o) svc) Hsvc) as (o1 & Hrun & Ht & Ha & _).
    exists o1.
    unfold process_group, try_except, bind, call_service. rewrite Hcall, Hrun.
    rewrite length_map in Ht. simpl in *. auto.
  - rewrite (process_group_raises _ _ _ _ _ _ Hcall). eexists; split; [reflexivity|].
    unfold tallied; simpl. split; lia.
Qed.

Lemma run_groups_returns (start_date end_date : Z) (groups : list (list Asset)) (o : Orch) :
  exists o', for_each groups (process start_date end_date) o = (Returns tt, o').
Proof.
  destruct (for_each_returns (fun _ => True) groups (process start_date end_date))
    with (s := o) as (o' & Hrun & _); eauto.
  intros g s _. destruct (process_group_returns start_date end_date g s) as [s' Hs'].
  eauto.
Qed.

Lemma run_groups_count (start_date end_date : Z) (groups : list (list Asset)) (o : Orch) :
  well_behaved run_multi_fetch_store ->
  exists o', for_each groups (process start_date end_date) o = (Returns tt, o') /\
             tallied (stats o') = tallied (stats o) + Z.of_nat (length (concat groups)) /\
             total_assets (stats o') = total_assets (stats o).
Proof.
  intros Hsvc. revert o. induction groups as [|g groups IH]; intros o; simpl.
  - exists o. run_monad. repeat split; lia.
  - destruct (process_group_count start_date end_date g o Hsvc) as (o1 & Hrun & Ht & Ha).
    destruct (IH o1) as (o2 & Hrun2 & Ht2 & Ha2).
    exists o2. unfold bind. rewrite Hrun, Hrun2, length_app.
    repeat split; try congruence. lia.
Qed.

(** The count of a run, from any state of [self.stats]. *)
Lemma ingest_daily_data_count (now : Z) (assets : list Asset) (o : Orch) :
  well_behaved run_multi_fetch_store ->
  exists o', ingest_daily_data run_multi_fetch_store now assets o = (Returns (stats o'), o') /\
             tallied (stats o') = tallied (stats o) + Z.of_nat (length assets) /\
             total_assets (stats o') = Z.of_nat (length assets).
Proof.
  intros Hsvc. rewrite ingest_daily_data_groups.
  unfold bind at 1. unfold modify_stats at 1, modify at 1.
  destruct (run_groups_count (now - LOOKBACK_DAYS * DAY) now (groups_of assets)
              (mkOrchestrator (set_total_assets (Z.of_nat (length assets)) (stats o))
                 (pipeline_service o)) Hsvc) as (o' & Hrun & Ht & Ha).
  exists o'. unfold bind, gets. rewrite Hrun.
  rewrite concat_groups_of in Ht. simpl in *. unfold tallied in *. simpl in *. auto.
Qed.
End OrchestratorFacts.

(** When every call raises and leaves the service as it was, a run adds
    the size of each group to [failed] and touches nothing else. *)
Lemma run_groups_all_raise {S : Type}
    (run_multi_fetch_store : FetchRequest -> S -> outcome pyval * S)
    (start_date end_date : Z) (groups : list (list Asset)) (o : @Orchestrator S) :
  (forall req svc, exists e, run_multi_fetch_store req svc = (Raises e, svc)) ->
  for_each groups (process_group run_multi_fetch_store start_date end_date) o
  = (Returns tt,
     mkOrchestrator (add_failed (Z.of_nat (length (concat groups))) (stats o))
       (pipeline_service o)).
Proof.
  intros Hraise. revert o. induction groups as [|g groups IH]; intros o; simpl.
  - unfold ret. destruct o as [[] svc]. unfold add_failed; simpl.
    do 3 f_equal. lia.
  - unfold bind.
    destruct (Hraise (fetch_request start_date end_date (map ticker_or_symbol g))
                     (pipeline_service o)) as [e He].
    rewrite (process_group_raises _ _ _ _ _ _ _ He), IH. simpl.
    unfold add_failed; simpl. rewrite length_app. do 3 f_equal. lia.
Qed.

Lemma PipelineService_lacks_run_multi_fetch_store (req : FetchRequest) (svc : PipelineService) :
  PipelineService_run_multi_fetch_store req svc
  = (Raises (AttributeError
               "'PipelineService' object has no attribute 'run_multi_fetch_store'"),
     svc).
Proof. reflexivity. Qed.

(** A run against [PipelineService] on a new orchestrator. *)
Lemma ingest_with_PipelineService (now : Z) (assets : list Asset) :
  let n := Z.of_nat (length assets) in
  ingest_daily_data PipelineService_run_multi_fetch_store now assets
    (mkOrchestrator init_stats PipelineService_init)
  = (Returns (mkStats n 0 n 0 0),
     mkOrchestrator (mkStats n 0 n 0 0) PipelineService_init).
Proof.
  cbv zeta. rewrite ingest_daily_data_groups.
  unfold bind at 1. unfold modify_stats at 1, modify at 1. unfold bind.
  rewrite run_groups_all_raise
    by (intros req svc; eexists; apply PipelineService_lacks_run_multi_fetch_store).
  rewrite concat_groups_of. reflexivity.
Qed.

(** ** C1: the counters of a run add up to the number of assets *)

(** C1, as stated, fails on an orchestrator that is used twice: [__init__]
    sets the counters to zero, [ingest_daily_data] overwrites
    [total_assets] and adds to the others.  After a second run over one
    asset, [total_assets] is 1 and the three counters add up to 2. *)
Lemma stats_partition_fails_on_second_run :
  let run := ingest_daily_data PipelineService_run_multi_fetch_store 0 [AAPL] in
  let used := snd (run (mkOrchestrator init_stats PipelineService_init)) in
  exists st, fst (run used) = Returns st /\
             total_assets st = 1 /\
             successful st + failed st + skipped st = 2.
Proof. cbv zeta. eexists. split; [vm_compute; reflexivity|]. split; reflexivity. Qed.

(** A summary the per-symbol loop cannot read breaks the count as well:
    AAPL is counted, the entry of MSFT raises, and the handler then counts
    the whole group as failed.  (Not reachable with [PipelineService],
    each of whose calls raises.) *)
Example stats_partition_fails_on_broken_summary :
  fst (ingest_daily_data broken_service 0 [AAPL; MSFT] (mkOrchestrator init_stats tt))
  = Returns (mkStats 2 1 2 0 5).
Proof. vm_compute. reflexivity. Qed.

(** C1 (amended): for every run of [ingest_daily_data] on a freshly
    constructed orchestrator, over any asset list, in which each group
    call raises or returns a summary the per-symbol loop reads without
    raising, the run returns stats with
    [successful + failed + skipped = total_assets] and
    [total_assets = len(assets)]. *)
Theorem stats_partition_on_fresh_orchestrator {S : Type}
    (run_multi_fetch_store : FetchRequest -> S -> outcome pyval * S)
    (now : Z) (assets : list Asset) (svc : S) :
  well_behaved run_multi_fetch_store ->
  exists st o',
    ingest_daily_data run_multi_fetch_store now assets (mkOrchestrator init_stats svc)
    = (Returns st, o') /\
    successful st + failed st + skipped st = total_assets st /\
    total_assets st = Z.of_nat (length assets).
Proof.
  intros Hsvc.
  destruct (ingest_daily_data_count run_multi_fetch_store now assets
              (mkOrchestrator init_stats svc) Hsvc) as (o' & Hrun & Ht & Ha).
  exists (stats o'), o'. split; [exact Hrun|].
  unfold tallied in Ht. simpl in Ht. split; lia.
Qed.

Lemma sample_service_well_behaved : well_behaved sample_service.
Proof.
  intros req svc. unfold sample_service.
  destruct (bool_decide _); simpl; [exact I|].
  apply forallb_forall. intros sym _. cbn [assoc].
  destruct (String.eqb sym "AAPL"); [reflexivity|].
  destruct (String.eqb sym "MSFT"); reflexivity.
Defined.

Lemma stats_partition_on_fresh_orchestrator_witness :
  exists st o',
    ingest_daily_data sample_service 0 [AAPL; MSFT; RELIANCE] (mkOrchestrator init_stats tt)
    = (Returns st, o') /\
    successful st + failed st + skipped st = total_assets st /\
    total_assets st = Z.of_nat (length [AAPL; MSFT; RELIANCE]).
Proof.
  apply (stats_partition_on_fresh_orchestrator sample_service 0 [AAPL; MSFT; RELIANCE] tt).
  exact sample_service_well_behaved.
Defined.

Example sample_service_run :
  fst (ingest_daily_data sample_service 0 [AAPL; MSFT; RELIANCE] (mkOrchestrator init_stats tt))
  = Returns (mkStats 3 0 3 0 0).
Proof. vm_compute. reflexivity. Qed.

(** ** C2: with [PipelineService], every asset ends up failed *)

(** C2, as stated, fails on an orchestrator that is used twice: the
    second run over one asset ends with [failed = 2] and
    [total_assets = 1]. *)
Lemma all_failed_fails_on_second_run :
  let run := ingest_daily_data PipelineService_run_multi_fetch_store 0 [MSFT] in
  let used := snd (run (mkOrchestrator init_stats PipelineService_init)) in
  exists st, fst (run used) = Returns st /\ failed st = 2 /\ total_assets st = 1.
Proof. cbv zeta. eexists. split; [vm_compute; reflexivity|]. split; reflexivity. Qed.

(** C2 (amended): [PipelineService] defines no [run_multi_fetch_store], so
    every group call raises [AttributeError], which the handler of the
    group catches; hence a run on a freshly constructed orchestrator, over
    any asset list, completes with [failed = total_assets = len(assets)],
    [successful = 0], [skipped = 0] and [total_records = 0]. *)
Theorem missing_method_fails_every_asset (now : Z) (assets : list Asset) :
  ("run_multi_fetch_store" ∉ PipelineService_attributes) /\
  (forall req svc,
     PipelineService_run_multi_fetch_store req svc
     = (Raises (AttributeError
                  "'PipelineService' object has no attribute 'run_multi_fetch_store'"),
        svc)) /\
  (let n := Z.of_nat (length assets) in
   ingest_daily_data PipelineService_run_multi_fetch_store now assets
     (mkOrchestrator init_stats PipelineService_init)
   = (Returns (mkStats n 0 n 0 0),
      mkOrchestrator (mkStats n 0 n 0 0) PipelineService_init)).
Proof.
  split; [|split].
  - refine (proj1 (bool_decide_eq_false _) _). reflexivity.
  - exact PipelineService_lacks_run_multi_fetch_store.
  - apply ingest_with_PipelineService.
Qed.

(** ** C8: an empty asset list *)

(** C8, as stated, fails: on an empty list [ingest_daily_data] completes
    and returns zero-valued stats; it raises nothing. *)
Lemma empty_ingestion_completes :
  ingest_daily_data PipelineService_run_multi_fetch_store 0 []
    (mkOrchestrator init_stats PipelineService_init)
  = (Returns (mkStats 0 0 0 0 0), mkOrchestrator (mkStats 0 0 0 0 0) PipelineService_init).
Proof. reflexivity. Qed.

(** C8 (amended): on an empty asset list [ingest_daily_data] completes
    without calling the service and returns the stats with
    [total_assets = 0] and its counters unchanged; the empty list is
    refused one level up, by [main], which returns [False] (exit code 1)
    before it runs ingestion or validation. *)
Theorem empty_assets_stopped_by_main {S : Type}
    (run_multi_fetch_store : FetchRequest -> S -> outcome pyval * S)
    (now : Z) (o : @Orchestrator S)
    (format_1f format_pct : Q -> string) (supabase : Backend)
    (t_ingest : Z) (clock : Clock) (locals : MainLocals) :
  fetch_active_assets supabase = Returns [] ->
  ingest_daily_data run_multi_fetch_store now [] o
  = (Returns (set_total_assets 0 (stats o)),
     mkOrchestrator (set_total_assets 0 (stats o)) (pipeline_service o)) /\
  main format_1f format_pct supabase t_ingest clock locals = (Returns false, locals) /\
  exit_code false = 1.
Proof.
  intros Hassets. split; [reflexivity|]. split; [|reflexivity].
  unfold main, try_except, bind, lift. rewrite Hassets. reflexivity.
Qed.

Lemma empty_assets_stopped_by_main_witness :
  let supabase := mkBackend (mkStorage [] [mkAssetRow AAPL 0]) (fun _ => None) in
  let clock := mkClock 0 0 0 in
  ingest_daily_data sample_service 0 [] (mkOrchestrator init_stats tt)
  = (Returns (mkStats 0 0 0 0 0), mkOrchestrator (mkStats 0 0 0 0 0) tt) /\
  main (fun _ => "") (fun _ => "") supabase 0 clock no_locals = (Returns false, no_locals) /\
  exit_code false = 1.
Proof.
  exact (empty_assets_stopped_by_main sample_service 0 (mkOrchestrator init_stats tt)
           (fun _ => "") (fun _ => "")
           (mkBackend (mkStorage [] [mkAssetRow AAPL 0]) (fun _ => None))
           0 (mkClock 0 0 0) no_locals eq_refl).
Defined.

(** ** C9: the statuses [run_pipeline] enters *)

(** C9, as stated, fails: a run on a new service enters [COMPUTING] and
    [CACHING], which are outside
    [{IDLE, RUNNING, VALIDATING, COMPLETED, FAILED}]. *)
Lemma run_pipeline_enters_computing :
  let entered := status_history (snd (run_pipeline 0 1 PipelineService_init)) in
  entered = [RUNNING; VALIDATING; COMPUTING; CACHING; COMPLETED] /\
  (COMPUTING ∈ entered) /\
  (COMPUTING ∉ [IDLE; RUNNING; VALIDATING; COMPLETED; FAILED]).
Proof.
  cbv zeta. split; [reflexivity|]. split.
  - refine (bool_decide_unpack _ _). reflexivity.
  - refine (proj1 (bool_decide_eq_false _) _). reflexivity.
Qed.

Lemma status_path_members (n : nat) :
  (PAUSED ∉ status_path n) /\ (IDLE ∉ status_path n) /\
  status_path n ⊆ [RUNNING; VALIDATING; COMPUTING; CACHING; COMPLETED; FAILED].
Proof.
  do 4 (destruct n as [|n];
        [split; [|split]; [refine (proj1 (bool_decide_eq_false _) _); reflexivity..|];
         refine (bool_decide_unpack _ _); reflexivity|]).
  split; [|split]; [refine (proj1 (bool_decide_eq_false _) _); reflexivity..|].
  refine (bool_decide_unpack _ _). reflexivity.
Qed.

Ltac stops_after n :=
  do 2 eexists; rewrite <- ?app_assoc; simpl;
  split; [reflexivity|]; split; [reflexivity|]; split; [reflexivity|];
  split; [split; [discriminate || reflexivity | intros; lia || reflexivity]|];
  split; [split; [discriminate || (intros; lia) | (intros; lia) || reflexivity]|];
  exact (status_path_members n).

(** C9 (amended): whatever the four tiers do (return a flag or raise),
    [run_pipeline] returns, and the statuses it enters are, in order,
    RUNNING, then VALIDATING, COMPUTING and CACHING, each entered when the
    tier before it has returned [True], then COMPLETED when all four
    have; the first tier that returns [False] or raises sends the run to
    FAILED straight from the status it was awaited in.  The status the
    run leaves is the last one entered: COMPLETED exactly when the four
    tiers returned [True], FAILED otherwise.  Neither PAUSED nor IDLE is
    entered (IDLE is the status of a new service).  With the tiers of
    the source every run, from any state of the service, goes
    RUNNING, VALIDATING, COMPUTING, CACHING, COMPLETED. *)
Theorem run_pipeline_status_path
    (tier1 tier2 tier3 tier4 : M Metrics bool) (t_start t_end : Z) (p : PipelineService) :
  let n := tiers_passed [tier1; tier2; tier3; tier4]
             (snd (set_start_time t_start (metrics p))) in
  (exists r p',
     run_pipeline_with tier1 tier2 tier3 tier4 t_start t_end p = (Returns r, p') /\
     status_history p' = (status_history p ++ status_path n)%list /\
     last (status_path n) = Some (status p') /\
     (status p' = COMPLETED <-> n = 4%nat) /\
     (status p' = FAILED <-> (n < 4)%nat) /\
     (PAUSED ∉ status_path n) /\ (IDLE ∉ status_path n) /\
     status_path n ⊆ [RUNNING; VALIDATING; COMPUTING; CACHING; COMPLETED; FAILED]) /\
  status PipelineService_init = IDLE /\
  status_history (snd (run_pipeline t_start t_end PipelineService_init)) = status_path 4 /\
  status_history (snd (run_pipeline t_start t_end p))
  = (status_history p ++ [RUNNING; VALIDATING; COMPUTING; CACHING; COMPLETED])%list /\
  status (snd (run_pipeline t_start t_end p)) = COMPLETED.
Proof.
  cbv zeta. split; [|split; [reflexivity|]; split; [reflexivity|]; split; [|reflexivity];
                     simpl; rewrite <- !app_assoc; reflexivity].
  unfold run_pipeline_with, require_tier, set_status, on_metrics. run_monad.
  destruct (tier1 _) as [[[|]|e1] m1]; simpl; [|stops_after 0%nat|stops_after 0%nat].
  destruct (tier2 _) as [[[|]|e2] m2]; simpl; [|stops_after 1%nat|stops_after 1%nat].
  destruct (tier3 _) as [[[|]|e3] m3]; simpl; [|stops_after 2%nat|stops_after 2%nat].
  destruct (tier4 _) as [[[|]|e4] m4]; simpl; [stops_after 4%nat|stops_after 3%nat..].
Qed.

(** ** The storage gateway: what the latest-row query returns *)

#[local] Instance newer_or_equal_transitive : Transitive newer_or_equal.
Proof. unfold newer_or_equal. intros a b c Hab Hbc. lia. Qed.

#[local] Instance newer_or_equal_total : Total newer_or_equal.
Proof. unfold newer_or_equal. intros a b. lia. Qed.

Lemma filter_all {A} (l : list A) : List.filter (fun _ => true) l = l.
Proof. induction l as [|x l IH]; simpl; [|rewrite IH]; reflexivity. Qed.

(** The first row of the rows sorted most recent first is a most recent
    row. *)
Lemma sorted_head_most_recent (rows : list PriceRow) :
  match merge_sort newer_or_equal rows with
  | [] => rows = []
  | row :: _ => most_recent rows (timestamp row)
  end.
Proof.
  pose proof (merge_sort_Permutation newer_or_equal rows) as Hperm.
  pose proof (StronglySorted_merge_sort newer_or_equal rows) as Hsorted.
  destruct (merge_sort newer_or_equal rows) as [|row rest].
  - symmetry in Hperm. apply Permutation_nil_r in Hperm. exact Hperm.
  - split.
    + exists row. split; [|reflexivity]. rewrite <- Hperm. left.
    + apply StronglySorted_inv in Hsorted as [_ Hall].
      rewrite <- Hperm. constructor; [lia|].
      eapply Forall_impl; [exact Hall|]. intros r Hr. exact Hr.
Qed.

Lemma most_recent_unique (rows : list PriceRow) (t1 t2 : Z) :
  most_recent rows t1 -> most_recent rows t2 -> t1 = t2.
Proof.
  intros [(r1 & Hin1 & <-) Hall1] [(r2 & Hin2 & <-) Hall2].
  rewrite Forall_forall in Hall1, Hall2.
  specialize (Hall1 r2 Hin2). specialize (Hall2 r1 Hin1). lia.
Qed.

(** When the gateway serves the query, the freshness check sees the most
    recent timestamp of the store, and none only if the store is empty. *)
Lemma queried_latest_timestamp_served (supabase : Backend) :
  outage supabase FreshnessLatest = None ->
  match queried_latest_timestamp supabase with
  | Returns (Some latest) => most_recent (price_history (db supabase)) latest
  | Returns None => price_history (db supabase) = []
  | Raises _ => False
  end.
Proof.
  intros Hserved. unfold queried_latest_timestamp, execute. rewrite Hserved.
  unfold select_price_history. simpl. rewrite filter_all.
  pose proof (sorted_head_most_recent (price_history (db supabase))) as Hhead.
  destruct (merge_sort newer_or_equal (price_history (db supabase))) as [|row rest];
    simpl; exact Hhead.
Qed.

(** ** Validation: what each check does to [self.validation_results] *)

Lemma recorded_nothing_new (name : string) (c : Check) (v : ValidationResults) :
  mkValidationResults (passed v) (<[name := c]> (checks v)) (errors v) (warnings v)
  = recorded name c [] [] v.
Proof. unfold recorded. rewrite !app_nil_r. reflexivity. Qed.

Lemma recorded_error (name : string) (c : Check) (msg : string) (v : ValidationResults) :
  mkValidationResults (passed v) (<[name := c]> (checks v)) (errors v ++ [msg]) (warnings v)
  = recorded name c [msg] [] v.
Proof. unfold recorded. rewrite !app_nil_r. reflexivity. Qed.

Lemma recorded_warning (name : string) (c : Check) (msg : string) (v : ValidationResults) :
  mkValidationResults (passed v) (<[name := c]> (checks v)) (errors v) (warnings v ++ [msg])
  = recorded name c [] [msg] v.
Proof. unfold recorded. rewrite !app_nil_r. reflexivity. Qed.

Ltac run_check :=
  unfold set_check, append_error, append_warning; run_monad;
  rewrite ?recorded_nothing_new, ?recorded_error, ?recorded_warning.

Lemma check_data_completeness_effect (supabase : Backend) (now : Z) (v : ValidationResults) :
  exists c new_errors,
    _check_data_completeness supabase now v
    = (Returns tt, recorded "completeness" c new_errors [] v) /\
    check_passed c = completeness_verdict supabase now.
Proof.
  unfold _check_data_completeness, completeness_verdict.
  destruct (execute supabase CompletenessRecords _) as [response|e]; run_check;
    [|eauto].
  destruct (execute supabase CompletenessAssets _) as [assets_resp|e]; run_check;
    [|eauto].
  destruct (tolerated _ <=? _); run_check; eauto.
Qed.

Lemma check_data_freshness_effect (format_1f : Q -> string) (supabase : Backend)
    (now : Z) (v : ValidationResults) :
  exists c new_errors,
    _check_data_freshness format_1f supabase now v
    = (Returns tt, recorded "freshness" c new_errors [] v) /\
    check_passed c = freshness_verdict supabase now /\
    (queried_latest_timestamp supabase = Returns None ->
     c = mkCheck false "No data found in price_history" /\
     new_errors = ["No data in price_history table"]).
Proof.
  unfold _check_data_freshness, freshness_verdict, queried_latest_timestamp.
  destruct (execute supabase FreshnessLatest _) as [response|e]; run_check.
  - destruct (data response) as [|row rest]; run_check.
    + do 2 eexists. split; [reflexivity|]. auto.
    + destruct (Qle_bool _ _); run_check;
        (do 2 eexists; split; [reflexivity|]; split; [reflexivity|]; discriminate).
  - do 2 eexists. split; [reflexivity|]. split; [reflexivity|]. discriminate.
Qed.

Lemma check_data_quality_effect (format_pct : Q -> string) (supabase : Backend)
    (now : Z) (v : ValidationResults) :
  exists c new_warnings,
    _check_data_quality format_pct supabase now v
    = (Returns tt, recorded "quality" c [] new_warnings v) /\
    check_passed c = true /\
    match queried_null_ratio supabase now with
    | Raises e =>
        details c = str_exn e /\
        new_warnings = ["Quality check error: " ++ str_exn e]
    | Returns ratio =>
        details c = "Null ratio: " ++ format_pct ratio /\
        new_warnings = if Qle_bool ratio MAX_MISSING_RATIO then []
                       else ["High null ratio: " ++ format_pct ratio]
    end.
Proof.
  unfold _check_data_quality, queried_null_ratio.
  destruct (execute supabase QualityNulls _) as [response|e]; run_check;
    [|do 2 eexists; split; [reflexivity|]; auto].
  destruct (execute supabase QualityTotal _) as [total_response|e]; run_check;
    [|do 2 eexists; split; [reflexivity|]; auto].
  destruct (Qle_bool _ _) eqn:Hle; run_check;
    (do 2 eexists; split; [reflexivity|]; rewrite ?Hle; auto).
Qed.

Lemma check_asset_coverage_effect (supabase : Backend) (v : ValidationResults) :
  exists c new_errors,
    _check_asset_coverage supabase v
    = (Returns tt, recorded "asset_coverage" c new_errors [] v) /\
    check_passed c = coverage_verdict supabase.
Proof.
  unfold _check_asset_coverage, coverage_verdict.
  destruct (execute supabase CoverageAssets _) as [assets_response|e]; run_check;
    [|eauto].
  destruct (MIN_ASSETS_REQUIRED <=? _); run_check; eauto.
Qed.

(** The four checks in a row; the aggregate is the conjunction of the
    three critical verdicts. *)
Lemma validate_all_effect (format_1f format_pct : Q -> string) (supabase : Backend)
    (clock : Clock) (v : ValidationResults) :
  exists v',
    validate_all format_1f format_pct supabase clock v = (Returns v', v') /\
    check_flag (checks v') "completeness"
    = completeness_verdict supabase (at_completeness clock) /\
    check_flag (checks v') "freshness" = freshness_verdict supabase (at_freshness clock) /\
    check_flag (checks v') "asset_coverage" = coverage_verdict supabase /\
    passed v' = forallb (check_flag (checks v')) critical_checks.
Proof.
  unfold validate_all.
  destruct (check_data_completeness_effect supabase (at_completeness clock) v)
    as (c1 & e1 & H1 & Hc1).
  destruct (check_data_freshness_effect format_1f supabase (at_freshness clock)
              (recorded "completeness" c1 e1 [] v)) as (c2 & e2 & H2 & Hc2 & _).
  destruct (check_data_quality_effect format_pct supabase (at_quality clock)
              (recorded "freshness" c2 e2 []
                 (recorded "completeness" c1 e1 [] v))) as (c3 & w3 & H3 & _).
  destruct (check_asset_coverage_effect supabase
              (recorded "quality" c3 [] w3
                 (recorded "freshness" c2 e2 []
                    (recorded "completeness" c1 e1 [] v)))) as (c4 & e4 & H4 & Hc4).
  unfold bind. rewrite H1, H2, H3, H4.
  unfold set_passed, gets, modify. simpl.
  eexists. split; [reflexivity|]. simpl.
  unfold check_flag.
  repeat (rewrite lookup_insert_eq || rewrite lookup_insert_ne by discriminate).
  auto.
Qed.

(** ** The critical verdicts depend on timestamps and assets only *)

Lemma filter_by_timestamps (f : PriceRow -> bool) (g : Z -> bool) (rows : list PriceRow) :
  (forall r, f r = g (timestamp r)) ->
  length (List.filter f rows) = length (List.filter g (map timestamp rows)).
Proof.
  intros Hfg. induction rows as [|r rows IH]; [reflexivity|].
  cbn [List.filter map]. rewrite Hfg.
  destruct (g (timestamp r)); cbn [length]; rewrite IH; reflexivity.
Qed.

Lemma recent_count_by_timestamps (now : Z) (store : Storage) :
  count (select_price_history (recent_records_query now) store)
  = Some (Z.of_nat (length (List.filter (fun ts => now - 7 * DAY <=? ts)
                                       (map timestamp (price_history store))))).
Proof.
  unfold select_price_history, recent_records_query. cbn [count count_exact filters].
  do 2 f_equal. apply filter_by_timestamps.
  intros r. cbn [forallb satisfies]. apply andb_true_r.
Qed.





(** ** C3: the aggregate verdict *)


(** ** C5: the quality check never fails *)

(** C5: whatever the store holds and whichever of its queries fails, the
    quality check returns without raising, records [passed = True] under
    "quality" and appends no error; a ratio above [MAX_MISSING_RATIO]
    appends one warning; a query that raises leaves the text of the
    exception in [details] and appends one warning. *)
Theorem quality_check_always_passes (format_pct : Q -> string) (supabase : Backend)
    (now : Z) (v : ValidationResults) :
  exists v' c,
    _check_data_quality format_pct supabase now v = (Returns tt, v') /\
    checks v' !! "quality" = Some c /\
    check_passed c = true /\
    errors v' = errors v /\
    match queried_null_ratio supabase now with
    | Raises e =>
        details c = str_exn e /\
        warnings v' = (warnings v ++ [("Quality check error: " ++ str_exn e)%string])%list
    | Returns ratio =>
        ((MAX_MISSING_RATIO < ratio)%Q ->
         warnings v' = (warnings v ++ [("High null ratio: " ++ format_pct ratio)%string])%list) /\
        ((ratio <= MAX_MISSING_RATIO)%Q -> warnings v' = warnings v)
    end.
Proof.
  destruct (check_data_quality_effect format_pct supabase now v)
    as (c & w & Hrun & Hc & Hcase).
  exists (recorded "quality" c [] w v), c.
  split; [exact Hrun|]. split; [apply lookup_insert_eq|]. split; [exact Hc|].
  split; [apply app_nil_r|].
  destruct (queried_null_ratio supabase now) as [ratio|e]; simpl.
  - destruct Hcase as [_ ->].
    destruct (Qle_bool ratio MAX_MISSING_RATIO) eqn:Hle.
    + apply Qle_bool_iff in Hle. split; [|intros _; apply app_nil_r].
      intros Hlt. exfalso. exact (Qlt_not_le _ _ Hlt Hle).
    + split; [reflexivity|]. intros Hle'. apply Qle_bool_iff in Hle'. congruence.
  - destruct Hcase as [Hd ->]. auto.
Qed.

(** ** C7: the freshness check *)

(** The comparison [age_hours <= 48] of line 265, in nanoseconds. *)
Lemma age_within_limit (now latest : Z) :
  Qle_bool (age_hours now latest) 48 = true <-> now - latest <= 48 * HOUR.
Proof.
  rewrite Qle_bool_iff. unfold age_hours, Qle, Qdiv, Qmult, Qinv, HOUR, SECOND.
  simpl. lia.
Qed.

(** C7: the freshness check returns without raising, and the entry it
    records under "freshness" has [passed = True] if and only if its query
    yields a row whose timestamp is at most 48 hours old: an age of
    exactly 48 hours passes, one second more fails.  When the query yields
    no row, the entry is [passed = False] with the detail
    "No data found in price_history" and one error is appended.  When the
    gateway serves the query, the timestamp it yields is the most recent
    one of the store. *)
Theorem freshness_check_closed_boundary (format_1f : Q -> string) (supabase : Backend)
    (now : Z) (v : ValidationResults) :
  exists v' c,
    _check_data_freshness format_1f supabase now v = (Returns tt, v') /\
    checks v' !! "freshness" = Some c /\
    (check_passed c = true <->
     exists latest, queried_latest_timestamp supabase = Returns (Some latest) /\
                    now - latest <= 48 * HOUR) /\
    (forall latest, queried_latest_timestamp supabase = Returns (Some latest) ->
       (now - latest = 48 * HOUR -> check_passed c = true) /\
       (now - latest = 48 * HOUR + SECOND -> check_passed c = false)) /\
    (queried_latest_timestamp supabase = Returns None ->
       c = mkCheck false "No data found in price_history" /\
       errors v' = (errors v ++ ["No data in price_history table"])%list) /\
    (outage supabase FreshnessLatest = None ->
       (check_passed c = true <->
        exists latest, most_recent (price_history (db supabase)) latest /\
                       now - latest <= 48 * HOUR) /\
       (price_history (db supabase) = [] ->
        c = mkCheck false "No data found in price_history" /\
        errors v' = (errors v ++ ["No data in price_history table"])%list)).
Proof.
  destruct (check_data_freshness_effect format_1f supabase now v)
    as (c & new_errors & Hrun & Hc & Hnone).
  exists (recorded "freshness" c new_errors [] v), c.
  split; [exact Hrun|]. split; [apply lookup_insert_eq|].
  assert (Hiff : check_passed c = true <->
                 exists latest, queried_latest_timestamp supabase = Returns (Some latest) /\
                                now - latest <= 48 * HOUR).
  { rewrite Hc. unfold freshness_verdict.
    destruct (queried_latest_timestamp supabase) as [[latest|]|e].
    - rewrite age_within_limit. split.
      + intros Hage. exists latest. auto.
      + intros (latest' & Heq & Hage). congruence.
    - split; [discriminate|]. intros (latest & Heq & _). discriminate.
    - split; [discriminate|]. intros (latest & Heq & _). discriminate. }
  split; [exact Hiff|]. split; [|split].
  - intros latest Hq. rewrite Hc. unfold freshness_verdict. rewrite Hq. split.
    + intros Hage. apply age_within_limit. lia.
    + intros Hage. apply not_true_is_false. rewrite age_within_limit.
      unfold HOUR, SECOND in *. lia.
  - intros Hq. destruct (Hnone Hq) as [-> ->]. auto.
  - intros Hserved. rewrite Hiff.
    pose proof (queried_latest_timestamp_served supabase Hserved) as Hlatest.
    destruct (queried_latest_timestamp supabase) as [[latest|]|e]; [| |contradiction].
    + split; [split|].
      * intros (latest' & Heq & Hage). exists latest'. split; [congruence|exact Hage].
      * intros (latest' & Hmost & Hage). exists latest. split; [reflexivity|].
        rewrite (most_recent_unique _ _ _ Hlatest Hmost). exact Hage.
      * intros Hempty. destruct Hlatest as [(r & Hin & _) _].
        rewrite Hempty in Hin. inversion Hin.
    + split; [split|].
      * intros (latest & Heq & _). discriminate.
      * intros (latest & [(r & Hin & _) _] & _). rewrite Hlatest in Hin. inversion Hin.
      * intros _. destruct (Hnone eq_refl) as [-> ->]. auto.
Qed.

(** ** C6: the null ratio the quality check computes *)

(** The numerator of the ratio counts the null closes of the whole table:
    the query of line 301 carries no filter on the timestamp. *)
Lemma null_count_ignores_window (store : Storage) :
  count (select_price_history null_close_query store)
  = Some (Z.of_nat (length (List.filter
                              (fun r => match close r with None => true | Some _ => false end)
                              (price_history store)))).
Proof.
  unfold select_price_history, null_close_query. cbn [count count_exact filters].
  do 3 f_equal. apply List.filter_ext. intros r. cbn [forallb satisfies].
  apply andb_true_r.
Qed.

Lemma queried_null_ratio_served (supabase : Backend) (now : Z) :
  outage supabase QualityNulls = None ->
  outage supabase QualityTotal = None ->
  queried_null_ratio supabase now = Returns (computed_null_ratio now (db supabase)).
Proof.
  intros H1 H2. unfold queried_null_ratio, execute. rewrite H1, H2. reflexivity.
Qed.

(** C6 (the code departs from it): with one null close 30 days old and
    one priced row of today, the check computes a ratio of 1 and warns
    about it, where the ratio over the trailing 7-day window is 0. *)
Theorem null_ratio_counts_stale_nulls (format_pct : Q -> string) :
  let now := 30 * DAY in
  let store := mkStorage [mkPriceRow 0 None; mkPriceRow now (Some 100%Q)] [] in
  let supabase := mkBackend store (fun _ => None) in
  queried_null_ratio supabase now = Returns (computed_null_ratio now store) /\
  (computed_null_ratio now store == 1)%Q /\
  (windowed_null_ratio now store == 0)%Q /\
  warnings (snd (_check_data_quality format_pct supabase now init_validation_results))
  = ["High null ratio: " ++ format_pct (computed_null_ratio now store)].
Proof.
  cbv zeta. split; [reflexivity|]. split; [reflexivity|]. split; reflexivity.
Qed.

(** Where every null close lies within a non-empty window, the two ratios
    are the same. *)
Lemma computed_null_ratio_in_window (now : Z) (store : Storage) :
  Forall (fun r => close r = None -> now - 7 * DAY <= timestamp r) (price_history store) ->
  (exists r, r ∈ price_history store /\ now - 7 * DAY <= timestamp r) ->
  computed_null_ratio now store = windowed_null_ratio now store.
Proof.
  intros Hnulls (r0 & Hin & Hrecent).
  unfold computed_null_ratio, windowed_null_ratio.
  rewrite null_count_ignores_window, recent_count_by_timestamps.
  set (is_null := fun r : PriceRow => match close r with None => true | Some _ => false end).
  set (in_window := fun r : PriceRow => now - 7 * DAY <=? timestamp r).
  assert (Hwin : length (List.filter (fun ts => now - 7 * DAY <=? ts)
                           (map timestamp (price_history store)))
                 = length (List.filter in_window (price_history store))).
  { symmetry. apply filter_by_timestamps. reflexivity. }
  assert (Hnull : List.filter is_null (List.filter in_window (price_history store))
                  = List.filter is_null (price_history store)).
  { clear Hin Hwin. induction (price_history store) as [|r rows IH]; [reflexivity|].
    apply Forall_cons in Hnulls as [Hr Hrows]. cbn [List.filter].
    destruct (in_window r) eqn:Hw; cbn [List.filter].
    - rewrite (IH Hrows). reflexivity.
    - rewrite (IH Hrows). destruct (is_null r) eqn:Hn; [|reflexivity].
      exfalso. unfold is_null in Hn. unfold in_window in Hw.
      destruct (close r) eqn:Hc; [discriminate|].
      specialize (Hr eq_refl). apply Z.leb_gt in Hw. lia. }
  assert (Hpos : (0 < length (List.filter in_window (price_history store)))%nat).
  { clear Hnull Hwin Hnulls. induction (price_history store) as [|r rows IH];
      [inversion Hin|].
    cbn [List.filter]. apply elem_of_cons in Hin as [<-|Hin].
    - unfold in_window at 1. rewrite (proj2 (Z.leb_le _ _) Hrecent). simpl. lia.
    - specialize (IH Hin). destruct (in_window r); simpl; lia. }
  rewrite Hwin, Hnull. unfold py_or, null_ratio.
  destruct (Z.of_nat (length (List.filter in_window (price_history store))) =? 0) eqn:Hz;
    [apply Z.eqb_eq in Hz; lia|].
  rewrite (proj2 (Z.ltb_lt _ _)) by lia.
  destruct (Z.of_nat (length (List.filter is_null (price_history store))) =? 0) eqn:Hn;
    [apply Z.eqb_eq in Hn; rewrite Hn|]; reflexivity.
Qed.

(** ** C10: the rate limiter *)

Lemma spaced_snoc (d : Q) (ts : list Q) (t : Q) :
  spaced d ts ->
  (forall a, last ts = Some a -> (a + d <= t)%Q) ->
  spaced d (ts ++ [t]).
Proof.
  intros Hts Hlast i a b Ha Hb.
  destruct (decide (S i < length ts)%nat) as [Hlt|Hge].
  - rewrite lookup_app_l in Ha by lia. rewrite lookup_app_l in Hb by lia.
    exact (Hts i a b Ha Hb).
  - destruct (decide (S i = length ts)) as [Heq|Hne].
    + rewrite lookup_app_l in Ha by lia.
      rewrite lookup_app_r in Hb by lia.
      replace (S i - length ts)%nat with 0%nat in Hb by lia.
      simpl in Hb. injection Hb as <-.
      apply Hlast. rewrite last_lookup. rewrite <- Heq. exact Ha.
    + apply lookup_lt_Some in Hb. rewrite length_app in Hb. simpl in Hb. lia.
Qed.

Section RateLimiterFacts.
Variable duration : nat -> Q.
Variable cfg : YFinanceConfig.
Hypothesis clock_monotone : forall n, (0 <= duration n)%Q.
Hypothesis respectful : respect_server cfg = true.

Lemma pass_time_keeps (w : ClientWorld) :
  limiter_invariant cfg w ->
  exists w', pass_time duration w = (Returns tt, w') /\ limiter_invariant cfg w'.
Proof.
  intros (Hcfg & Hsp & Hlast). eexists. split; [reflexivity|].
  split; [exact Hcfg|]. split; [exact Hsp|]. simpl.
  intros t Ht. destruct (Hlast t Ht) as [Heq Hle]. split; [exact Heq|].
  pose proof (clock_monotone (elapsed w)). lra.
Qed.

(** The block before a download: it returns, and the instant it records,
    which is the one the clock shows when it is done, is at least the
    configured delay after the one recorded before; no request goes out
    in it. *)
Lemma rate_limit_waits (w : ClientWorld) :
  limiter_invariant cfg w ->
  exists w',
    rate_limit duration w = (Returns tt, w') /\
    limiter_invariant cfg w' /\
    request_times w' = (request_times w ++ [last_request_time w'])%list /\
    (last_request_time w + delay_between_requests cfg <= last_request_time w')%Q /\
    loop_time w' = last_request_time w' /\
    outbound_times w' = outbound_times w.
Proof.
  intros (Hcfg & Hsp & Hlast).
  unfold rate_limit. unfold bind at 1. unfold gets at 1. rewrite Hcfg, respectful.
  unfold get_time, pass_time, asyncio_sleep, record_request. run_monad.
  pose proof (clock_monotone (elapsed w)) as H0.
  destruct (Qlt_le_dec _ _) as [Hsoon|Hlate]; simpl.
  - pose proof (clock_monotone (S (elapsed w))) as H1.
    pose proof (clock_monotone (S (S (elapsed w)))) as H2.
    destruct (Qlt_le_dec 0 _) as [Hpos|Hneg]; [|lra].
    eexists. split; [reflexivity|]. simpl.
    assert (Hgap : (last_request_time w + delay_between_requests cfg
                    <= loop_time w + duration (elapsed w)
                       + (delay_between_requests cfg
                          - (loop_time w + duration (elapsed w) - last_request_time w))
                       + duration (S (elapsed w)) + duration (S (S (elapsed w))))%Q) by lra.
    split; [|split; [reflexivity|split; [exact Hgap|split; reflexivity]]].
    split; [exact Hcfg|]. split.
    + apply spaced_snoc; [exact Hsp|]. intros a Ha.
      destruct (Hlast a Ha) as [<- _]. exact Hgap.
    + simpl. intros t Ht. rewrite last_snoc in Ht. injection Ht as <-.
      split; [reflexivity|]. lra.
  - pose proof (clock_monotone (S (elapsed w))) as H1.
    eexists. split; [reflexivity|]. simpl.
    assert (Hgap : (last_request_time w + delay_between_requests cfg
                    <= loop_time w + duration (elapsed w) + duration (S (elapsed w)))%Q)
      by lra.
    split; [|split; [reflexivity|split; [exact Hgap|split; reflexivity]]].
    split; [exact Hcfg|]. split.
    + apply spaced_snoc; [exact Hsp|]. intros a Ha.
      destruct (Hlast a Ha) as [<- _]. exact Hgap.
    + simpl. intros t Ht. rewrite last_snoc in Ht. injection Ht as <-.
      split; [reflexivity|]. lra.
Qed.

(** The download: the request goes out at the instant the clock shows,
    and nothing the limiter keeps is touched. *)
Lemma download_sends (w : ClientWorld) :
  limiter_invariant cfg w ->
  exists w',
    download duration w = (Returns tt, w') /\
    limiter_invariant cfg w' /\
    request_times w' = request_times w /\
    last_request_time w' = last_request_time w /\
    outbound_times w' = (outbound_times w ++ [loop_time w])%list.
Proof.
  intros (Hcfg & Hsp & Hlast). eexists. split; [reflexivity|]. simpl.
  split; [|auto]. split; [exact Hcfg|]. split; [exact Hsp|]. simpl.
  intros t Ht. destruct (Hlast t Ht) as [Heq Hle]. split; [exact Heq|].
  pose proof (clock_monotone (elapsed w)). lra.
Qed.

(** One request: the block, then the download. *)
Lemma request_sends (w : ClientWorld) :
  limiter_invariant cfg w ->
  exists w1 w',
    rate_limit duration w = (Returns tt, w1) /\
    download duration w1 = (Returns tt, w') /\
    (rate_limit duration ;;; download duration) w = (Returns tt, w') /\
    limiter_invariant cfg w' /\
    (last_request_time w + delay_between_requests cfg <= last_request_time w1)%Q /\
    request_times w' = (request_times w ++ [last_request_time w1])%list /\
    outbound_times w' = (outbound_times w ++ [last_request_time w1])%list.
Proof.
  intros Hinv.
  destruct (rate_limit_waits w Hinv) as (w1 & Hrun & Hinv1 & Htimes & Hgap & Hnow & Hout).
  destruct (download_sends w1 Hinv1) as (w' & Hrun' & Hinv' & Htimes' & _ & Hout').
  exists w1, w'. split; [exact Hrun|]. split; [exact Hrun'|]. split.
  { unfold bind. rewrite Hrun. exact Hrun'. }
  split; [exact Hinv'|]. split; [exact Hgap|]. split.
  - rewrite Htimes'. exact Htimes.
  - rewrite Hout', Hout, Hnow. reflexivity.
Qed.

Lemma request_keeps (w : ClientWorld) :
  limiter_invariant cfg w ->
  exists w', (rate_limit duration ;;; download duration) w = (Returns tt, w') /\
             limiter_invariant cfg w'.
Proof.
  intros Hinv. destruct (request_sends w Hinv) as (w1 & w' & _ & _ & Hrun & Hinv' & _).
  eauto.
Qed.

(** Between calls, every request that has gone out went out at the
    instant recorded for it, and [k] more have gone out since [w]. *)
Lemma requests_sent {A} (groups : list A) (w : ClientWorld) :
  limiter_invariant cfg w -> outbound_times w = request_times w ->
  exists w',
    for_each groups (fun _ => rate_limit duration ;;; download duration) w
    = (Returns tt, w') /\
    limiter_invariant cfg w' /\ outbound_times w' = request_times w' /\
    length (outbound_times w') = (length (outbound_times w) + length groups)%nat.
Proof.
  revert w. induction groups as [|g groups IH]; intros w Hinv Hsame.
  - exists w. split; [reflexivity|]. split; [exact Hinv|]. split; [exact Hsame|]. simpl. lia.
  - destruct (request_sends w Hinv) as (w1 & w2 & _ & _ & Hrun & Hinv2 & _ & Htimes & Hout).
    destruct (IH w2 Hinv2) as (w' & Hrun' & Hinv' & Hsame' & Hlen).
    { rewrite Hout, Htimes, Hsame. reflexivity. }
    exists w'. cbn [for_each]. unfold bind at 1. rewrite Hrun.
    split; [exact Hrun'|]. split; [exact Hinv'|]. split; [exact Hsame'|].
    rewrite Hlen, Hout, length_app. simpl. lia.
Qed.

Lemma perform_sends (c : ClientCall) (w : ClientWorld) :
  limiter_invariant cfg w -> outbound_times w = request_times w ->
  exists w',
    try_except (perform duration c) (fun _ => ret tt) w = (Returns tt, w') /\
    limiter_invariant cfg w' /\ outbound_times w' = request_times w' /\
    length (outbound_times w') = (length (outbound_times w) + downloads c)%nat.
Proof.
  intros Hinv Hsame. unfold try_except. destruct c as [|symbols group_size]; simpl.
  - unfold fetch_historical_data.
    destruct (requests_sent [tt] w Hinv Hsame) as (w' & Hrun & Hinv' & Hsame' & Hlen).
    cbn [for_each] in Hrun. unfold bind at 1 in Hrun.
    destruct ((rate_limit duration ;;; download duration) w) as [[[]|e] w1]; [|discriminate].
    injection Hrun as ->. eauto.
  - unfold fetch_batch_multi, bind at 1, lift. destruct group_size as [|g]; cbn [chunk].
    + exists w. split; [reflexivity|]. split; [exact Hinv|]. split; [exact Hsame|]. simpl. lia.
    + destruct (requests_sent
                  (map (fun i => slice symbols i (i + S g)) (py_range0 (length symbols) (S g)))
                  w Hinv Hsame) as (w' & -> & Hinv' & Hsame' & Hlen).
      exists w'. split; [reflexivity|]. split; [exact Hinv'|]. split; [exact Hsame'|].
      rewrite Hlen, !length_map. unfold py_range0. rewrite length_map, length_seq.
      reflexivity.
Qed.

Lemma perform_all_sends (calls : list ClientCall) (w : ClientWorld) :
  limiter_invariant cfg w -> outbound_times w = request_times w ->
  exists w',
    perform_all duration calls w = (Returns tt, w') /\
    limiter_invariant cfg w' /\ outbound_times w' = request_times w' /\
    length (outbound_times w')
    = (length (outbound_times w) + sum_list (map downloads calls))%nat.
Proof.
  unfold perform_all. revert w. induction calls as [|c calls IH]; intros w Hinv Hsame.
  - exists w. split; [reflexivity|]. split; [exact Hinv|]. split; [exact Hsame|]. simpl. lia.
  - destruct (perform_sends c w Hinv Hsame) as (w1 & Hrun & Hinv1 & Hsame1 & Hlen1).
    destruct (IH w1 Hinv1 Hsame1) as (w' & Hrun' & Hinv' & Hsame' & Hlen').
    exists w'. cbn [for_each]. unfold bind at 1. rewrite Hrun.
    split; [exact Hrun'|]. split; [exact Hinv'|]. split; [exact Hsame'|].
    rewrite Hlen', Hlen1. simpl. lia.
Qed.
End RateLimiterFacts.

Lemma limiter_invariant_init (cfg : YFinanceConfig) (t0 : Q) :
  limiter_invariant cfg (YFinanceClient_init cfg t0).
Proof.
  split; [reflexivity|]. split.
  - intros i a b Ha. inversion Ha.
  - intros t Ht. inversion Ht.
Qed.

(** C10: on a client with [respect_server] enabled, whose calls are
    awaited one after the other on a clock that does not run backwards,
    every call returns and sends one request per download (one for
    [fetch_historical_data], one per group for [fetch_batch_multi]); each
    request goes out at the instant the client has just recorded in
    [last_request_time]; and every two successive requests go out at
    least [delay_between_requests] apart.  Request by request: the block
    before a download returns after recording an instant at least
    [delay_between_requests] later than the one recorded before, and the
    download that follows goes out at that instant. *)
Theorem requests_are_spaced (duration : nat -> Q) (cfg : YFinanceConfig) (t0 : Q)
    (calls : list ClientCall) :
  (forall n, (0 <= duration n)%Q) ->
  respect_server cfg = true ->
  (exists w,
     perform_all duration calls (YFinanceClient_init cfg t0) = (Returns tt, w) /\
     length (outbound_times w) = sum_list (map downloads calls) /\
     outbound_times w = request_times w /\
     spaced (delay_between_requests cfg) (outbound_times w)) /\
  (forall w, limiter_invariant cfg w ->
     exists w',
       rate_limit duration w = (Returns tt, w') /\
       limiter_invariant cfg w' /\
       request_times w' = (request_times w ++ [last_request_time w'])%list /\
       (last_request_time w + delay_between_requests cfg <= last_request_time w')%Q) /\
  (forall w, limiter_invariant cfg w ->
     exists w1 w',
       rate_limit duration w = (Returns tt, w1) /\
       download duration w1 = (Returns tt, w') /\
       (last_request_time w + delay_between_requests cfg <= last_request_time w1)%Q /\
       outbound_times w' = (outbound_times w ++ [last_request_time w1])%list /\
       limiter_invariant cfg w').
Proof.
  intros Hmono Hrespect. split; [|split].
  - destruct (perform_all_sends duration cfg Hmono Hrespect calls
                (YFinanceClient_init cfg t0) (limiter_invariant_init cfg t0) eq_refl)
      as (w & Hrun & (_ & Hsp & _) & Hsame & Hlen).
    exists w. split; [exact Hrun|]. split; [exact Hlen|]. split; [exact Hsame|].
    rewrite Hsame. exact Hsp.
  - intros w Hinv.
    destruct (rate_limit_waits duration cfg Hmono Hrespect w Hinv)
      as (w' & Hrun & Hinv' & Htimes & Hgap & _).
    exists w'. auto.
  - intros w Hinv.
    destruct (request_sends duration cfg Hmono Hrespect w Hinv)
      as (w1 & w' & Hrun & Hrun' & _ & Hinv' & Hgap & _ & Hout).
    exists w1, w'. auto.
Qed.

Lemma requests_are_spaced_witness :
  let duration := fun _ : nat => (1 # 2)%Q in
  let cfg := YFinanceConfig_default in
  let calls := [Fetch_historical_data; Fetch_batch_multi ["AAPL"; "MSFT"; "SPY"] 2] in
  (exists w,
     perform_all duration calls (YFinanceClient_init cfg 100%Q) = (Returns tt, w) /\
     length (outbound_times w) = sum_list (map downloads calls) /\
     outbound_times w = request_times w /\
     spaced (delay_between_requests cfg) (outbound_times w)) /\
  (forall w, limiter_invariant cfg w ->
     exists w',
       rate_limit duration w = (Returns tt, w') /\
       limiter_invariant cfg w' /\
       request_times w' = (request_times w ++ [last_request_time w'])%list /\
       (last_request_time w + delay_between_requests cfg <= last_request_time w')%Q) /\
  (forall w, limiter_invariant cfg w ->
     exists w1 w',
       rate_limit duration w = (Returns tt, w1) /\
       download duration w1 = (Returns tt, w') /\
       (last_request_time w + delay_between_requests cfg <= last_request_time w1)%Q /\
       outbound_times w' = (outbound_times w ++ [last_request_time w1])%list /\
       limiter_invariant cfg w').
Proof.
  apply (requests_are_spaced (fun _ => (1 # 2)%Q) YFinanceConfig_default 100%Q
           [Fetch_historical_data; Fetch_batch_multi ["AAPL"; "MSFT"; "SPY"] 2]).
  - intros n. unfold Qle. simpl. lia.
  - reflexivity.
Defined.

(** With [respect_server] off the same calls send their requests as fast
    as the downloads return: here half a second apart. *)
Example unlimited_requests_are_not_spaced :
  let cfg := mkYFinanceConfig true true false 30 false 60%Q false in
  let w := snd (perform_all (fun _ => (1 # 2)%Q)
                  [Fetch_historical_data; Fetch_historical_data]
                  (YFinanceClient_init cfg 100%Q)) in
  outbound_times w = [100%Q; (201 # 2)%Q] /\
  ~ spaced (delay_between_requests cfg) (outbound_times w).
Proof.
  cbv zeta. split; [vm_compute; reflexivity|].
  intros Hsp. specialize (Hsp 0%nat 100%Q (201 # 2)%Q eq_refl eq_refl).
  revert Hsp. unfold Qle. simpl. lia.
Qed.

(** ** Scenario A of the specification, run

    120 assets S0 ... S119 make 12 batches and 24 groups of 5.  The
    service below raises for the group that holds S30 (the seventh) and
    stores one row for every other symbol it is asked for: the run ends
    with 115 symbols successful and 5 failed. *)

Lemma scenario_A_groups :
  let assets := map (fun i => mkAsset ("S" ++ pretty i) None) (seq 0 120) in
  length (py_range0 (length assets) BATCH_SIZE) = 12%nat /\
  length (groups_of assets) = 24%nat /\
  Forall (fun g => length g = 5%nat) (groups_of assets).
Proof.
  cbv zeta. split; [reflexivity|]. split; [reflexivity|].
  refine (bool_decide_unpack _ _). vm_compute. reflexivity.
Qed.

Lemma scenario_A_run :
  let assets := map (fun i => mkAsset ("S" ++ pretty i) None) (seq 0 120) in
  let service := fun (req : FetchRequest) (svc : unit) =>
    if bool_decide ("S30" ∈ req_symbols req)
    then (Raises (Exception "TimeoutError" "provider timed out"), svc)
    else (Returns
            (PyDict [("results",
                      PyDict (map (fun sym =>
                                     (sym, PyDict [("status", PyStr "success");
                                                   ("records_stored", PyInt 1)]))
                                  (req_symbols req)))]),
          svc) in
  fst (ingest_daily_data service 0 assets (mkOrchestrator init_stats tt))
  = Returns (mkStats 120 115 5 0 115).
Proof. vm_compute. reflexivity. Qed.

(** ** Further properties of the pipeline *)

(** X1: the fetch groups partition the asset list in the order it was
    given, and a run is one loop over them. *)
Theorem groups_follow_listing_order {S : Type}
    (run_multi_fetch_store : FetchRequest -> S -> outcome pyval * S)
    (now : Z) (assets : list Asset) (o : @Orchestrator S) :
  concat (groups_of assets) = assets /\
  ingest_daily_data run_multi_fetch_store now assets o
  = (modify_stats (set_total_assets (Z.of_nat (length assets))) ;;;
     for_each (groups_of assets)
       (process_group run_multi_fetch_store (now - LOOKBACK_DAYS * DAY) now) ;;;
     gets stats) o.
Proof. split; [apply concat_groups_of|apply ingest_daily_data_groups]. Qed.

(** X2: with the tier methods of the source, [run_pipeline] always completes:
    it returns the success dict, leaves the status COMPLETED and the
    metrics at 5000 ingested, 5000 validated, 100 pairs and 500 cache
    entries. *)
Theorem run_pipeline_completes (t_start t_end : Z) (p : PipelineService) :
  let m := mkMetrics (Some t_start) (Some t_end) 5000 5000 100 500 in
  run_pipeline t_start t_end p
  = (Returns (PipelineSuccess m "All tiers completed"),
     mkPipelineService COMPLETED m
       (status_history p ++ [RUNNING; VALIDATING; COMPUTING; CACHING; COMPLETED])).
Proof.
  cbv zeta. unfold run_pipeline, run_pipeline_with. run_monad.
  unfold set_status, on_metrics. run_monad.
  rewrite <- !app_assoc. reflexivity.
Qed.

(** X3, the quality gate of [main]: once active assets are found, ingestion
    and validation both run, and [main] returns [True] exactly when the
    validation report has [passed = True]. *)
Theorem main_gates_on_validation (format_1f format_pct : Q -> string)
    (supabase : Backend) (t_ingest : Z) (clock : Clock) (a : Asset) (rest : list Asset) :
  fetch_active_assets supabase = Returns (a :: rest) ->
  exists results,
    validate_all format_1f format_pct supabase clock init_validation_results
    = (Returns results, results) /\
    main format_1f format_pct supabase t_ingest clock no_locals
    = (Returns (passed results),
       mkMainLocals
         (Some (mkStats (Z.of_nat (length (a :: rest))) 0
                        (Z.of_nat (length (a :: rest))) 0 0))
         (Some results)).
Proof.
  intros Hassets.
  destruct (validate_all_effect format_1f format_pct supabase clock
              init_validation_results) as (results & Hrun & _).
  exists results. split; [exact Hrun|].
  unfold main, try_except, bind, lift, run_on. rewrite Hassets.
  rewrite ingest_with_PipelineService, Hrun. simpl.
  destruct (passed results); reflexivity.
Qed.

Lemma main_gates_on_validation_witness :
  let supabase := mkBackend (mkStorage [mkPriceRow 0 None] [mkAssetRow AAPL 1])
                    (fun _ => None) in
  exists results,
    validate_all (fun _ => "") (fun _ => "") supabase (mkClock 0 0 0)
      init_validation_results
    = (Returns results, results) /\
    main (fun _ => "") (fun _ => "") supabase 0 (mkClock 0 0 0) no_locals
    = (Returns (passed results),
       mkMainLocals (Some (mkStats (Z.of_nat (length [AAPL])) 0
                                   (Z.of_nat (length [AAPL])) 0 0))
         (Some results)).
Proof.
  exact (main_gates_on_validation (fun _ => "") (fun _ => "")
           (mkBackend (mkStorage [mkPriceRow 0 None] [mkAssetRow AAPL 1]) (fun _ => None))
           0 (mkClock 0 0 0) AAPL [] eq_refl).
Defined.

(** X4, scenario C of the specification: with no row in [price_history]
    at all, the freshness check fails and so does the aggregate. *)
Theorem empty_store_fails_validation (format_1f format_pct : Q -> string)
    (supabase : Backend) (clock : Clock) (v : ValidationResults) :
  outage supabase FreshnessLatest = None ->
  price_history (db supabase) = [] ->
  exists v',
    validate_all format_1f format_pct supabase clock v = (Returns v', v') /\
    check_flag (checks v') "freshness" = false /\
    passed v' = false.
Proof.
  intros Hserved Hempty.
  destruct (validate_all_effect format_1f format_pct supabase clock v)
    as (v' & Hrun & _ & Hf & _ & Hp).
  exists v'. split; [exact Hrun|].
  assert (Hfresh : check_flag (checks v') "freshness" = false).
  { rewrite Hf. unfold freshness_verdict.
    pose proof (queried_latest_timestamp_served supabase Hserved) as Hlatest.
    destruct (queried_latest_timestamp supabase) as [[latest|]|e]; try reflexivity.
    destruct Hlatest as [(r & Hin & _) _]. rewrite Hempty in Hin. inversion Hin. }
  split; [exact Hfresh|].
  rewrite Hp. simpl. rewrite Hfresh. apply andb_false_r.
Qed.

Lemma empty_store_fails_validation_witness :
  let supabase := mkBackend (mkStorage [] [mkAssetRow AAPL 1]) (fun _ => None) in
  exists v',
    validate_all (fun _ => "") (fun _ => "") supabase (mkClock 0 0 0)
      init_validation_results = (Returns v', v') /\
    check_flag (checks v') "freshness" = false /\
    passed v' = false.
Proof.
  exact (empty_store_fails_validation (fun _ => "") (fun _ => "")
           (mkBackend (mkStorage [] [mkAssetRow AAPL 1]) (fun _ => None))
           (mkClock 0 0 0) init_validation_results eq_refl eq_refl).
Defined.

(** ** Ticker formats *)

Example convert_symbol_samples :
  _convert_symbol_to_yfinance "AAPL.US" None = "AAPL" /\
  _convert_symbol_to_yfinance "SENSEX.BSE" None = "SENSEX.BO" /\
  _convert_symbol_to_yfinance "BTC" (Some "crypto") = "BTC-USD" /\
  _convert_symbol_to_yfinance "ETH.CC" None = "ETH-USD" /\
  _convert_symbol_to_yfinance "SOL-EUR" (Some "crypto") = "SOL-USD" /\
  _convert_symbol_to_yfinance "RELIANCE.NS" None = "RELIANCE.NS" /\
  _convert_symbol_to_yfinance "RELIANCE.NSE" None = "RELIANCE.NSE".
Proof. repeat split; reflexivity. Qed.

Lemma prefix_trans (a b c : string) :
  String.prefix a b = true -> String.prefix b c = true -> String.prefix a c = true.
Proof.
  revert b c. induction a as [|x a IH]; intros b c Hab Hbc; [destruct c; reflexivity|].
  destruct b as [|y b]; [discriminate|]. destruct c as [|z c]; [discriminate|].
  simpl in *.
  destruct (ascii_dec x y) as [->|]; [|discriminate].
  destruct (ascii_dec y z) as [->|]; [|discriminate].
  eapply IH; eassumption.
Qed.

Lemma prefix_refl (s : string) : String.prefix s s = true.
Proof.
  induction s as [|c s IH]; [reflexivity|]. simpl.
  destruct (ascii_dec c c); [exact IH|contradiction].
Qed.

Lemma contains_cons (sub : string) (c : ascii) (rest : string) :
  contains sub (String c rest) = String.prefix sub (String c rest) || contains sub rest.
Proof. cbn [contains]. destruct (String.prefix sub (String c rest)); reflexivity. Qed.

(** Where a pattern occurs, its prefixes occur. *)
Lemma contains_prefix (a b s : string) :
  String.prefix a b = true -> contains b s = true -> contains a s = true.
Proof.
  intros Hab. induction s as [|c s IH]; intros Hb.
  - cbn [contains] in *. destruct (String.prefix b "") eqn:Hp; [|discriminate].
    rewrite (prefix_trans _ _ _ Hab Hp). reflexivity.
  - rewrite contains_cons in *. apply orb_true_iff in Hb as [Hp|Hrest].
    + rewrite (prefix_trans _ _ _ Hab Hp). reflexivity.
    + rewrite (IH Hrest). apply orb_true_r.
Qed.

Lemma endswith_refl (s : string) : endswith s s = true.
Proof. destruct s; cbn [endswith]; rewrite String.eqb_refl; reflexivity. Qed.

Lemma endswith_app (s suffix : string) : endswith (s ++ suffix) suffix = true.
Proof.
  induction s as [|c s IH]; [apply endswith_refl|].
  change (endswith (String c (s ++ suffix)) suffix = true).
  cbn [endswith]. rewrite IH. destruct (String.eqb _ _); reflexivity.
Qed.

Lemma endswith_contains (s suffix : string) :
  endswith s suffix = true -> contains suffix s = true.
Proof.
  induction s as [|c s IH]; intros H.
  - cbn [endswith] in H. destruct (String.eqb "" suffix) eqn:He; [|discriminate].
    apply String.eqb_eq in He. subst. reflexivity.
  - cbn [endswith] in H. rewrite contains_cons.
    destruct (String.eqb (String c s) suffix) eqn:He.
    + apply String.eqb_eq in He. subst. rewrite prefix_refl. reflexivity.
    + rewrite (IH H). apply orb_true_r.
Qed.

(** X5: a symbol that contains ".NSE" contains ".NS", so the guard of
    line 68 returns it as it is: the rewriting of ".NSE" into ".NS"
    (lines 79-80) never takes place. *)
Theorem nse_symbols_are_left_unchanged (symbol : string) (asset_type : option string) :
  contains ".NSE" symbol = true ->
  _convert_symbol_to_yfinance symbol asset_type = symbol.
Proof.
  intros H. unfold _convert_symbol_to_yfinance. cbn [existsb].
  rewrite (contains_prefix ".NS" ".NSE" symbol eq_refl H). reflexivity.
Qed.

Lemma nse_symbols_are_left_unchanged_witness :
  _convert_symbol_to_yfinance "RELIANCE.NSE" None = "RELIANCE.NSE".
Proof. exact (nse_symbols_are_left_unchanged "RELIANCE.NSE" None eq_refl). Defined.

(** X6: a symbol that passes the guard and is treated as crypto (by its
    asset type or by a ".CC" in it) comes out ending in "-USD", and
    converting the result again changes nothing. *)
Theorem crypto_symbols_end_in_usd (symbol : string) (asset_type : option string) :
  existsb (fun suffix => contains suffix symbol) [".NS"; ".BO"; "-USD"] = false ->
  is_crypto asset_type || contains ".CC" symbol = true ->
  let ticker := _convert_symbol_to_yfinance symbol asset_type in
  endswith ticker "-USD" = true /\
  _convert_symbol_to_yfinance ticker asset_type = ticker.
Proof.
  intros Hguard Hcrypto.
  assert (Hends : endswith (_convert_symbol_to_yfinance symbol asset_type) "-USD" = true).
  { unfold _convert_symbol_to_yfinance. rewrite Hguard, Hcrypto. cbv zeta.
    set (cleaned := if contains ".CC" symbol then replace ".CC" "" symbol else symbol).
    destruct (endswith cleaned "-USD") eqn:He; cbn [negb]; [exact He|apply endswith_app]. }
  cbv zeta. split; [exact Hends|].
  unfold _convert_symbol_to_yfinance at 1. cbn [existsb].
  rewrite (endswith_contains _ _ Hends), !orb_true_r. reflexivity.
Qed.

Lemma crypto_symbols_end_in_usd_witness :
  let ticker := _convert_symbol_to_yfinance "SOL-EUR.CC" None in
  endswith ticker "-USD" = true /\
  _convert_symbol_to_yfinance ticker None = ticker.
Proof. exact (crypto_symbols_end_in_usd "SOL-EUR.CC" None eq_refl eq_refl). Defined.

Lemma plain_cons (b : ascii) (base : string) :
  plain (String b base) = true -> b <> "."%char /\ b <> "-"%char /\ plain base = true.
Proof.
  cbn [plain]. rewrite !andb_true_iff, !negb_true_iff.
  intros [[Hdot Hdash] Hrest]. apply Ascii.eqb_neq in Hdot, Hdash. auto.
Qed.

Lemma string_app_nil_r (s : string) : s ++ "" = s.
Proof.
  induction s as [|c s IH]; [reflexivity|].
  change (String c (s ++ "") = String c s). f_equal. exact IH.
Qed.

Lemma string_app_assoc (a b c : string) : (a ++ b) ++ c = a ++ (b ++ c).
Proof.
  induction a as [|x a IH]; [reflexivity|].
  change (String x ((a ++ b) ++ c) = String x (a ++ (b ++ c))). f_equal. exact IH.
Qed.

Section AfterPlainBase.
Variables (h : ascii) (p : string).
Hypothesis mark : h = "."%char \/ h = "-"%char.

Lemma contains_after_plain (base tail : string) :
  plain base = true ->
  contains (String h p) (base ++ tail) = contains (String h p) tail.
Proof.
  induction base as [|b base IH]; intros Hplain; [reflexivity|].
  apply plain_cons in Hplain as (Hdot & Hdash & Hrest).
  change (String b base ++ tail) with (String b (base ++ tail)).
  rewrite contains_cons, (IH Hrest). cbn [String.prefix].
  destruct (ascii_dec h b) as [->|_]; [|reflexivity].
  destruct mark; contradiction.
Qed.

Lemma endswith_after_plain (base tail : string) :
  plain base = true ->
  endswith (base ++ tail) (String h p) = endswith tail (String h p).
Proof.
  induction base as [|b base IH]; intros Hplain; [reflexivity|].
  apply plain_cons in Hplain as (Hdot & Hdash & Hrest).
  change (String b base ++ tail) with (String b (base ++ tail)).
  cbn [endswith]. rewrite (IH Hrest).
  destruct (String.eqb (String b (base ++ tail)) (String h p)) eqn:He; [|reflexivity].
  apply String.eqb_eq in He. injection He as -> _. destruct mark; contradiction.
Qed.

Lemma replace_after_plain (new base tail : string) :
  plain base = true ->
  replace (String h p) new (base ++ tail) = base ++ replace (String h p) new tail.
Proof.
  unfold replace. induction base as [|b base IH]; intros Hplain; [reflexivity|].
  apply plain_cons in Hplain as (Hdot & Hdash & Hrest).
  change (String b base ++ tail) with (String b (base ++ tail)).
  cbn [replace_from String.prefix].
  destruct (ascii_dec h b) as [->|_]; [destruct mark; contradiction|].
  rewrite (IH Hrest). reflexivity.
Qed.
End AfterPlainBase.

Lemma before_dash_plain (base tail : string) :
  plain base = true -> before_dash (base ++ tail) = base ++ before_dash tail.
Proof.
  induction base as [|b base IH]; intros Hplain; [reflexivity|].
  apply plain_cons in Hplain as (Hdot & Hdash & Hrest).
  change (String b base ++ tail) with (String b (base ++ tail)).
  cbn [before_dash]. rewrite (proj2 (Ascii.eqb_neq _ _) Hdash), (IH Hrest). reflexivity.
Qed.

Ltac after_plain :=
  repeat first
    [ rewrite contains_after_plain by (auto; fail)
    | rewrite endswith_after_plain by (auto; fail)
    | rewrite replace_after_plain by (auto; fail)
    | rewrite before_dash_plain by (auto; fail) ].

(** What [_convert_symbol_to_yfinance] does after a base without dot or
    dash, by what follows the base. *)
Lemma convert_after_plain (base tail : string) (asset_type : option string) :
  plain base = true ->
  _convert_symbol_to_yfinance (base ++ tail) asset_type
  = if existsb (fun suffix => contains suffix tail) [".NS"; ".BO"; "-USD"]
    then base ++ tail
    else if is_crypto asset_type || contains ".CC" tail then
      if contains ".CC" tail then
        if negb (endswith (base ++ replace ".CC" "" tail) "-USD")
        then before_dash (base ++ replace ".CC" "" tail) ++ "-USD"
        else base ++ replace ".CC" "" tail
      else if negb (endswith tail "-USD")
           then base ++ before_dash tail ++ "-USD"
           else base ++ tail
    else if contains ".NSE" tail then base ++ replace ".NSE" ".NS" tail
    else if endswith tail ".BSE" then base ++ replace ".BSE" ".BO" tail
    else if endswith tail ".US" then base ++ replace ".US" "" tail
    else base ++ tail.
Proof.
  intros Hplain. unfold _convert_symbol_to_yfinance. cbn [existsb].
  after_plain.
  destruct (contains ".NS" tail || (contains ".BO" tail || (contains "-USD" tail || false)));
    [reflexivity|].
  destruct (is_crypto asset_type || contains ".CC" tail); [|reflexivity].
  destruct (contains ".CC" tail); cbv zeta; after_plain; [reflexivity|].
  destruct (endswith tail "-USD"); cbn [negb]; [reflexivity|].
  apply string_app_assoc.
Qed.

(** X7: for a base without dot or dash and an asset type other than
    crypto: the bare symbol is kept, the suffix ".US" is dropped, ".BSE"
    becomes ".BO" and ".CC" becomes "-USD"; with the crypto asset type the
    bare symbol gets "-USD"; a symbol already in Yahoo form (".NS", ".BO",
    "-USD") is kept whatever the asset type. *)
Theorem ticker_formats (base : string) (asset_type any_type : option string) :
  plain base = true ->
  is_crypto asset_type = false ->
  _convert_symbol_to_yfinance base asset_type = base /\
  _convert_symbol_to_yfinance (base ++ ".US") asset_type = base /\
  _convert_symbol_to_yfinance (base ++ ".BSE") asset_type = base ++ ".BO" /\
  _convert_symbol_to_yfinance (base ++ ".CC") any_type = base ++ "-USD" /\
  _convert_symbol_to_yfinance base (Some "crypto") = base ++ "-USD" /\
  _convert_symbol_to_yfinance (base ++ ".NS") any_type = base ++ ".NS" /\
  _convert_symbol_to_yfinance (base ++ ".BO") any_type = base ++ ".BO" /\
  _convert_symbol_to_yfinance (base ++ "-USD") any_type = base ++ "-USD".
Proof.
  intros Hplain Hother.
  pose proof (convert_after_plain base "" asset_type Hplain) as Hbare.
  pose proof (convert_after_plain base "" (Some "crypto") Hplain) as Hcrypto.
  rewrite string_app_nil_r in Hbare, Hcrypto. rewrite Hother in Hbare.
  split; [exact Hbare|].
  split; [rewrite convert_after_plain, Hother by assumption; apply string_app_nil_r|].
  split; [rewrite convert_after_plain, Hother by assumption; reflexivity|].
  split.
  { rewrite convert_after_plain by assumption. cbn [existsb].
    change (contains ".NS" ".CC") with false. change (contains ".BO" ".CC") with false.
    change (contains "-USD" ".CC") with false. change (contains ".CC" ".CC") with true.
    rewrite orb_true_r. change (replace ".CC" "" ".CC") with "".
    cbn [orb]. rewrite string_app_nil_r.
    rewrite <- (string_app_nil_r base) at 1.
    rewrite endswith_after_plain by auto.
    rewrite <- (string_app_nil_r base) at 1.
    rewrite before_dash_plain by assumption. cbn [negb endswith String.eqb before_dash].
    rewrite string_app_nil_r. reflexivity. }
  split; [rewrite Hcrypto; reflexivity|].
  repeat split; rewrite convert_after_plain by assumption; reflexivity.
Qed.

Lemma ticker_formats_witness :
  _convert_symbol_to_yfinance "AAPL" (Some "stock") = "AAPL" /\
  _convert_symbol_to_yfinance ("AAPL" ++ ".US") (Some "stock") = "AAPL" /\
  _convert_symbol_to_yfinance ("AAPL" ++ ".BSE") (Some "stock") = "AAPL" ++ ".BO" /\
  _convert_symbol_to_yfinance ("AAPL" ++ ".CC") None = "AAPL" ++ "-USD" /\
  _convert_symbol_to_yfinance "AAPL" (Some "crypto") = "AAPL" ++ "-USD" /\
  _convert_symbol_to_yfinance ("AAPL" ++ ".NS") None = "AAPL" ++ ".NS" /\
  _convert_symbol_to_yfinance ("AAPL" ++ ".BO") None = "AAPL" ++ ".BO" /\
  _convert_symbol_to_yfinance ("AAPL" ++ "-USD") None = "AAPL" ++ "-USD".
Proof. exact (ticker_formats "AAPL" (Some "stock") None eq_refl eq_refl). Defined.

(** ** Ingestion against any service: how far the counters can move *)

Lemma counters_grow_refl (st : Stats) : counters_grow 0 0 st st.
Proof. unfold counters_grow. lia. Qed.

Lemma counters_grow_trans (lo1 hi1 lo2 hi2 : Z) (st1 st2 st3 : Stats) :
  counters_grow lo1 hi1 st1 st2 -> counters_grow lo2 hi2 st2 st3 ->
  counters_grow (lo1 + lo2) (hi1 + hi2) st1 st3.
Proof. unfold counters_grow. intros (? & ? & ? & ? & ?) (? & ? & ? & ? & ?). lia. Qed.

Lemma counters_grow_weaken (lo hi lo' hi' : Z) (st st' : Stats) :
  lo' <= lo -> hi <= hi' -> counters_grow lo hi st st' -> counters_grow lo' hi' st st'.
Proof. unfold counters_grow. intros ? ? (? & ? & ? & ? & ?). lia. Qed.

Section AnyService.
Context {S : Type}.
Variable run_multi_fetch_store : FetchRequest -> S -> outcome pyval * S.

(** One symbol: counted once when the body returns, at most once when it
    raises; the service object is not touched. *)
Lemma tally_symbol_any (summary : pyval) (sym : string) (o : @Orchestrator S) :
  pipeline_service (snd (tally_symbol summary sym o)) = pipeline_service o /\
  match fst (tally_symbol summary sym o) with
  | Returns _ => counters_grow 1 1 (stats o) (stats (snd (tally_symbol summary sym o)))
  | Raises _ => counters_grow 0 1 (stats o) (stats (snd (tally_symbol summary sym o)))
  end.
Proof.
  unfold tally_symbol, modify_stats. run_monad.
  destruct (py_getitem summary "results") as [results|e]; simpl;
    [|split; [reflexivity|unfold counters_grow; lia]].
  destruct (py_get results sym (PyDict [])) as [res|e]; simpl;
    [|split; [reflexivity|unfold counters_grow; lia]].
  destruct (py_get res "status" PyNone) as [status|e]; simpl;
    [|split; [reflexivity|unfold counters_grow; lia]].
  destruct (py_get res "records_stored" (PyInt 0)) as [records|e]; simpl;
    [|split; [reflexivity|unfold counters_grow; lia]].
  destruct (py_eq_str status "success"); simpl.
  - destruct (py_int_add _ records) as [total|e]; simpl;
      (split; [reflexivity|unfold counters_grow, tallied; simpl; lia]).
  - destruct (py_eq_str status "skipped"); simpl;
      (split; [reflexivity|unfold counters_grow, tallied; simpl; lia]).
Qed.

Lemma tally_loop_any (summary : pyval) (symbols : list string) (o : @Orchestrator S) :
  let run := for_each symbols (tally_symbol summary) o in
  pipeline_service (snd run) = pipeline_service o /\
  match fst run with
  | Returns _ =>
      counters_grow (Z.of_nat (length symbols)) (Z.of_nat (length symbols))
        (stats o) (stats (snd run))
  | Raises _ => counters_grow 0 (Z.of_nat (length symbols)) (stats o) (stats (snd run))
  end.
Proof.
  revert o. induction symbols as [|sym symbols IH]; intros o; cbv zeta.
  - simpl. split; [reflexivity|apply counters_grow_refl].
  - cbn [for_each]. unfold bind.
    pose proof (tally_symbol_any summary sym o) as [Hsvc Hone].
    destruct (tally_symbol summary sym o) as [[[]|e] o1]; simpl in *.
    + specialize (IH o1). cbv zeta in IH. destruct IH as [Hsvc' Hrest].
      split; [congruence|].
      destruct (for_each symbols (tally_symbol summary) o1) as [[[]|e] o2]; simpl in *.
      * eapply counters_grow_weaken; [| |exact (counters_grow_trans _ _ _ _ _ _ _ Hone Hrest)];
          lia.
      * eapply counters_grow_weaken; [| |exact (counters_grow_trans _ _ _ _ _ _ _ Hone Hrest)];
          lia.
    + split; [exact Hsvc|]. eapply counters_grow_weaken; [| |exact Hone]; lia.
Qed.

(** One group: every symbol is counted at least once and at most twice,
    and the service object is the one the call left. *)
Lemma process_group_any (start_date end_date : Z) (group : list Asset) (o : @Orchestrator S) :
  exists o',
    process_group run_multi_fetch_store start_date end_date group o = (Returns tt, o') /\
    pipeline_service o'
    = snd (run_multi_fetch_store
             (fetch_request start_date end_date (map ticker_or_symbol group))
             (pipeline_service o)) /\
    counters_grow (Z.of_nat (length group)) (2 * Z.of_nat (length group))
      (stats o) (stats o').
Proof.
  unfold process_group, try_except, bind, call_service, modify_stats, modify.
  destruct (run_multi_fetch_store _ _) as [[summary|e] svc]; simpl.
  - pose proof (tally_loop_any summary (map ticker_or_symbol group)
                  (mkOrchestrator (stats o) svc)) as Hloop.
    cbv zeta in Hloop. destruct Hloop as [Hsvc Hcount]. rewrite length_map in Hcount.
    destruct (for_each _ _ _) as [[[]|e] o1]; simpl in *.
    + exists o1. split; [reflexivity|]. split; [exact Hsvc|].
      eapply counters_grow_weaken; [| |exact Hcount]; lia.
    + eexists. split; [reflexivity|]. simpl. split; [exact Hsvc|].
      rewrite length_map. unfold counters_grow, tallied in *. simpl. lia.
  - eexists. split; [reflexivity|]. simpl. split; [reflexivity|].
    rewrite length_map. unfold counters_grow, tallied. simpl. lia.
Qed.

Lemma run_groups_any (start_date end_date : Z) (groups : list (list Asset))
    (o : @Orchestrator S) :
  exists o',
    for_each groups (process_group run_multi_fetch_store start_date end_date) o
    = (Returns tt, o') /\
    counters_grow (Z.of_nat (length (concat groups))) (2 * Z.of_nat (length (concat groups)))
      (stats o) (stats o').
Proof.
  revert o. induction groups as [|g groups IH]; intros o.
  - exists o. split; [reflexivity|]. apply counters_grow_refl.
  - destruct (process_group_any start_date end_date g o) as (o1 & Hrun & _ & Hg).
    destruct (IH o1) as (o2 & Hrun2 & Hrest).
    exists o2. cbn [for_each]. unfold bind. rewrite Hrun. split; [exact Hrun2|].
    cbn [concat]. rewrite length_app.
    eapply counters_grow_weaken; [| |exact (counters_grow_trans _ _ _ _ _ _ _ Hg Hrest)]; lia.
Qed.

(** X8: whatever the service does, a run returns [self.stats] with
    [total_assets = len(assets)]; none of [successful], [failed] and
    [skipped] goes down; and every asset is counted at least once and at
    most twice among them.  On a new orchestrator:
    [len(assets) <= successful + failed + skipped <= 2 * len(assets)].
    Nothing is said of [total_records], which line 118 moves by whatever
    [records_stored] holds. *)
Theorem every_asset_counted_once_or_twice (now : Z) (assets : list Asset)
    (o : @Orchestrator S) :
  exists st o',
    ingest_daily_data run_multi_fetch_store now assets o = (Returns st, o') /\
    st = stats o' /\
    total_assets st = Z.of_nat (length assets) /\
    successful (stats o) <= successful st /\
    failed (stats o) <= failed st /\
    skipped (stats o) <= skipped st /\
    tallied (stats o) + Z.of_nat (length assets) <= tallied st
      <= tallied (stats o) + 2 * Z.of_nat (length assets).
Proof.
  rewrite ingest_daily_data_groups.
  unfold bind at 1. unfold modify_stats at 1, modify at 1.
  destruct (run_groups_any (now - LOOKBACK_DAYS * DAY) now (groups_of assets)
              (mkOrchestrator (set_total_assets (Z.of_nat (length assets)) (stats o))
                 (pipeline_service o))) as (o' & Hrun & Hcount).
  exists (stats o'), o'. unfold bind, gets. rewrite Hrun.
  rewrite concat_groups_of in Hcount.
  unfold counters_grow, tallied in *. simpl in *. repeat split; lia.
Qed.
End AnyService.

(** [total_records] is not among the counters that only grow: a summary
    with a negative [records_stored] brings it down. *)
Example total_records_can_go_down :
  let service := fun (req : FetchRequest) (svc : unit) =>
    (Returns (PyDict [("results",
                       PyDict [("AAPL", PyDict [("status", PyStr "success");
                                                ("records_stored", PyInt (-3))])])]),
     svc) in
  fst (ingest_daily_data service 0 [AAPL] (mkOrchestrator (mkStats 0 0 0 0 10) tt))
  = Returns (mkStats 1 1 0 0 7).
Proof. reflexivity. Qed.

(** ** The fetch groups of a run *)

Lemma range_count_succ (len n : nat) :
  (0 < n)%nat -> (0 < len)%nat ->
  ((len + n - 1) / n = S ((len - n + n - 1) / n))%nat.
Proof.
  intros Hn Hlen. destruct (le_lt_dec n len) as [Hge|Hlt].
  - replace (len + n - 1)%nat with ((len - n + n - 1) + 1 * n)%nat by lia.
    rewrite Nat.div_add by lia. lia.
  - replace (len - n + n - 1)%nat with (n - 1)%nat by lia.
    rewrite (Nat.div_small (n - 1)) by lia.
    symmetry. apply (Nat.div_unique _ _ 1%nat (len - 1)%nat); lia.
Qed.

Lemma py_range0_cons (len n : nat) :
  (0 < n)%nat -> (0 < len)%nat ->
  py_range0 len n = 0%nat :: map (fun j => (j + n)%nat) (py_range0 (len - n) n).
Proof.
  intros Hn Hlen. unfold py_range0. rewrite (range_count_succ len n Hn Hlen).
  cbn [seq map]. f_equal. rewrite <- seq_shift, !map_map.
  apply map_ext. intros k. lia.
Qed.

Lemma chunks_nil {A} (n : nat) : (0 < n)%nat -> chunks n (@nil A) = [].
Proof.
  intros Hn. unfold chunks, py_range0. simpl.
  rewrite Nat.div_small by lia. reflexivity.
Qed.

Lemma chunks_cons {A} (n : nat) (l : list A) :
  (0 < n)%nat -> l <> [] -> chunks n l = take n l :: chunks n (drop n l).
Proof.
  intros Hn Hl. unfold chunks.
  assert (Hlen : (0 < length l)%nat) by (destruct l; [contradiction|simpl; lia]).
  rewrite (py_range0_cons _ _ Hn Hlen). cbn [map]. f_equal.
  - unfold slice. rewrite Nat.add_0_l, Nat.sub_0_r. reflexivity.
  - rewrite map_map, length_drop. apply map_ext. intros j. unfold slice.
    rewrite drop_drop. f_equal; [lia|]. f_equal. lia.
Qed.

Lemma chunks_short {A} (n : nat) (l : list A) :
  (0 < n)%nat -> l <> [] -> (length l <= n)%nat -> chunks n l = [l].
Proof.
  intros Hn Hl Hlen. rewrite chunks_cons by assumption.
  rewrite take_ge, drop_ge by lia. rewrite chunks_nil by assumption. reflexivity.
Qed.

Lemma chunks_split {A} (n : nat) (l : list A) :
  (0 < n)%nat ->
  chunks n l = (chunks n (take (n + n) l) ++ chunks n (drop (n + n) l))%list.
Proof.
  intros Hn. destruct (le_lt_dec (length l) (n + n)) as [Hshort|Hlong].
  - rewrite take_ge, drop_ge by lia. rewrite chunks_nil by assumption.
    symmetry. apply app_nil_r.
  - assert (Hl : l <> []) by (intros ->; simpl in Hlong; lia).
    assert (Hd : drop n l <> []).
    { intros Hnil. apply (f_equal length) in Hnil. rewrite length_drop in Hnil.
      simpl in Hnil. lia. }
    assert (Ht : take (n + n) l <> []).
    { intros Hnil. apply (f_equal length) in Hnil. rewrite length_take in Hnil.
      simpl in Hnil. lia. }
    rewrite (chunks_cons n l), (chunks_cons n (drop n l)) by assumption.
    rewrite (chunks_cons n (take (n + n) l)) by assumption.
    rewrite take_take, Nat.min_l by lia.
    rewrite <- take_drop_commute, drop_drop.
    rewrite (chunks_short n (take n (drop n l))); [reflexivity|assumption| |].
    + intros Hnil. apply (f_equal length) in Hnil.
      rewrite length_take, length_drop in Hnil. simpl in Hnil. lia.
    + rewrite length_take. lia.
Qed.

(** Cutting into slices of [n + n] and each of these into slices of [n]
    gives the slices of [n]. *)
Lemma chunks_refine {A} (n : nat) (l : list A) :
  (0 < n)%nat -> concat (map (chunks n) (chunks (n + n) l)) = chunks n l.
Proof.
  intros Hn. remember (length l) as len eqn:Hlen. revert l Hlen.
  induction len as [len IH] using lt_wf_ind. intros l Hlen.
  destruct l as [|x l].
  - rewrite (chunks_nil (n + n)) by lia. rewrite chunks_nil by assumption. reflexivity.
  - rewrite (chunks_cons (n + n) (x :: l)) by (lia || discriminate).
    cbn [map concat].
    rewrite (IH (length (drop (n + n) (x :: l)))); [| |reflexivity].
    + symmetry. apply chunks_split. assumption.
    + rewrite length_drop. subst len. simpl. lia.
Qed.

Lemma length_chunks {A} (n : nat) (l : list A) :
  length (chunks n l) = ((length l + n - 1) / n)%nat.
Proof. unfold chunks, py_range0. rewrite !length_map, length_seq. reflexivity. Qed.

Lemma chunks_sizes {A} (n : nat) (l : list A) :
  (0 < n)%nat -> Forall (fun g => (1 <= length g <= n)%nat) (chunks n l).
Proof.
  intros Hn. unfold chunks, py_range0. rewrite map_map. apply Forall_map, Forall_forall.
  intros k Hk. apply elem_of_seq in Hk as [_ Hk]. simpl in Hk.
  unfold slice. rewrite length_take, length_drop.
  pose proof (Nat.Div0.mul_div_le (length l + n - 1) n) as Hle.
  nia.
Qed.

Lemma groups_of_chunks (assets : list Asset) : groups_of assets = chunks GROUP_SIZE assets.
Proof.
  unfold groups_of. cbv zeta.
  change (concat (map (fun i => chunks GROUP_SIZE (slice assets i (i + BATCH_SIZE)))
                      (py_range0 (length assets) BATCH_SIZE))
          = chunks GROUP_SIZE assets).
  rewrite <- (map_map (fun i => slice assets i (i + BATCH_SIZE)) (chunks GROUP_SIZE)).
  apply (chunks_refine GROUP_SIZE assets). unfold GROUP_SIZE. lia.
Qed.

(** X9: the batches are transparent: the fetch groups of a run are the
    slices of five of the whole asset list, so a run over n assets has
    ceil(n / 5) groups, each of one to five assets. *)
Theorem groups_are_slices_of_five (assets : list Asset) :
  groups_of assets
  = map (fun j => slice assets j (j + GROUP_SIZE)) (py_range0 (length assets) GROUP_SIZE) /\
  length (groups_of assets) = ((length assets + 4) / 5)%nat /\
  Forall (fun g => (1 <= length g <= 5)%nat) (groups_of assets).
Proof.
  rewrite groups_of_chunks. split; [reflexivity|]. split.
  - rewrite length_chunks. unfold GROUP_SIZE. f_equal. lia.
  - apply (chunks_sizes GROUP_SIZE assets). unfold GROUP_SIZE. lia.
Qed.

Lemma run_groups_requests (answer : FetchRequest -> outcome pyval)
    (start_date end_date : Z) (groups : list (list Asset))
    (o : @Orchestrator (list FetchRequest)) :
  exists o',
    for_each groups (process_group (recording answer) start_date end_date) o
    = (Returns tt, o') /\
    pipeline_service o'
    = (pipeline_service o
       ++ map (fun g => fetch_request start_date end_date (map ticker_or_symbol g)) groups)%list.
Proof.
  revert o. induction groups as [|g groups IH]; intros o.
  - exists o. split; [reflexivity|]. symmetry. apply app_nil_r.
  - destruct (process_group_any (recording answer) start_date end_date g o)
      as (o1 & Hrun & Hsvc & _).
    destruct (IH o1) as (o2 & Hrun2 & Hlog).
    exists o2. cbn [for_each]. unfold bind. rewrite Hrun. split; [exact Hrun2|].
    rewrite Hlog, Hsvc. unfold recording. cbn [snd map].
    rewrite <- app_assoc. reflexivity.
Qed.

(** X10: whatever the service answers, the calls a run makes are, in
    order, one per slice of five assets: each asks for the tickers of its
    slice (the yfinance ticker, else the symbol) over the five days up to
    now, daily, with group size 5 and validation on.  Every asset is asked
    for exactly once, in listing order, in ceil(n / 5) calls. *)
Theorem requests_of_a_run (answer : FetchRequest -> outcome pyval) (now : Z)
    (assets : list Asset) (st : Stats) (log : list FetchRequest) :
  exists st',
    let requests :=
      map (fun g => mkFetchRequest (map ticker_or_symbol g) (now - 5 * DAY) now
                      "daily" 5 true)
          (chunks 5 assets) in
    ingest_daily_data (recording answer) now assets (mkOrchestrator st log)
    = (Returns st', mkOrchestrator st' (log ++ requests)%list) /\
    concat (map req_symbols requests) = map ticker_or_symbol assets /\
    length requests = ((length assets + 4) / 5)%nat.
Proof.
  rewrite ingest_daily_data_groups.
  unfold bind at 1. unfold modify_stats at 1, modify at 1.
  destruct (run_groups_requests answer (now - LOOKBACK_DAYS * DAY) now (groups_of assets)
              (mkOrchestrator (set_total_assets (Z.of_nat (length assets)) st) log))
    as (o' & Hrun & Hlog).
  exists (stats o'). cbv zeta. unfold bind, gets. cbn [stats pipeline_service].
  rewrite Hrun.
  rewrite groups_of_chunks in Hlog. cbn [pipeline_service] in Hlog.
  split; [|split].
  - destruct o' as [st' log']. cbn [pipeline_service stats] in *. rewrite Hlog. reflexivity.
  - rewrite map_map. cbn [req_symbols].
    rewrite <- (map_map (map ticker_or_symbol) (fun x => x)), map_id.
    rewrite <- concat_map. f_equal.
    rewrite <- groups_of_chunks. apply concat_groups_of.
  - rewrite length_map, length_chunks. f_equal. lia.
Qed.

(** ** C4: a group whose call raises is failed as a whole, and the run goes on *)

(** C4: take any run of [ingest_daily_data] and any of its fetch groups
    whose call raises.  The groups before it have been processed; the
    group itself is handled without raising: [failed] grows by exactly
    its size (one to five symbols) and nothing else in the stats
    changes; the run then processes every group after it, from that
    state, and returns the stats it ends with, in which [failed] is at
    least its value at the start plus the size of the group.  No run of
    [ingest_daily_data] raises, whatever the service does. *)
Theorem group_failure_is_isolated {S : Type}
    (run_multi_fetch_store : FetchRequest -> S -> outcome pyval * S)
    (now : Z) (assets : list Asset) (o : @Orchestrator S)
    (before : list (list Asset)) (group : list Asset) (after : list (list Asset))
    (e : exn) (svc : S) :
  let start_date := now - LOOKBACK_DAYS * DAY in
  let run_groups := fun groups : list (list Asset) =>
    for_each groups (process_group run_multi_fetch_store start_date now) in
  let o1 := snd (run_groups before
                   (mkOrchestrator (set_total_assets (Z.of_nat (length assets)) (stats o))
                      (pipeline_service o))) in
  groups_of assets = (before ++ group :: after)%list ->
  run_multi_fetch_store
    (fetch_request start_date now (map ticker_or_symbol group))
    (pipeline_service o1) = (Raises e, svc) ->
  let o' := mkOrchestrator (add_failed (Z.of_nat (length group)) (stats o1)) svc in
  run_groups before
    (mkOrchestrator (set_total_assets (Z.of_nat (length assets)) (stats o))
       (pipeline_service o)) = (Returns tt, o1) /\
  process_group run_multi_fetch_store start_date now group o1 = (Returns tt, o') /\
  (1 <= length group <= 5)%nat /\
  (exists o2,
     run_groups after o' = (Returns tt, o2) /\
     ingest_daily_data run_multi_fetch_store now assets o = (Returns (stats o2), o2) /\
     failed (stats o) + Z.of_nat (length group) <= failed (stats o2)) /\
  (forall now assets o0, exists st o3,
     ingest_daily_data run_multi_fetch_store now assets o0 = (Returns st, o3)).
Proof.
  intros start_date run_groups o1 Hsplit Hcall o'.
  subst run_groups start_date. cbv beta in *.
  pose proof (process_group_raises run_multi_fetch_store _ _ _ _ _ _ Hcall) as Hgroup.
  fold o' in Hgroup.
  destruct (run_groups_any run_multi_fetch_store (now - LOOKBACK_DAYS * DAY) now before
              (mkOrchestrator (set_total_assets (Z.of_nat (length assets)) (stats o))
                 (pipeline_service o))) as (o1' & Hbefore & Hgrow1).
  assert (Ho1 : o1 = o1') by (unfold o1; rewrite Hbefore; reflexivity).
  rewrite <- Ho1 in Hbefore, Hgrow1. clear o1' Ho1.
  destruct (run_groups_any run_multi_fetch_store (now - LOOKBACK_DAYS * DAY) now after o')
    as (o2 & Hafter & Hgrow2).
  split; [exact Hbefore|]. split; [exact Hgroup|]. split.
  { pose proof (chunks_sizes GROUP_SIZE assets ltac:(unfold GROUP_SIZE; lia)) as Hsizes.
    rewrite <- groups_of_chunks, Hsplit in Hsizes.
    apply Forall_app in Hsizes as [_ Hsizes]. apply Forall_cons in Hsizes as [Hsize _].
    unfold GROUP_SIZE in Hsize. exact Hsize. }
  split.
  { exists o2. split; [exact Hafter|]. split.
    - rewrite ingest_daily_data_groups, Hsplit.
      unfold bind at 1. unfold modify_stats at 1, modify at 1.
      unfold bind at 1. rewrite for_each_app. unfold bind at 1.
      rewrite Hbefore. cbn [for_each]. unfold bind at 1. rewrite Hgroup.
      rewrite Hafter. reflexivity.
    - destruct Hgrow1 as (_ & _ & Hf1 & _). destruct Hgrow2 as (_ & _ & Hf2 & _).
      unfold o' in Hf2. simpl in Hf1, Hf2. lia. }
  intros now0 assets0 o0. rewrite ingest_daily_data_groups.
  unfold bind at 1. unfold modify_stats at 1, modify at 1.
  destruct (run_groups_returns run_multi_fetch_store (now0 - LOOKBACK_DAYS * DAY) now0
              (groups_of assets0)
              (mkOrchestrator (set_total_assets (Z.of_nat (length assets0)) (stats o0))
                 (pipeline_service o0))) as [o3 Hrun].
  exists (stats o3), o3. unfold bind, gets. rewrite Hrun. reflexivity.
Qed.

Lemma group_failure_is_isolated_witness :
  let assets := [AAPL; MSFT; AAPL; MSFT; AAPL;
                 RELIANCE; AAPL; MSFT; AAPL; MSFT;
                 AAPL] in
  let before := [[AAPL; MSFT; AAPL; MSFT; AAPL]] in
  let group := [RELIANCE; AAPL; MSFT; AAPL; MSFT] in
  let after := [[AAPL]] in
  let run_groups := fun groups : list (list Asset) =>
    for_each groups (process_group sample_service (10 - LOOKBACK_DAYS * DAY) 10) in
  let o1 := mkOrchestrator (mkStats 11 3 0 2 15) tt in
  let o' := mkOrchestrator (mkStats 11 3 5 2 15) tt in
  run_groups before (mkOrchestrator (mkStats 11 0 0 0 0) tt) = (Returns tt, o1) /\
  process_group sample_service (10 - LOOKBACK_DAYS * DAY) 10 group o1 = (Returns tt, o') /\
  (1 <= length group <= 5)%nat /\
  (exists o2,
     run_groups after o' = (Returns tt, o2) /\
     ingest_daily_data sample_service 10 assets (mkOrchestrator init_stats tt)
     = (Returns (stats o2), o2) /\
     failed init_stats + Z.of_nat (length group) <= failed (stats o2)) /\
  (forall now assets o0, exists st o3,
     ingest_daily_data sample_service now assets o0 = (Returns st, o3)).
Proof.
  exact (group_failure_is_isolated sample_service 10
           [AAPL; MSFT; AAPL; MSFT; AAPL; RELIANCE; AAPL; MSFT; AAPL; MSFT; AAPL]
           (mkOrchestrator init_stats tt)
           [[AAPL; MSFT; AAPL; MSFT; AAPL]] [RELIANCE; AAPL; MSFT; AAPL; MSFT] [[AAPL]]
           (Exception "TimeoutError" "provider timed out") tt eq_refl eq_refl).
Defined.

(** ** The quality gate in terms of the store *)

Lemma tolerated_exact (n : Z) : tolerated (n * MIN_DATA_POINTS_REQUIRED) = 4 * n.
Proof.
  unfold tolerated, MIN_DATA_POINTS_REQUIRED.
  replace (n * 5 * 8) with (4 * n * 10) by lia. apply Z.quot_mul. lia.
Qed.

Lemma py_or_zero (n : Z) : py_or (Some n) 0 = n.
Proof. unfold py_or. destruct (n =? 0) eqn:H; [apply Z.eqb_eq in H; lia|reflexivity]. Qed.

Lemma recent_count_served (now : Z) (store : Storage) :
  py_or (count (select_price_history (recent_records_query now) store)) 0
  = recent_records_count now store.
Proof.
  rewrite recent_count_by_timestamps, py_or_zero. unfold recent_records_count.
  do 2 f_equal. symmetry. apply filter_by_timestamps. reflexivity.
Qed.

Lemma active_count_served (store : Storage) :
  py_or (count (select_active_assets store)) 0 = active_assets_count store.
Proof. unfold select_active_assets. cbn [count]. apply py_or_zero. Qed.

Lemma completeness_verdict_served (supabase : Backend) (now : Z) :
  outage supabase CompletenessRecords = None ->
  outage supabase CompletenessAssets = None ->
  completeness_verdict supabase now
  = (4 * Z.min (active_assets_count (db supabase)) MIN_ASSETS_REQUIRED
     <=? recent_records_count now (db supabase)).
Proof.
  intros H1 H2. unfold completeness_verdict, execute. rewrite H1, H2.
  rewrite recent_count_served, active_count_served, tolerated_exact. reflexivity.
Qed.

Lemma coverage_verdict_served (supabase : Backend) :
  outage supabase CoverageAssets = None ->
  coverage_verdict supabase = (MIN_ASSETS_REQUIRED <=? active_assets_count (db supabase)).
Proof.
  intros H. unfold coverage_verdict, execute. rewrite H, active_count_served. reflexivity.
Qed.

Lemma freshness_verdict_served (supabase : Backend) (now : Z) :
  outage supabase FreshnessLatest = None ->
  (freshness_verdict supabase now = true <->
   exists latest, most_recent (price_history (db supabase)) latest /\
                  now - latest <= 48 * HOUR).
Proof.
  intros Hserved. unfold freshness_verdict.
  pose proof (queried_latest_timestamp_served supabase Hserved) as Hlatest.
  destruct (queried_latest_timestamp supabase) as [[latest|]|e]; [| |contradiction].
  - rewrite age_within_limit. split.
    + intros Hage. exists latest. auto.
    + intros (latest' & Hmost & Hage).
      rewrite (most_recent_unique _ _ _ Hlatest Hmost). exact Hage.
  - split; [discriminate|].
    intros (latest & [(r & Hin & _) _] & _). rewrite Hlatest in Hin. inversion Hin.
Qed.

(** X11: when its two queries are served, the completeness check passes
    exactly when the rows of the last seven days number at least four per
    active asset, for at most 50 assets (the integer reading of
    [int(min(active, 50) * 5 * 0.8)]).  With no active asset it passes on
    an empty table. *)
Theorem completeness_threshold (supabase : Backend) (now : Z) (v : ValidationResults) :
  outage supabase CompletenessRecords = None ->
  outage supabase CompletenessAssets = None ->
  exists v' c,
    _check_data_completeness supabase now v = (Returns tt, v') /\
    checks v' !! "completeness" = Some c /\
    (check_passed c = true <->
     4 * Z.min (active_assets_count (db supabase)) 50
     <= recent_records_count now (db supabase)) /\
    (active_assets_count (db supabase) = 0 -> check_passed c = true).
Proof.
  intros H1 H2.
  destruct (check_data_completeness_effect supabase now v) as (c & e & Hrun & Hc).
  exists (recorded "completeness" c e [] v), c.
  split; [exact Hrun|]. split; [apply lookup_insert_eq|].
  rewrite Hc, (completeness_verdict_served _ _ H1 H2). unfold MIN_ASSETS_REQUIRED.
  split; [apply Z.leb_le|].
  intros Hzero. apply Z.leb_le. rewrite Hzero. unfold recent_records_count. lia.
Qed.

Lemma completeness_threshold_witness :
  let supabase := mkBackend (mkStorage [] []) (fun _ => None) in
  exists v' c,
    _check_data_completeness supabase 0 init_validation_results = (Returns tt, v') /\
    checks v' !! "completeness" = Some c /\
    (check_passed c = true <->
     4 * Z.min (active_assets_count (db supabase)) 50
     <= recent_records_count 0 (db supabase)) /\
    (active_assets_count (db supabase) = 0 -> check_passed c = true).
Proof.
  exact (completeness_threshold (mkBackend (mkStorage [] []) (fun _ => None)) 0
           init_validation_results eq_refl eq_refl).
Defined.

(** X12: when the four queries of the critical checks are served, the
    report passes exactly when the store holds at least 50 active assets,
    at least 200 rows of the last seven days, and a most recent timestamp
    at most 48 hours old. *)
Theorem gate_opens_iff (format_1f format_pct : Q -> string) (supabase : Backend)
    (clock : Clock) (v : ValidationResults) :
  Forall (fun site => outage supabase site = None) critical_sites ->
  exists v',
    validate_all format_1f format_pct supabase clock v = (Returns v', v') /\
    (passed v' = true <->
     50 <= active_assets_count (db supabase) /\
     200 <= recent_records_count (at_completeness clock) (db supabase) /\
     exists latest, most_recent (price_history (db supabase)) latest /\
                    at_freshness clock - latest <= 48 * HOUR).
Proof.
  intros Hserved.
  apply Forall_cons in Hserved as [H1 Hserved]. apply Forall_cons in Hserved as [H2 Hserved].
  apply Forall_cons in Hserved as [H3 Hserved]. apply Forall_cons in Hserved as [H4 _].
  destruct (validate_all_effect format_1f format_pct supabase clock v)
    as (v' & Hrun & Hc & Hf & Ha & Hp).
  exists v'. split; [exact Hrun|].
  rewrite Hp. cbn [forallb critical_checks]. rewrite Hc, Hf, Ha.
  rewrite (completeness_verdict_served _ _ H1 H2), (coverage_verdict_served _ H4).
  rewrite !andb_true_iff, (freshness_verdict_served _ _ H3), !Z.leb_le.
  unfold MIN_ASSETS_REQUIRED. split.
  - intros (Hrecent & Hfresh & [Hactive _]). repeat split; [lia|lia|exact Hfresh].
  - intros (Hactive & Hrecent & Hfresh). repeat split; [lia|exact Hfresh|lia].
Qed.

Lemma gate_opens_iff_witness :
  let supabase := mkBackend (mkStorage [mkPriceRow 0 None] [mkAssetRow AAPL 1])
                    (fun _ => None) in
  exists v',
    validate_all (fun _ => "") (fun _ => "") supabase (mkClock 0 0 0)
      init_validation_results = (Returns v', v') /\
    (passed v' = true <->
     50 <= active_assets_count (db supabase) /\
     200 <= recent_records_count (at_completeness (mkClock 0 0 0)) (db supabase) /\
     exists latest, most_recent (price_history (db supabase)) latest /\
                    at_freshness (mkClock 0 0 0) - latest <= 48 * HOUR).
Proof.
  apply (gate_opens_iff (fun _ => "") (fun _ => "")
           (mkBackend (mkStorage [mkPriceRow 0 None] [mkAssetRow AAPL 1]) (fun _ => None))
           (mkClock 0 0 0) init_validation_results).
  repeat constructor.
Defined.

(** ** The report: errors, warnings and failed queries *)

Ltac report_passed := do 2 eexists; split; [reflexivity|]; split; [reflexivity|]; left; auto.
Ltac report_failed :=
  do 2 eexists; split; [reflexivity|]; split; [reflexivity|]; right; split; eauto.

Lemma check_data_completeness_report (supabase : Backend) (now : Z) (v : ValidationResults) :
  exists c new_errors,
    _check_data_completeness supabase now v
    = (Returns tt, recorded "completeness" c new_errors [] v) /\
    check_passed c = completeness_verdict supabase now /\
    reported c new_errors.
Proof.
  unfold _check_data_completeness, completeness_verdict, reported.
  destruct (execute supabase CompletenessRecords _) as [response|e]; run_check;
    [|report_failed].
  destruct (execute supabase CompletenessAssets _) as [assets_resp|e]; run_check;
    [|report_failed].
  destruct (tolerated _ <=? _); run_check; [report_passed|report_failed].
Qed.

Lemma check_data_freshness_report (format_1f : Q -> string) (supabase : Backend)
    (now : Z) (v : ValidationResults) :
  exists c new_errors,
    _check_data_freshness format_1f supabase now v
    = (Returns tt, recorded "freshness" c new_errors [] v) /\
    check_passed c = freshness_verdict supabase now /\
    reported c new_errors.
Proof.
  unfold _check_data_freshness, freshness_verdict, queried_latest_timestamp, reported.
  destruct (execute supabase FreshnessLatest _) as [response|e]; run_check;
    [|report_failed].
  destruct (data response) as [|row rest]; run_check; [report_failed|].
  destruct (Qle_bool _ _); run_check; [report_passed|report_failed].
Qed.

Lemma check_asset_coverage_report (supabase : Backend) (v : ValidationResults) :
  exists c new_errors,
    _check_asset_coverage supabase v
    = (Returns tt, recorded "asset_coverage" c new_errors [] v) /\
    check_passed c = coverage_verdict supabase /\
    reported c new_errors.
Proof.
  unfold _check_asset_coverage, coverage_verdict, reported.
  destruct (execute supabase CoverageAssets _) as [assets_response|e]; run_check;
    [|report_failed].
  destruct (MIN_ASSETS_REQUIRED <=? _); run_check; [report_passed|report_failed].
Qed.

Lemma check_data_quality_report (format_pct : Q -> string) (supabase : Backend)
    (now : Z) (v : ValidationResults) :
  exists c new_warnings,
    _check_data_quality format_pct supabase now v
    = (Returns tt, recorded "quality" c [] new_warnings v) /\
    (length new_warnings <= 1)%nat.
Proof.
  destruct (check_data_quality_effect format_pct supabase now v)
    as (c & w & Hrun & _ & Hcase).
  exists c, w. split; [exact Hrun|].
  destruct (queried_null_ratio supabase now) as [ratio|e].
  - destruct Hcase as [_ ->]. destruct (Qle_bool _ _); simpl; lia.
  - destruct Hcase as [_ ->]. simpl. lia.
Qed.

Lemma outage_fails_critical (supabase : Backend) (clock : Clock) (site : CallSite) :
  site ∈ critical_sites ->
  outage supabase site <> None ->
  completeness_verdict supabase (at_completeness clock)
  && (freshness_verdict supabase (at_freshness clock) && (coverage_verdict supabase && true))
  = false.
Proof.
  intros Hsite Hout. unfold critical_sites in Hsite.
  destruct (outage supabase site) as [e|] eqn:He; [clear Hout|contradiction].
  repeat (apply elem_of_cons in Hsite as [->|Hsite]); [| | | |inversion Hsite].
  - unfold completeness_verdict, execute. rewrite He. reflexivity.
  - unfold completeness_verdict, execute. rewrite He.
    destruct (outage supabase CompletenessRecords); reflexivity.
  - unfold freshness_verdict, queried_latest_timestamp, execute. rewrite He.
    apply andb_false_r.
  - unfold coverage_verdict, execute. rewrite He. rewrite andb_false_l, !andb_false_r.
    reflexivity.
Qed.

(** X13: [validate_all] keeps what [errors] and [warnings] held and
    appends to them: at most three errors, one per failed critical check,
    and at most one warning.  The report passes exactly when this call
    appended no error; and it fails as soon as one of the queries of the
    critical checks raises. *)
Theorem report_passes_iff_no_new_error (format_1f format_pct : Q -> string)
    (supabase : Backend) (clock : Clock) (v : ValidationResults) :
  exists v' new_errors new_warnings,
    validate_all format_1f format_pct supabase clock v = (Returns v', v') /\
    errors v' = (errors v ++ new_errors)%list /\
    warnings v' = (warnings v ++ new_warnings)%list /\
    (length new_errors <= 3)%nat /\
    (length new_warnings <= 1)%nat /\
    (passed v' = true <-> new_errors = []) /\
    (forall site, site ∈ critical_sites -> outage supabase site <> None ->
                  passed v' = false).
Proof.
  unfold validate_all.
  destruct (check_data_completeness_report supabase (at_completeness clock) v)
    as (c1 & e1 & H1 & Hc1 & R1).
  destruct (check_data_freshness_report format_1f supabase (at_freshness clock)
              (recorded "completeness" c1 e1 [] v)) as (c2 & e2 & H2 & Hc2 & R2).
  destruct (check_data_quality_report format_pct supabase (at_quality clock)
              (recorded "freshness" c2 e2 []
                 (recorded "completeness" c1 e1 [] v))) as (c3 & w3 & H3 & Hw).
  destruct (check_asset_coverage_report supabase
              (recorded "quality" c3 [] w3
                 (recorded "freshness" c2 e2 []
                    (recorded "completeness" c1 e1 [] v)))) as (c4 & e4 & H4 & Hc4 & R4).
  unfold bind. rewrite H1, H2, H3, H4. unfold set_passed, gets, modify. simpl.
  eexists. exists (e1 ++ e2 ++ e4)%list, w3.
  split; [reflexivity|]. simpl. unfold check_flag.
  repeat (rewrite lookup_insert_eq || rewrite lookup_insert_ne by discriminate).
  split; [rewrite !app_nil_r, <- !app_assoc; reflexivity|].
  split; [rewrite !app_nil_r; reflexivity|].
  assert (Hout : forall site, site ∈ critical_sites -> outage supabase site <> None ->
                              check_passed c1 && (check_passed c2 && (check_passed c4 && true))
                              = false).
  { intros site Hsite Hraises. rewrite Hc1, Hc2, Hc4.
    exact (outage_fails_critical supabase clock site Hsite Hraises). }
  clear Hc1 Hc2 Hc4 H1 H2 H3 H4. unfold reported in *.
  destruct R1 as [[Hp1 ->]|[Hp1 [m1 ->]]]; destruct R2 as [[Hp2 ->]|[Hp2 [m2 ->]]];
    destruct R4 as [[Hp4 ->]|[Hp4 [m4 ->]]]; rewrite Hp1, Hp2, Hp4 in *; simpl;
    (split; [lia|]); (split; [exact Hw|]);
    (split; [split; [reflexivity || discriminate|reflexivity || discriminate]|exact Hout]).
Qed.

(** ** [main] when the assets cannot be fetched *)

(** X14: if the query of [fetch_active_assets] raises, [main] catches the
    exception and returns [False] (exit code 1); neither ingestion nor
    validation has run. *)
Theorem main_fails_when_assets_unavailable (format_1f format_pct : Q -> string)
    (supabase : Backend) (t_ingest : Z) (clock : Clock) (e : exn) :
  outage supabase FetchActiveAssets = Some e ->
  fetch_active_assets supabase = Raises e /\
  main format_1f format_pct supabase t_ingest clock no_locals = (Returns false, no_locals) /\
  exit_code false = 1.
Proof.
  intros Hout.
  assert (Hfetch : fetch_active_assets supabase = Raises e).
  { unfold fetch_active_assets, execute. rewrite Hout. reflexivity. }
  split; [exact Hfetch|]. split; [|reflexivity].
  unfold main, try_except, bind, lift. rewrite Hfetch. reflexivity.
Qed.

Lemma main_fails_when_assets_unavailable_witness :
  let down := Exception "ConnectionError" "connection refused" in
  let supabase :=
    mkBackend (mkStorage [] [mkAssetRow AAPL 1])
      (fun site => match site with FetchActiveAssets => Some down | _ => None end) in
  fetch_active_assets supabase = Raises down /\
  main (fun _ => "") (fun _ => "") supabase 0 (mkClock 0 0 0) no_locals
  = (Returns false, no_locals) /\
  exit_code false = 1.
Proof.
  exact (main_fails_when_assets_unavailable (fun _ => "") (fun _ => "")
           (mkBackend (mkStorage [] [mkAssetRow AAPL 1])
              (fun site => match site with
                           | FetchActiveAssets =>
                               Some (Exception "ConnectionError" "connection refused")
                           | _ => None
                           end))
           0 (mkClock 0 0 0) (Exception "ConnectionError" "connection refused") eq_refl).
Defined.

(** ** [run_pipeline] and [get_status] *)

Ltac ends_with_status :=
  do 2 eexists; split; [reflexivity|]; simpl; repeat split; eauto.

(** X15: whatever the four tiers do, [run_pipeline] returns a dict that
    agrees with the state it leaves.  When the four tiers return [True]:
    "success" with the message "All tiers completed" and status
    COMPLETED.  Otherwise: "failed" with status FAILED, and the error is
    that of the first tier that did not return [True]: "Tier 1 ingestion
    failed", "Tier 2 validation failed", "Tier 3 analytics failed" or
    "Tier 4 caching failed" for the tier that returned [False], the text
    of its exception for a tier that raised.  In both cases the metrics
    of the dict are those of the service, with [end_time] set, and
    [get_status] afterwards reports them with the value of the status
    and [running] false. *)
Theorem run_pipeline_result_matches_status
    (tier1 tier2 tier3 tier4 : M Metrics bool) (t_start t_end : Z) (p : PipelineService) :
  exists r p',
    run_pipeline_with tier1 tier2 tier3 tier4 t_start t_end p = (Returns r, p') /\
    running (get_status p') = false /\
    report_metrics (get_status p') = metrics p' /\
    end_time (metrics p') = Some t_end /\
    match first_failure [(tier1, "Tier 1 ingestion failed");
                         (tier2, "Tier 2 validation failed");
                         (tier3, "Tier 3 analytics failed");
                         (tier4, "Tier 4 caching failed")]
            (snd (set_start_time t_start (metrics p))) with
    | None =>
        r = PipelineSuccess (metrics p') "All tiers completed" /\
        status p' = COMPLETED /\ report_status (get_status p') = "completed"
    | Some error =>
        r = PipelineFailure error (metrics p') /\
        status p' = FAILED /\ report_status (get_status p') = "failed"
    end.
Proof.
  unfold run_pipeline_with, require_tier, set_status, on_metrics. run_monad.
  destruct (tier1 _) as [[[|]|e1] m1]; simpl; [|ends_with_status..].
  destruct (tier2 _) as [[[|]|e2] m2]; simpl; [|ends_with_status..].
  destruct (tier3 _) as [[[|]|e3] m3]; simpl; [|ends_with_status..].
  destruct (tier4 _) as [[[|]|e4] m4]; simpl; ends_with_status.
Qed.

(** ** How many requests a batch makes, and how long it takes *)

Lemma spaced_far (d : Q) (ts : list Q) :
  spaced d ts ->
  forall (k i : nat) (a b : Q),
    ts !! i = Some a -> ts !! (i + k)%nat = Some b ->
    (a + inject_Z (Z.of_nat k) * d <= b)%Q.
Proof.
  intros Hsp. induction k as [|k IH]; intros i a b Ha Hb.
  - rewrite Nat.add_0_r, Ha in Hb. injection Hb as <-.
    change (inject_Z (Z.of_nat 0)) with 0%Q. lra.
  - assert (Hc : is_Some (ts !! (i + k)%nat)).
    { apply lookup_lt_is_Some. apply lookup_lt_Some in Hb. lia. }
    destruct Hc as [c Hc].
    pose proof (IH i a c Ha Hc) as Hac.
    replace (i + S k)%nat with (S (i + k)) in Hb by lia.
    pose proof (Hsp (i + k)%nat c b Hc Hb) as Hcb.
    rewrite Nat2Z.inj_succ. unfold Z.succ. rewrite inject_Z_plus.
    change (inject_Z 1) with 1%Q. lra.
Qed.

Section BatchTiming.
Variable duration : nat -> Q.
Variable cfg : YFinanceConfig.
Hypothesis clock_monotone : forall n, (0 <= duration n)%Q.
Hypothesis respectful : respect_server cfg = true.

Lemma request_records (w : ClientWorld) :
  limiter_invariant cfg w ->
  exists w' t,
    (rate_limit duration ;;; download duration) w = (Returns tt, w') /\
    limiter_invariant cfg w' /\
    request_times w' = (request_times w ++ [t])%list.
Proof.
  intros Hinv.
  destruct (request_sends duration cfg clock_monotone respectful w Hinv)
    as (w1 & w2 & _ & _ & Hrun & Hinv2 & _ & Htimes & _).
  exists w2, (last_request_time w1). auto.
Qed.

Lemma requests_record {A} (groups : list A) (w : ClientWorld) :
  limiter_invariant cfg w ->
  exists w' new,
    for_each groups (fun _ => rate_limit duration ;;; download duration) w
    = (Returns tt, w') /\
    limiter_invariant cfg w' /\
    request_times w' = (request_times w ++ new)%list /\
    length new = length groups.
Proof.
  revert w. induction groups as [|g groups IH]; intros w Hinv.
  - exists w, []. rewrite app_nil_r. auto.
  - destruct (request_records w Hinv) as (w1 & t & Hrun & Hinv1 & Ht).
    destruct (IH w1 Hinv1) as (w2 & new & Hrun2 & Hinv2 & Hnew & Hlen).
    exists w2, (t :: new). cbn [for_each]. unfold bind at 1. rewrite Hrun, Hrun2.
    split; [reflexivity|]. split; [exact Hinv2|]. split.
    + rewrite Hnew, Ht, <- app_assoc. reflexivity.
    + simpl. rewrite Hlen. reflexivity.
Qed.
End BatchTiming.

(** X16: on a client with [respect_server] enabled and a clock that does
    not run backwards, [fetch_batch_multi] over n symbols in groups of
    g > 0 returns after recording exactly ceil(n / g) request instants,
    one per group, and when it returns at least (ceil(n / g) - 1) times
    [delay_between_requests] have passed since the first of them. *)
Theorem batch_requests_and_duration (duration : nat -> Q) (cfg : YFinanceConfig)
    (symbols : list string) (group_size : nat) (w : ClientWorld) :
  (forall n, (0 <= duration n)%Q) ->
  respect_server cfg = true ->
  limiter_invariant cfg w ->
  (0 < group_size)%nat ->
  exists w' new,
    fetch_batch_multi duration symbols group_size w = (Returns tt, w') /\
    request_times w' = (request_times w ++ new)%list /\
    length new = ((length symbols + group_size - 1) / group_size)%nat /\
    forall first,
      head new = Some first ->
      (first + inject_Z (Z.of_nat (length new) - 1) * delay_between_requests cfg
       <= loop_time w')%Q.
Proof.
  intros Hmono Hrespect Hinv Hsize.
  unfold fetch_batch_multi, bind at 1, lift.
  destruct group_size as [|g]; [lia|]. cbn [chunk].
  destruct (requests_record duration cfg Hmono Hrespect
              (map (fun i => slice symbols i (i + S g)) (py_range0 (length symbols) (S g)))
              w Hinv) as (w' & new & Hrun & Hinv' & Hnew & Hlen).
  exists w', new. split; [exact Hrun|]. split; [exact Hnew|]. split.
  - rewrite Hlen. apply (length_chunks (S g) symbols).
  - intros first Hfirst. destruct Hinv' as (_ & Hsp & Hlast).
    destruct new as [|t0 new]; [discriminate|]. injection Hfirst as ->.
    assert (Hsome : is_Some (last (request_times w'))).
    { rewrite last_is_Some, Hnew. destruct (request_times w); discriminate. }
    destruct Hsome as [t Ht]. destruct (Hlast t Ht) as [_ Hle].
    assert (Hfar : (first + inject_Z (Z.of_nat (length new)) * delay_between_requests cfg
                    <= t)%Q).
    { apply (spaced_far _ _ Hsp (length new) (length (request_times w))).
      - rewrite Hnew, lookup_app_r by lia. rewrite Nat.sub_diag. reflexivity.
      - rewrite last_lookup in Ht. rewrite <- Ht. f_equal.
        rewrite Hnew, length_app. simpl. lia. }
    replace (Z.of_nat (length (first :: new)) - 1) with (Z.of_nat (length new))
      by (simpl length; lia).
    lra.
Qed.

Lemma batch_requests_and_duration_witness :
  let duration := fun _ : nat => (1 # 2)%Q in
  let cfg := YFinanceConfig_default in
  let symbols := ["AAPL"; "MSFT"; "SPY"; "QQQ"; "RELIANCE.NS"] in
  let w := YFinanceClient_init cfg 100%Q in
  exists w' new,
    fetch_batch_multi duration symbols 2 w = (Returns tt, w') /\
    request_times w' = (request_times w ++ new)%list /\
    length new = ((length symbols + 2 - 1) / 2)%nat /\
    forall first,
      head new = Some first ->
      (first + inject_Z (Z.of_nat (length new) - 1) * delay_between_requests cfg
       <= loop_time w')%Q.
Proof.
  apply (batch_requests_and_duration (fun _ => (1 # 2)%Q) YFinanceConfig_default
           ["AAPL"; "MSFT"; "SPY"; "QQQ"; "RELIANCE.NS"] 2
           (YFinanceClient_init YFinanceConfig_default 100%Q)).
  - intros n. unfold Qle. simpl. lia.
  - reflexivity.
  - split; [reflexivity|]. split.
    + intros i a b Ha. inversion Ha.
    + intros t Ht. inversion Ht.
  - lia.
Defined.

(** ** The client with [respect_server] disabled *)

Lemma time_taken_app (duration : nat -> Q) (from j k : nat) :
  (time_taken duration from (j + k)
   == time_taken duration from j + time_taken duration (from + j) k)%Q.
Proof.
  unfold time_taken. rewrite seq_app, map_app.
  generalize (map duration (seq (from + j) k)) as rest.
  induction (map duration (seq from j)) as [|x xs IH]; intros rest; simpl.
  - lra.
  - rewrite IH. lra.
Qed.

Lemma only_downloads_trans (duration : nat -> Q) (j k : nat) (w1 w2 w3 : ClientWorld) :
  only_downloads duration j w1 w2 -> only_downloads duration k w2 w3 ->
  only_downloads duration (j + k) w1 w3.
Proof.
  intros (Hc1 & Hr1 & Hl1 & He1 & Ht1) (Hc2 & Hr2 & Hl2 & He2 & Ht2).
  repeat split; try congruence; try lia.
  rewrite Ht2, Ht1, He1, time_taken_app. lra.
Qed.

Lemma request_when_disabled (duration : nat -> Q) (w : ClientWorld) :
  respect_server (config w) = false ->
  exists w', (rate_limit duration ;;; download duration) w = (Returns tt, w') /\
             only_downloads duration 1 w w'.
Proof.
  intros Hoff. unfold rate_limit, download, send_request, pass_time. run_monad.
  rewrite Hoff.
  eexists. split; [reflexivity|]. repeat split; simpl; try lia.
  unfold time_taken. simpl. lra.
Qed.

Lemma requests_when_disabled {A} (duration : nat -> Q) (groups : list A) (w : ClientWorld) :
  respect_server (config w) = false ->
  exists w', for_each groups (fun _ => rate_limit duration ;;; download duration) w
             = (Returns tt, w') /\
             only_downloads duration (length groups) w w'.
Proof.
  revert w. induction groups as [|g groups IH]; intros w Hoff.
  - exists w. split; [reflexivity|]. repeat split; simpl; try lia.
    unfold time_taken. simpl. lra.
  - destruct (request_when_disabled duration w Hoff) as (w1 & Hrun & H1).
    assert (Hoff1 : respect_server (config w1) = false).
    { destruct H1 as (-> & _). exact Hoff. }
    destruct (IH w1 Hoff1) as (w2 & Hrun2 & H2).
    exists w2. cbn [for_each]. unfold bind at 1. rewrite Hrun, Hrun2.
    split; [reflexivity|]. exact (only_downloads_trans duration 1 _ _ _ _ H1 H2).
Qed.

Lemma perform_when_disabled (duration : nat -> Q) (c : ClientCall) (w : ClientWorld) :
  respect_server (config w) = false ->
  exists w', try_except (perform duration c) (fun _ => ret tt) w = (Returns tt, w') /\
             only_downloads duration (downloads c) w w'.
Proof.
  intros Hoff. unfold try_except. destruct c as [|symbols group_size]; simpl.
  - unfold fetch_historical_data.
    destruct (request_when_disabled duration w Hoff) as (w' & -> & H). eauto.
  - unfold fetch_batch_multi, bind at 1, lift. destruct group_size as [|g]; cbn [chunk].
    + exists w. split; [reflexivity|]. repeat split; simpl; try lia.
      unfold time_taken. simpl. lra.
    + destruct (requests_when_disabled duration
                  (map (fun i => slice symbols i (i + S g))
                     (py_range0 (length symbols) (S g))) w Hoff) as (w' & -> & H).
      exists w'. split; [reflexivity|].
      pose proof (length_chunks (S g) symbols) as Hlen. unfold chunks in Hlen.
      rewrite Hlen in H. exact H.
Qed.

(** X17: on a client whose [respect_server] is off, no call ever waits
    or records a request instant: [last_request_time] keeps its value
    and the clock advances by the time of the downloads alone (one per
    [fetch_historical_data], one per group of [fetch_batch_multi], none
    for a group size of 0, which raises). *)
Theorem disabled_limiter_never_waits (duration : nat -> Q) (calls : list ClientCall)
    (w : ClientWorld) :
  respect_server (config w) = false ->
  exists w',
    perform_all duration calls w = (Returns tt, w') /\
    request_times w' = request_times w /\
    last_request_time w' = last_request_time w /\
    elapsed w' = (elapsed w + sum_list (map downloads calls))%nat /\
    (loop_time w'
     == loop_time w + time_taken duration (elapsed w) (sum_list (map downloads calls)))%Q.
Proof.
  intros Hoff.
  enough (H : exists w', perform_all duration calls w = (Returns tt, w') /\
                         only_downloads duration (sum_list (map downloads calls)) w w').
  { destruct H as (w' & Hrun & _ & Hr & Hl & He & Ht). exists w'. auto. }
  unfold perform_all. revert w Hoff. induction calls as [|c calls IH]; intros w Hoff.
  - exists w. split; [reflexivity|]. repeat split; simpl; try lia.
    unfold time_taken. simpl. lra.
  - destruct (perform_when_disabled duration c w Hoff) as (w1 & Hrun & H1).
    assert (Hoff1 : respect_server (config w1) = false).
    { destruct H1 as (-> & _). exact Hoff. }
    destruct (IH w1 Hoff1) as (w2 & Hrun2 & H2).
    exists w2. cbn [for_each]. unfold bind at 1. rewrite Hrun, Hrun2.
    split; [reflexivity|]. exact (only_downloads_trans duration _ _ _ _ _ H1 H2).
Qed.

Lemma disabled_limiter_never_waits_witness :
  let duration := fun _ : nat => (1 # 2)%Q in
  let calls := [Fetch_historical_data; Fetch_batch_multi ["AAPL"; "MSFT"; "SPY"] 2] in
  let w := YFinanceClient_init (mkYFinanceConfig true true false 30 false 60%Q false) 100%Q in
  exists w',
    perform_all duration calls w = (Returns tt, w') /\
    request_times w' = request_times w /\
    last_request_time w' = last_request_time w /\
    elapsed w' = (elapsed w + sum_list (map downloads calls))%nat /\
    (loop_time w'
     == loop_time w + time_taken duration (elapsed w) (sum_list (map downloads calls)))%Q.
Proof.
  exact (disabled_limiter_never_waits (fun _ => (1 # 2)%Q)
           [Fetch_historical_data; Fetch_batch_multi ["AAPL"; "MSFT"; "SPY"] 2]
           (YFinanceClient_init (mkYFinanceConfig true true false 30 false 60%Q false) 100%Q)
           eq_refl).
Defined.

(** ** The dict [fetch_batch_multi] returns *)

Lemma rate_limit_returns (duration : nat -> Q) (w : ClientWorld) :
  exists w', rate_limit duration w = (Returns tt, w').
Proof.
  unfold rate_limit, get_time, asyncio_sleep, record_request, pass_time. run_monad.
  destruct (respect_server (config w)); [|eauto].
  destruct (Qlt_le_dec _ _); simpl; eauto.
Qed.

Lemma comprehension_map {A B} (f : A -> outcome B) (g : A -> B) (l : list A) :
  (forall x, x ∈ l -> f x = Returns (g x)) ->
  comprehension f l = Returns (map g l).
Proof.
  induction l as [|x l IH]; intros Hf; simpl; [reflexivity|].
  rewrite (Hf x) by set_solver. rewrite IH by (intros y Hy; apply Hf; set_solver).
  reflexivity.
Qed.

Lemma build_symbol_map_lookup (asset_types : gmap string string) (symbols : list string)
    (s : string) :
  s ∈ symbols ->
  build_symbol_map asset_types symbols !! s
  = Some (_convert_symbol_to_yfinance s (asset_types !! s)).
Proof.
  unfold build_symbol_map. generalize (∅ : gmap string string) as m.
  enough (H : forall m : gmap string string,
            s ∈ symbols \/ m !! s = Some (_convert_symbol_to_yfinance s (asset_types !! s)) ->
            fold_left (fun symbol_map s0 =>
                         <[s0 := _convert_symbol_to_yfinance s0 (asset_types !! s0)]> symbol_map)
              symbols m !! s
            = Some (_convert_symbol_to_yfinance s (asset_types !! s))).
  { intros m Hin. apply H. left. exact Hin. }
  induction symbols as [|x symbols IH]; intros m [Hin|Hm]; simpl.
  - inversion Hin.
  - exact Hm.
  - apply elem_of_cons in Hin as [->|Hin].
    + apply IH. right. apply lookup_insert_eq.
    + apply IH. left. exact Hin.
  - apply IH. right. destruct (decide (x = s)) as [->|Hne].
    + apply lookup_insert_eq.
    + rewrite lookup_insert_ne by exact Hne. exact Hm.
Qed.

Section FramesFacts.
Variable Frame : Type.
Variable empty_frame : Frame.
Variable to_hedgevision : Frame -> string -> outcome Frame.
Variable yf_download : list string -> ClientWorld -> outcome (WithFrames.Download Frame).
Variable duration : nat -> Q.
Variable asset_types : gmap string string.

Let yf (s : string) : string := _convert_symbol_to_yfinance s (asset_types !! s).
#[local] Abbreviation BatchState := (WithFrames.BatchState Frame).
#[local] Abbreviation set_result := (WithFrames.set_result Frame).
#[local] Abbreviation fetch_group :=
  (WithFrames.fetch_group Frame empty_frame to_hedgevision yf_download duration).
#[local] Abbreviation segment :=
  (WithFrames.segment Frame empty_frame to_hedgevision asset_types).

(** A loop that stores [F orig] under every [orig] of the group. *)
Lemma for_each_set (F : string -> Frame) (body : string -> M BatchState unit)
    (group : list string) (b : BatchState) :
  (forall orig b0, orig ∈ group ->
     body orig b0
     = (Returns tt, WithFrames.mkBatchState (WithFrames.world b0)
                      (<[orig := F orig]> (WithFrames.results b0)))) ->
  exists b',
    for_each group body b = (Returns tt, b') /\
    WithFrames.world b' = WithFrames.world b /\
    (forall s, s ∈ group -> WithFrames.results b' !! s = Some (F s)) /\
    (forall s, s ∉ group -> WithFrames.results b' !! s = WithFrames.results b !! s).
Proof.
  revert b. induction group as [|x group IH]; intros b Hbody.
  - exists b. split; [reflexivity|]. split; [reflexivity|]. split; [|reflexivity].
    intros s Hs. inversion Hs.
  - destruct (IH (WithFrames.mkBatchState (WithFrames.world b)
                    (<[x := F x]> (WithFrames.results b))))
      as (b' & Hrun & Hw & Hin & Hout).
    { intros orig b0 Horig. apply Hbody. set_solver. }
    exists b'. cbn [for_each]. unfold bind. rewrite (Hbody x b) by set_solver.
    rewrite Hrun. split; [reflexivity|]. split; [exact Hw|]. split.
    + intros s Hs. destruct (decide (s ∈ group)) as [Hg|Hg]; [apply Hin, Hg|].
      rewrite (Hout s Hg). apply elem_of_cons in Hs as [->|Hs]; [|contradiction].
      apply lookup_insert_eq.
    + intros s Hs. apply not_elem_of_cons in Hs as [Hne Hs].
      rewrite (Hout s Hs). simpl. apply lookup_insert_ne. congruence.
Qed.

Lemma for_each_set_keeps (F : string -> Frame) (group : list string) (b b' : BatchState) :
  (forall s, s ∈ group -> WithFrames.results b' !! s = Some (F s)) ->
  (forall s, s ∉ group -> WithFrames.results b' !! s = WithFrames.results b !! s) ->
  forall s, is_Some (WithFrames.results b !! s) -> is_Some (WithFrames.results b' !! s).
Proof.
  intros Hin Hout s Hs. destruct (decide (s ∈ group)) as [Hg|Hg].
  - rewrite (Hin s Hg). eauto.
  - rewrite (Hout s Hg). exact Hs.
Qed.

Ltac other_answer := let H := fresh in intros ? H; discriminate H.

(** One turn of the loop over the groups. *)
Lemma fetch_group_effect (symbol_map : gmap string string) (group : list string)
    (b : BatchState) :
  (forall s, s ∈ group -> symbol_map !! s = Some (yf s)) ->
  exists b' w1,
    fetch_group symbol_map group b = (Returns tt, b') /\
    rate_limit duration (WithFrames.world b) = (Returns tt, w1) /\
    (rate_limit duration ;;; download duration) (WithFrames.world b)
    = (Returns tt, WithFrames.world b') /\
    (forall s, s ∉ group -> WithFrames.results b' !! s = WithFrames.results b !! s) /\
    (forall s, is_Some (WithFrames.results b !! s) -> is_Some (WithFrames.results b' !! s)) /\
    (forall s, head group = Some s -> is_Some (WithFrames.results b' !! s)) /\
    ((forall f, yf_download (map yf group) w1 <> Returns (WithFrames.FlatFrame f)) ->
     forall s, s ∈ group -> is_Some (WithFrames.results b' !! s)) /\
    (forall e, yf_download (map yf group) w1 = Raises e ->
     forall s, s ∈ group -> WithFrames.results b' !! s = Some empty_frame) /\
    (forall getitem, yf_download (map yf group) w1 = Returns (WithFrames.PerTicker getitem) ->
     forall s, s ∈ group -> WithFrames.results b' !! s = Some (segment getitem s)).
Proof.
  intros Hmap.
  destruct (rate_limit_returns duration (WithFrames.world b)) as (w1 & Hlimit).
  assert (Hempties : forall b0 : BatchState,
            exists b',
              for_each group (fun orig => set_result orig empty_frame) b0 = (Returns tt, b') /\
              WithFrames.world b' = WithFrames.world b0 /\
              (forall s, s ∈ group -> WithFrames.results b' !! s = Some empty_frame) /\
              (forall s, s ∉ group ->
                 WithFrames.results b' !! s = WithFrames.results b0 !! s)).
  { intros b0. apply (for_each_set (fun _ => empty_frame)). reflexivity. }
  unfold WithFrames.fetch_group.
  unfold bind at 1. unfold lift at 1.
  rewrite (comprehension_map _ yf) by (intros x Hx; unfold dict_getitem; rewrite Hmap; auto).
  unfold bind at 1. unfold WithFrames.on_world at 1. rewrite Hlimit.
  unfold try_except at 1. unfold bind at 1.
  unfold WithFrames.download_group, bind at 1, gets at 1. cbn [WithFrames.world].
  unfold bind at 1. unfold WithFrames.on_world at 1, download, send_request, pass_time.
  unfold bind at 1. unfold modify.
  cbn [WithFrames.world WithFrames.results]. unfold lift at 1.
  set (w2 := mkClientWorld _ _ _ _ _ _).
  assert (Htime : (rate_limit duration ;;; download duration) (WithFrames.world b)
                  = (Returns tt, w2)).
  { unfold bind at 1. rewrite Hlimit. reflexivity. }
  destruct (yf_download (map yf group) w1) as [[f|getitem]|e] eqn:Hdl.
  - (* a frame with flat columns *)
    destruct group as [|only rest].
    + destruct (Hempties (WithFrames.mkBatchState w2 (WithFrames.results b)))
        as (b' & Hrun & Hw & Hin & Hout).
      exists b', w1. rewrite Hdl. unfold bind at 1. unfold lift at 1. cbn [list_getitem lookup].
      simpl in Hrun. injection Hrun as <-. simpl.
      split; [reflexivity|]. split; [reflexivity|]. split; [exact Htime|].
      split; [reflexivity|]. split; [auto|]. split; [discriminate|].
      split; [intros _ s Hs; inversion Hs|]. split; other_answer.
    + unfold bind at 1. unfold lift at 1. unfold list_getitem. cbn [lookup list_lookup].
      unfold bind at 1. unfold lift at 1.
      destruct (to_hedgevision f only) as [df|e] eqn:Hconv.
      * eexists _, w1. rewrite Hdl. split; [reflexivity|]. split; [reflexivity|].
        split; [exact Htime|]. simpl. split.
        { intros s Hs. apply not_elem_of_cons in Hs as [Hne _].
          apply lookup_insert_ne. congruence. }
        split.
        { intros s Hs. apply lookup_insert_is_Some'. right. exact Hs. }
        split.
        { intros s [= <-]. rewrite lookup_insert_eq. eauto. }
        split.
        { intros Hno. destruct (Hno f eq_refl). }
        split; other_answer.
      * destruct (Hempties (WithFrames.mkBatchState w2 (WithFrames.results b)))
          as (b' & Hrun & Hw & Hin & Hout).
        exists b', w1. rewrite Hdl. rewrite Hrun.
        split; [reflexivity|]. split; [reflexivity|].
        split; [rewrite Hw; exact Htime|]. split; [exact Hout|].
        split; [exact (for_each_set_keeps _ _ _ _ Hin Hout)|].
        split.
        { intros s [= <-]. rewrite Hin by set_solver. eauto. }
        split.
        { intros Hno. destruct (Hno f eq_refl). }
        split; other_answer.
  - (* an answer read ticker by ticker *)
    destruct (for_each_set (segment getitem)
                (fun orig =>
                   yf_t <- lift (dict_getitem symbol_map orig) ;;
                   try_except
                     (sub <- lift (getitem yf_t) ;;
                      df <- lift (to_hedgevision sub orig) ;;
                      set_result orig df)
                     (fun _ => set_result orig empty_frame))
                group (WithFrames.mkBatchState w2 (WithFrames.results b)))
      as (b' & Hrun & Hw & Hin & Hout).
    { intros orig b0 Horig. unfold bind at 1, lift at 1, dict_getitem.
      rewrite (Hmap orig Horig). unfold try_except, bind, lift.
      unfold WithFrames.segment. fold (yf orig).
      destruct (getitem (yf orig)) as [sub|e1]; [|reflexivity].
      destruct (to_hedgevision sub orig) as [df|e2]; reflexivity. }
    exists b', w1. rewrite Hdl. rewrite Hrun.
    split; [reflexivity|]. split; [reflexivity|].
    split; [rewrite Hw; exact Htime|]. split; [exact Hout|].
    split; [exact (for_each_set_keeps _ _ _ _ Hin Hout)|].
    split.
    { intros s Hs. rewrite Hin; [eauto|]. destruct group; [discriminate|].
      injection Hs as <-. set_solver. }
    split.
    { intros _ s Hs. rewrite Hin by exact Hs. eauto. }
    split; [other_answer|].
    intros getitem' [= <-]. exact Hin.
  - (* the download raises *)
    destruct (Hempties (WithFrames.mkBatchState w2 (WithFrames.results b)))
      as (b' & Hrun & Hw & Hin & Hout).
    exists b', w1. rewrite Hdl. rewrite Hrun.
    split; [reflexivity|]. split; [reflexivity|].
    split; [rewrite Hw; exact Htime|]. split; [exact Hout|].
    split; [exact (for_each_set_keeps _ _ _ _ Hin Hout)|].
    split.
    { intros s Hs. rewrite Hin; [eauto|]. destruct group; [discriminate|].
      injection Hs as <-. set_solver. }
    split.
    { intros _ s Hs. rewrite Hin by exact Hs. eauto. }
    split; [intros e' _; exact Hin|other_answer].
Qed.
(** The loop over the groups. *)
Lemma fetch_groups_effect (symbol_map : gmap string string) (groups : list (list string))
    (b : BatchState) :
  (forall g s, g ∈ groups -> s ∈ g -> symbol_map !! s = Some (yf s)) ->
  exists b',
    for_each groups (fetch_group symbol_map) b = (Returns tt, b') /\
    for_each groups (fun _ => rate_limit duration ;;; download duration) (WithFrames.world b)
    = (Returns tt, WithFrames.world b') /\
    (forall s, is_Some (WithFrames.results b' !! s) ->
               is_Some (WithFrames.results b !! s) \/ s ∈ concat groups) /\
    (forall s, is_Some (WithFrames.results b !! s) -> is_Some (WithFrames.results b' !! s)) /\
    (forall g s, g ∈ groups -> head g = Some s -> is_Some (WithFrames.results b' !! s)) /\
    ((forall tickers w0 f, yf_download tickers w0 <> Returns (WithFrames.FlatFrame f)) ->
     forall s, s ∈ concat groups -> is_Some (WithFrames.results b' !! s)) /\
    ((forall tickers w0, exists e, yf_download tickers w0 = Raises e) ->
     (forall s v, WithFrames.results b !! s = Some v -> v = empty_frame) ->
     forall s v, WithFrames.results b' !! s = Some v -> v = empty_frame) /\
    (forall getitem,
       (forall tickers w0, yf_download tickers w0 = Returns (WithFrames.PerTicker getitem)) ->
       (forall s v, WithFrames.results b !! s = Some v -> v = segment getitem s) ->
       forall s v, WithFrames.results b' !! s = Some v -> v = segment getitem s).
Proof.
  revert b. induction groups as [|g groups IH]; intros b Hmap.
  - exists b. split; [reflexivity|]. split; [reflexivity|].
    split; [auto|]. split; [auto|].
    split; [intros g s Hg; inversion Hg|].
    split; [intros _ s Hs; inversion Hs|]. auto.
  - destruct (fetch_group_effect symbol_map g b) as
      (b1 & w1 & Hrun1 & Hlimit & Htime1 & Hout1 & Hkeep1 & Hhead1 & Hall1 & Hfail1 & Hseg1).
    { intros s Hs. apply (Hmap g); [set_solver|exact Hs]. }
    destruct (IH b1) as (b2 & Hrun2 & Htime2 & Hdom2 & Hkeep2 & Hhead2 & Hall2 & Hfail2 & Hseg2).
    { intros g' s Hg' Hs. apply (Hmap g'); [set_solver|exact Hs]. }
    exists b2. cbn [for_each concat]. split.
    { unfold bind. rewrite Hrun1. exact Hrun2. }
    split.
    { unfold bind at 1. rewrite Htime1. exact Htime2. }
    split.
    { intros s Hs. destruct (Hdom2 s Hs) as [H1|Hin].
      - destruct (decide (s ∈ g)) as [Hg|Hg].
        + right. apply elem_of_app. left. exact Hg.
        + left. rewrite <- (Hout1 s Hg). exact H1.
      - right. apply elem_of_app. right. exact Hin. }
    split; [auto|].
    split.
    { intros g' s Hg' Hs. apply elem_of_cons in Hg' as [->|Hg'].
      - apply Hkeep2, Hhead1, Hs.
      - exact (Hhead2 g' s Hg' Hs). }
    split.
    { intros Hno s Hs. apply elem_of_app in Hs as [Hs|Hs].
      - apply Hkeep2. apply Hall1; [|exact Hs]. intros f. apply Hno.
      - exact (Hall2 Hno s Hs). }
    split.
    { intros Hraise Hb. apply (Hfail2 Hraise). intros s v Hv.
      destruct (decide (s ∈ g)) as [Hg|Hg].
      - destruct (Hraise (map yf g) w1) as [e He].
        rewrite (Hfail1 e He s Hg) in Hv. congruence.
      - rewrite (Hout1 s Hg) in Hv. exact (Hb s v Hv). }
    intros getitem Hper Hb. apply (Hseg2 getitem Hper). intros s v Hv.
    destruct (decide (s ∈ g)) as [Hg|Hg].
    + rewrite (Hseg1 getitem (Hper _ _) s Hg) in Hv. congruence.
    + rewrite (Hout1 s Hg) in Hv. exact (Hb s v Hv).
Qed.
End FramesFacts.

Lemma elem_of_concat_chunks {A} (n : nat) (l : list A) (x : A) :
  (0 < n)%nat -> x ∈ concat (chunks n l) <-> x ∈ l.
Proof. intros Hn. unfold chunks. rewrite concat_slices by exact Hn. reflexivity. Qed.

Lemma elem_of_chunk {A} (n : nat) (l g : list A) (x : A) :
  (0 < n)%nat -> g ∈ chunks n l -> x ∈ g -> x ∈ l.
Proof.
  intros Hn Hg Hx. apply (elem_of_concat_chunks n l x Hn).
  apply list_elem_of_In, in_concat. exists g.
  split; apply list_elem_of_In; assumption.
Qed.

(** The run of [fetch_batch_multi] for a group size above 0, with what the
    loop over the groups leaves in [results]. *)
Lemma fetch_batch_multi_effect (Frame : Type) (empty_frame : Frame)
    (to_hedgevision : Frame -> string -> outcome Frame)
    (yf_download : list string -> ClientWorld -> outcome (WithFrames.Download Frame))
    (duration : nat -> Q) (symbols : list string)
    (asset_types : option (gmap string string)) (group_size : nat) (w : ClientWorld) :
  (0 < group_size)%nat ->
  exists results w',
    WithFrames.fetch_batch_multi Frame empty_frame to_hedgevision yf_download duration
      symbols asset_types group_size w = (Returns results, w') /\
    fetch_batch_multi duration symbols group_size w = (Returns tt, w') /\
    (forall s, is_Some (results !! s) -> s ∈ symbols) /\
    (forall g s, g ∈ chunks group_size symbols -> head g = Some s -> is_Some (results !! s)) /\
    ((forall tickers w0 f, yf_download tickers w0 <> Returns (WithFrames.FlatFrame f)) ->
     forall s, s ∈ symbols -> is_Some (results !! s)) /\
    ((forall tickers w0, exists e, yf_download tickers w0 = Raises e) ->
     forall s v, results !! s = Some v -> v = empty_frame) /\
    (forall getitem,
       (forall tickers w0, yf_download tickers w0 = Returns (WithFrames.PerTicker getitem)) ->
       forall s v, results !! s = Some v ->
                   v = WithFrames.segment Frame empty_frame to_hedgevision
                         (default ∅ asset_types) getitem s).
Proof.
  intros Hsize.
  destruct (fetch_groups_effect Frame empty_frame to_hedgevision yf_download duration
              (default ∅ asset_types)
              (build_symbol_map (default ∅ asset_types) symbols)
              (chunks group_size symbols)
              (WithFrames.mkBatchState w ∅))
    as (b' & Hrun & Htime & Hdom & _ & Hhead & Hall & Hfail & Hseg).
  { intros g s Hg Hs. apply build_symbol_map_lookup.
    exact (elem_of_chunk group_size symbols g s Hsize Hg Hs). }
  cbn [WithFrames.world WithFrames.results] in *.
  exists (WithFrames.results b'), (WithFrames.world b').
  destruct group_size as [|n]; [lia|]. split.
  { unfold WithFrames.fetch_batch_multi. cbn [chunk].
    unfold bind at 1. unfold lift at 1. unfold bind at 1.
    change (map (fun i => slice symbols i (i + S n)) (py_range0 (length symbols) (S n)))
      with (chunks (S n) symbols).
    rewrite Hrun. reflexivity. }
  split.
  { unfold fetch_batch_multi. cbn [chunk]. unfold bind at 1. unfold lift at 1.
    exact Htime. }
  split.
  { intros s Hs. destruct (Hdom s Hs) as [Hempty|Hin].
    - rewrite lookup_empty in Hempty. destruct Hempty as [? [=]].
    - apply (elem_of_concat_chunks (S n) symbols s Hsize), Hin. }
  split; [exact Hhead|]. split.
  { intros Hno s Hs. apply (Hall Hno).
    apply (elem_of_concat_chunks (S n) symbols s Hsize), Hs. }
  split.
  { intros Hraise. apply (Hfail Hraise). intros s v Hv.
    rewrite lookup_empty in Hv. discriminate. }
  intros getitem Hper. apply (Hseg getitem Hper). intros s v Hv.
  rewrite lookup_empty in Hv. discriminate.
Qed.

(** X18: for a group size above 0, [fetch_batch_multi] returns a dict
    whose keys are among the symbols asked for and include the first
    symbol of every group; unless a download comes back as a frame with
    flat columns, every symbol asked for has an entry; and when every
    download raises, every symbol has the empty frame.  The client's
    clock and recorded request instants end as the rate limiter alone
    leaves them. *)
Theorem batch_results_cover_the_symbols (Frame : Type) (empty_frame : Frame)
    (to_hedgevision : Frame -> string -> outcome Frame)
    (yf_download : list string -> ClientWorld -> outcome (WithFrames.Download Frame))
    (duration : nat -> Q) (symbols : list string)
    (asset_types : option (gmap string string)) (group_size : nat) (w : ClientWorld) :
  (0 < group_size)%nat ->
  exists results w',
    WithFrames.fetch_batch_multi Frame empty_frame to_hedgevision yf_download duration
      symbols asset_types group_size w = (Returns results, w') /\
    fetch_batch_multi duration symbols group_size w = (Returns tt, w') /\
    (forall s, is_Some (results !! s) -> s ∈ symbols) /\
    (forall g s, g ∈ chunks group_size symbols -> head g = Some s -> is_Some (results !! s)) /\
    ((forall tickers w0 f, yf_download tickers w0 <> Returns (WithFrames.FlatFrame f)) ->
     forall s, s ∈ symbols -> is_Some (results !! s)) /\
    ((forall tickers w0, exists e, yf_download tickers w0 = Raises e) ->
     forall s, s ∈ symbols -> results !! s = Some empty_frame).
Proof.
  intros Hsize.
  destruct (fetch_batch_multi_effect Frame empty_frame to_hedgevision yf_download duration
              symbols asset_types group_size w Hsize)
    as (results & w' & Hrun & Htime & Hkeys & Hhead & Hall & Hfail & _).
  exists results, w'. repeat (split; [assumption|]).
  intros Hraise s Hs.
  assert (Hsome : is_Some (results !! s)).
  { apply Hall; [|exact Hs]. intros tickers w0 f.
    destruct (Hraise tickers w0) as [e ->]. discriminate. }
  destruct Hsome as [v Hv]. rewrite Hv. f_equal. exact (Hfail Hraise s v Hv).
Qed.

Lemma batch_results_cover_the_symbols_witness :
  let yf_download := fun (tickers : list string) (_ : ClientWorld) =>
    if bool_decide ("MSFT" ∈ tickers)
    then Raises (Exception "TimeoutError" "provider timed out")
    else Returns (WithFrames.FlatFrame [100; 101]) in
  let symbols := ["AAPL.US"; "BTC.CC"; "MSFT"] in
  let w := YFinanceClient_init YFinanceConfig_default 100%Q in
  exists results w',
    WithFrames.fetch_batch_multi (list Z) [] (fun f _ => Returns f) yf_download
      (fun _ => (1 # 2)%Q) symbols None 2 w = (Returns results, w') /\
    fetch_batch_multi (fun _ => (1 # 2)%Q) symbols 2 w = (Returns tt, w') /\
    (forall s, is_Some (results !! s) -> s ∈ symbols) /\
    (forall g s, g ∈ chunks 2 symbols -> head g = Some s -> is_Some (results !! s)) /\
    ((forall tickers w0 f, yf_download tickers w0 <> Returns (WithFrames.FlatFrame f)) ->
     forall s, s ∈ symbols -> is_Some (results !! s)) /\
    ((forall tickers w0, exists e, yf_download tickers w0 = Raises e) ->
     forall s, s ∈ symbols -> results !! s = Some []).
Proof.
  apply (batch_results_cover_the_symbols (list Z) [] (fun f _ => Returns f)
           (fun (tickers : list string) (_ : ClientWorld) =>
              if bool_decide ("MSFT" ∈ tickers)
              then Raises (Exception "TimeoutError" "provider timed out")
              else Returns (WithFrames.FlatFrame [100; 101]))
           (fun _ => (1 # 2)%Q) ["AAPL.US"; "BTC.CC"; "MSFT"] None 2
           (YFinanceClient_init YFinanceConfig_default 100%Q)).
  lia.
Defined.

(** A flat frame in answer to a group of two leaves the second symbol of
    the group out of the dict. *)
Example flat_answer_drops_the_rest :
  let yf_download := fun (tickers : list string) (_ : ClientWorld) =>
    Returns (WithFrames.FlatFrame [100; 101]) in
  exists results,
    fst (WithFrames.fetch_batch_multi (list Z) [] (fun f _ => Returns f) yf_download
           (fun _ => (1 # 2)%Q) ["AAPL.US"; "MSFT"] None 2
           (YFinanceClient_init YFinanceConfig_default 100%Q)) = Returns results /\
    results !! "AAPL.US" = Some [100; 101] /\
    results !! "MSFT" = None.
Proof.
  cbv zeta. eexists. split; [vm_compute; reflexivity|].
  split; vm_compute; reflexivity.
Qed.

(** X19: for a group size above 0 and a provider that answers every
    download per ticker with the same data, the keys of the dict
    [fetch_batch_multi] returns are exactly the symbols asked for, and
    the frame under a symbol is the converted segment found under its
    Yahoo ticker ([_convert_symbol_to_yfinance] of the symbol and its
    entry in [asset_types]), or the empty frame when that segment is
    missing or its conversion raises. *)
Theorem batch_results_by_ticker (Frame : Type) (empty_frame : Frame)
    (to_hedgevision : Frame -> string -> outcome Frame)
    (yf_download : list string -> ClientWorld -> outcome (WithFrames.Download Frame))
    (getitem : string -> outcome Frame)
    (duration : nat -> Q) (symbols : list string)
    (asset_types : option (gmap string string)) (group_size : nat) (w : ClientWorld) :
  (0 < group_size)%nat ->
  (forall tickers w0, yf_download tickers w0 = Returns (WithFrames.PerTicker getitem)) ->
  exists results w',
    WithFrames.fetch_batch_multi Frame empty_frame to_hedgevision yf_download duration
      symbols asset_types group_size w = (Returns results, w') /\
    (forall s, is_Some (results !! s) <-> s ∈ symbols) /\
    (forall s, s ∈ symbols ->
       results !! s
       = Some match getitem (_convert_symbol_to_yfinance s (default ∅ asset_types !! s)) with
              | Returns sub =>
                  match to_hedgevision sub s with
                  | Returns df => df
                  | Raises _ => empty_frame
                  end
              | Raises _ => empty_frame
              end).
Proof.
  intros Hsize Hper.
  destruct (fetch_batch_multi_effect Frame empty_frame to_hedgevision yf_download duration
              symbols asset_types group_size w Hsize)
    as (results & w' & Hrun & _ & Hkeys & _ & Hall & _ & Hseg).
  assert (Hsome : forall s, s ∈ symbols -> is_Some (results !! s)).
  { apply Hall. intros tickers w0 f. rewrite Hper. discriminate. }
  exists results, w'. split; [exact Hrun|]. split.
  - intros s. split; [apply Hkeys|apply Hsome].
  - intros s Hs. destruct (Hsome s Hs) as [v Hv]. rewrite Hv. f_equal.
    exact (Hseg getitem Hper s v Hv).
Qed.

Lemma batch_results_by_ticker_witness :
  let getitem := fun yf_t : string =>
    if String.eqb yf_t "AAPL" then Returns [189; 190]
    else if String.eqb yf_t "BTC-USD" then Returns [67000]
    else Raises (Exception "KeyError" yf_t) in
  let symbols := ["AAPL.US"; "BTC.CC"; "MSFT"] in
  exists results w',
    WithFrames.fetch_batch_multi (list Z) [] (fun f _ => Returns f)
      (fun _ _ => Returns (WithFrames.PerTicker getitem))
      (fun _ => (1 # 2)%Q) symbols None 2
      (YFinanceClient_init YFinanceConfig_default 100%Q) = (Returns results, w') /\
    (forall s, is_Some (results !! s) <-> s ∈ symbols) /\
    (forall s, s ∈ symbols ->
       results !! s
       = Some match getitem (_convert_symbol_to_yfinance s (default ∅ (None : option (gmap string string)) !! s)) with
              | Returns sub =>
                  match (fun f _ => Returns f) sub s with
                  | Returns df => df
                  | Raises _ => []
                  end
              | Raises _ => []
              end).
Proof.
  apply (batch_results_by_ticker (list Z) [] (fun f _ => Returns f)
           (fun _ _ => Returns (WithFrames.PerTicker
              (fun yf_t : string =>
                 if String.eqb yf_t "AAPL" then Returns [189; 190]
                 else if String.eqb yf_t "BTC-USD" then Returns [67000]
                 else Raises (Exception "KeyError" yf_t))))
           (fun yf_t : string =>
              if String.eqb yf_t "AAPL" then Returns [189; 190]
              else if String.eqb yf_t "BTC-USD" then Returns [67000]
              else Raises (Exception "KeyError" yf_t))
           (fun _ => (1 # 2)%Q) ["AAPL.US"; "BTC.CC"; "MSFT"] None 2
           (YFinanceClient_init YFinanceConfig_default 100%Q)).
  - lia.
  - intros tickers w0. reflexivity.
Defined.
